(** * Scores and results of benchmark runs

  A shallow embedding of [amlb/results.py]: the [Result] classes that
  score a predictions table, the [TaskResult] orchestration that builds
  one score record, and the [Scoreboard] ledger that stores them.

  Python strings are modelled as [string] over ASCII characters, Python
  integers as [Z], exceptions as values of [exn] carried by [res]. *)

From Stdlib Require Import String Ascii List ZArith Bool Lia DecimalString.
From Stdlib Require Import Sorted Permutation.
Import ListNotations.
Local Open Scope list_scope.
Local Open Scope string_scope.

(** ** Python values, exceptions *)

Module Py.

(** An exception of class [Exception] or one of its subclasses:
    [exn_class] is [type(e).__qualname__], [exn_msg] is [str(e)]. *)
Record exn := Exn { exn_class : string; exn_msg : string }.

Inductive res (A : Type) : Type :=
| Ok (a : A)
| Raise (e : exn).
Arguments Ok {A} a.
Arguments Raise {A} e.

Definition bind {A B} (m : res A) (k : A -> res B) : res B :=
  match m with
  | Ok a => k a
  | Raise e => Raise e
  end.

(** A binary64 number as the code sees it: NaN, an infinity, or the
    finite value [m * 2^e]. No arithmetic of the module is modelled on
    it, only the tests [isnan] and the conversion [int]. *)
Inductive pyfloat := FNaN | FInf (negative : bool) | FNum (m e : Z).

Definition nan : pyfloat := FNaN.

Definition isnan (f : pyfloat) : bool :=
  match f with FNaN => true | _ => false end.

Inductive pyval :=
| PNone
| PBool (b : bool)
| PInt (z : Z)
| PFloat (f : pyfloat)
| PStr (s : string)
| PObj (repr : string).   (* any other object, by its repr *)

Definition truthy (v : pyval) : bool :=
  match v with
  | PNone => false
  | PBool b => b
  | PInt z => negb (Z.eqb z 0)
  | PFloat (FNum m _) => negb (Z.eqb m 0)
  | PFloat _ => true
  | PStr s => negb (String.eqb s "")
  | PObj _ => true
  end.

(** [str(z)] for an integer. *)
Definition str_of_int (z : Z) : string := NilZero.string_of_int (Z.to_int z).

Definition pyfloat_eq_dec (x y : pyfloat) : {x = y} + {x <> y}.
Proof. decide equality; try apply Z.eq_dec; apply Bool.bool_dec. Defined.

Definition pyval_eq_dec (x y : pyval) : {x = y} + {x <> y}.
Proof.
  decide equality; try apply string_dec; try apply Z.eq_dec;
    try apply Bool.bool_dec; apply pyfloat_eq_dec.
Defined.

End Py.
Import Py.

Notation "x <- m ;; k" := (Py.bind m (fun x => k))
  (at level 61, m at next level, right associativity).
Notation "' pat <- m ;; k" := (Py.bind m (fun x => match x with pat => k end))
  (at level 61, pat pattern, m at next level, right associativity).

(** ** Strings and paths *)

Module Str.

Fixpoint chars (s : string) : list ascii :=
  match s with
  | EmptyString => []
  | String a s' => a :: chars s'
  end.

Fixpoint of_chars (l : list ascii) : string :=
  match l with
  | [] => EmptyString
  | a :: l' => String a (of_chars l')
  end.

Definition code (a : ascii) : nat := nat_of_ascii a.

Definition is_digit (a : ascii) : bool :=
  Nat.leb 48 (code a) && Nat.leb (code a) 57.

Definition is_alpha (a : ascii) : bool :=
  (Nat.leb 65 (code a) && Nat.leb (code a) 90)
  || (Nat.leb 97 (code a) && Nat.leb (code a) 122).

(** [int(s)] for a string of decimal digits. *)
Definition int_of_digits (s : string) : Z :=
  fold_left (fun acc a => (10 * acc + Z.of_nat (code a - 48))%Z) (chars s) 0%Z.

Definition startswith (p s : string) : bool := String.prefix p s.

Fixpoint endswith_char (c : ascii) (s : string) : bool :=
  match s with
  | EmptyString => false
  | String a EmptyString => Ascii.eqb a c
  | String _ s' => endswith_char c s'
  end.

(** [sep.join(l)] *)
Fixpoint join (sep : string) (l : list string) : string :=
  match l with
  | [] => ""
  | [x] => x
  | x :: l' => x ++ sep ++ join sep l'
  end.

(** [s.rstrip('/')] *)
Definition rstrip_slash (s : string) : string :=
  of_chars (rev (
    (fix drop (l : list ascii) :=
       match l with
       | a :: l' => if Ascii.eqb a "/" then drop l' else l
       | [] => []
       end) (rev (chars s)))).

(** Position just after the last ["/"], i.e. [p.rfind('/') + 1]. *)
Fixpoint after_last_slash (l : list ascii) : nat :=
  match l with
  | [] => 0
  | a :: l' =>
      match after_last_slash l' with
      | O => if Ascii.eqb a "/" then 1 else 0
      | S n => S (S n)
      end
  end.

Definition all_slashes (s : string) : bool :=
  forallb (fun a => Ascii.eqb a "/") (chars s).

End Str.

(** [os.path] on POSIX. *)
Module OsPath.

Definition split (p : string) : string * string :=
  let l := Str.chars p in
  let i := Str.after_last_slash l in
  let head := Str.of_chars (firstn i l) in
  let tail := Str.of_chars (skipn i l) in
  let head :=
    if negb (String.eqb head "") && negb (Str.all_slashes head)
    then Str.rstrip_slash head else head in
  (head, tail).

Definition join2 (path b : string) : string :=
  if Str.startswith "/" b then b
  else if String.eqb path "" || Str.endswith_char "/" path then path ++ b
  else path ++ "/" ++ b.

Definition join (a : string) (p : list string) : string :=
  fold_left join2 p a.

End OsPath.

(** ** The regular expressions of the module

  The patterns of the module are sequences of single characters and of
  named groups. Matching follows [re]'s backtracking order: a greedy
  [+] tries the longest run first, a lazy [+?] the shortest. *)

Module Re.

Inductive cclass :=
| Word                 (* [\w\-] *)
| Digit                (* \d *)
| Dot                  (* . : any character but a newline *)
| Lit (a : ascii).

Definition in_class (c : cclass) (a : ascii) : bool :=
  match c with
  | Word => Str.is_alpha a || Str.is_digit a || Ascii.eqb a "_" || Ascii.eqb a "-"
  | Digit => Str.is_digit a
  | Dot => negb (Ascii.eqb a "010")
  | Lit b => Ascii.eqb a b
  end.

Inductive node :=
| Ch (c : cclass)
| Plus (name : string) (lazy : bool) (c : cclass)   (* (?P<name>c+) or (?P<name>c+?) *)
| Group (name : string) (body : list cclass).       (* (?P<name>c1 c2 ...) *)

Definition pattern := list node.
Definition groupdict := list (string * string).

Inductive anchor := Full | Prefix.   (* re.fullmatch, re.match *)

(** Text written as such in a pattern. *)
Definition lit (s : string) : pattern := map (fun a => Ch (Lit a)) (Str.chars s).

(** Text interpolated into a pattern without escaping: a ["."] in it is
    the metacharacter. Faithful for tokens that are [plain]. *)
Definition raw (s : string) : pattern :=
  map (fun a => if Ascii.eqb a "." then Ch Dot else Ch (Lit a)) (Str.chars s).

Definition metachar (a : ascii) : bool :=
  existsb (Ascii.eqb a) (Str.chars "^$*+?{}[]\|()").

Definition plain (s : string) : bool :=
  forallb (fun a => negb (metachar a)) (Str.chars s).

Section Engine.
Context {R : Type}.

  (** [taken] (reversed) has been consumed by the repetition, [s] is left. *)
Fixpoint more (lazy : bool) (c : cclass) (k : list ascii -> string -> option R)
           (taken : list ascii) (s : string) {struct s} : option R :=
    let extend :=
      match s with
      | String a s' =>
          if in_class c a then more lazy c k (a :: taken) s' else None
      | EmptyString => None
      end in
    if lazy then
      match k taken s with
      | Some r => Some r
      | None => extend
      end
    else
      match extend with
      | Some r => Some r
      | None => k taken s
      end.

Definition plus (lazy : bool) (c : cclass) (k : list ascii -> string -> option R)
             (s : string) : option R :=
    match s with
    | String a s' => if in_class c a then more lazy c k [a] s' else None
    | EmptyString => None
    end.
End Engine.

Fixpoint take (body : list cclass) (s : string) : option (string * string) :=
  match body with
  | [] => Some ("", s)
  | c :: body' =>
      match s with
      | String a s' =>
          if in_class c a then
            match take body' s' with
            | Some (t, rest) => Some (String a t, rest)
            | None => None
            end
          else None
      | EmptyString => None
      end
  end.

Fixpoint run (an : anchor) (p : pattern) (s : string) (g : groupdict) : option groupdict :=
  match p with
  | [] =>
      match an, s with
      | Full, String _ _ => None
      | _, _ => Some g
      end
  | Ch c :: p' =>
      match s with
      | String a s' => if in_class c a then run an p' s' g else None
      | EmptyString => None
      end
  | Plus name lazy c :: p' =>
      plus lazy c
           (fun taken rest => run an p' rest ((name, Str.of_chars (rev taken)) :: g)) s
  | Group name body :: p' =>
      match take body s with
      | Some (t, rest) => run an p' rest ((name, t) :: g)
      | None => None
      end
  end.

Definition fullmatch (p : pattern) (s : string) : option groupdict := run Full p s [].
Definition match_ (p : pattern) (s : string) : option groupdict := run Prefix p s [].

Fixpoint group (d : groupdict) (name : string) : option string :=
  match d with
  | [] => None
  | (n, v) :: d' => if String.eqb n name then Some v else group d' name
  end.

End Re.

(** ** Run-wide settings

    [rconfig()] and [rget()] are collaborators outside the module; the
    settings the module reads are taken as a record. *)

Record Config := {
  token_separator : string;
  test_mode : bool;
  run_mode : pyval;
  app_version : pyval;
  error_max_length : Z;
  default_scores_dir : string;        (* output_dirs(...).scores *)
  default_predictions_dir : string;   (* output_dirs(...).predictions *)
}.

(** ** File names of the ledger: [Scoreboard.from_file], [Scoreboard._score_file] *)

Module Naming.

(** A name of the scope of a ledger: [None], [False] (what [from_file]
    stores for a group that the pattern lacks) or a string. *)
Inductive name := NNone | NFalse | NStr (s : string).

Definition name_truthy (n : name) : bool :=
  match n with
  | NStr s => negb (String.eqb s "")
  | _ => false
  end.

(** [f"{n}"] *)
Definition name_str (n : name) : string :=
  match n with
  | NNone => "None"
  | NFalse => "False"
  | NStr s => s
  end.

Record Scope := {
  framework_name : name;
  benchmark_name : name;
  task_name : name;
  scores_dir : string;
}.

Definition results_file : string := "results.csv".

Definition dot_csv : Re.pattern := Re.lit ".csv".

Definition from_file_patterns (sep : string) : list Re.pattern :=
  [ Re.raw results_file;
    [Re.Plus "framework" false Re.Word] ++ Re.raw sep ++ Re.lit "benchmark" ++ Re.raw sep
      ++ [Re.Plus "benchmark" false Re.Word] ++ dot_csv;
    Re.lit "benchmark" ++ Re.raw sep ++ [Re.Plus "benchmark" false Re.Word] ++ dot_csv;
    [Re.Plus "framework" false Re.Word] ++ Re.raw sep ++ Re.lit "task" ++ Re.raw sep
      ++ [Re.Plus "task" false Re.Word] ++ dot_csv;
    Re.lit "task" ++ Re.raw sep ++ [Re.Plus "task" false Re.Word] ++ dot_csv;
    [Re.Plus "framework" false Re.Word] ++ dot_csv ]%list.

(** The loop over [patterns]: the groups of the first pattern that matches. *)
Fixpoint first_match (pats : list Re.pattern) (basename : string) : option Re.groupdict :=
  match pats with
  | [] => None
  | pat :: pats' =>
      match Re.fullmatch pat basename with
      | Some d => Some d
      | None => first_match pats' basename
      end
  end.

(** ['k' in d and d['k']] *)
Definition in_and_get (d : Re.groupdict) (k : string) : name :=
  match Re.group d k with
  | Some v => NStr v
  | None => NFalse
  end.

(** [Scoreboard.__init__], the part that fixes the directory. *)
Definition init_scores_dir (cfg : Config) (scores_dir : option string) : string :=
  match scores_dir with
  | Some d => if String.eqb d "" then default_scores_dir cfg else d
  | None => default_scores_dir cfg
  end.

(** [Scoreboard.from_file]: [None] when no pattern matches, else the
    scope given to the constructor. *)
Definition from_file (cfg : Config) (path : string) : option Scope :=
  let sep := token_separator cfg in
  let '(folder, basename) := OsPath.split path in
  match first_match (from_file_patterns sep) basename with
  | None => None
  | Some d =>
      let scores_dir := if String.eqb path basename then None else Some folder in
      Some {| framework_name := in_and_get d "framework";
              benchmark_name := in_and_get d "benchmark";
              task_name := in_and_get d "task";
              scores_dir := init_scores_dir cfg scores_dir |}
  end.

(** [Scoreboard._score_file] *)
Definition score_file_name (sep : string) (sc : Scope) : string :=
  if name_truthy (framework_name sc) then
    if name_truthy (task_name sc) then
      name_str (framework_name sc) ++ sep ++ "task_" ++ name_str (task_name sc) ++ ".csv"
    else if name_truthy (benchmark_name sc) then
      name_str (framework_name sc) ++ sep ++ "benchmark_" ++ name_str (benchmark_name sc) ++ ".csv"
    else
      name_str (framework_name sc) ++ ".csv"
  else
    if name_truthy (task_name sc) then
      "task_" ++ name_str (task_name sc) ++ ".csv"
    else if name_truthy (benchmark_name sc) then
      "benchmark_" ++ name_str (benchmark_name sc) ++ ".csv"
    else
      results_file.

Definition _score_file (cfg : Config) (sc : Scope) : string :=
  OsPath.join (scores_dir sc) [score_file_name (token_separator cfg) sc].

(** What the naming sentence of the specification asks for a scope of a
    framework and a task: [<framework><sep>task<sep><task>.csv]. *)
Definition spec_framework_task_file (sep fw task : string) : string :=
  fw ++ sep ++ "task" ++ sep ++ task ++ ".csv".

(** Two scopes name the same ledger when their names agree up to the
    unset values [None] and [False]. *)
Definition same_name (a b : name) : bool :=
  match a, b with
  | NStr x, NStr y => String.eqb x y
  | NStr _, _ | _, NStr _ => false
  | _, _ => true
  end.

Definition same_scope (a b : Scope) : bool :=
  same_name (framework_name a) (framework_name b)
  && same_name (benchmark_name a) (benchmark_name b)
  && same_name (task_name a) (task_name b)
  && String.eqb (scores_dir a) (scores_dir b).

End Naming.

(** ** Identity of a predictions file:
       the first part of [TaskResult.score_from_predictions_file] *)

Module Identity.

(** The folder pattern as [re] receives it. In the source it is an [rf]
    string, so the braces of [\d{8}] and [\d{6}] are replacement fields
    and the text of the pattern is [\d8T\d6]; the group around the date
    has no [?]. *)
Definition folder_pat (sep : string) : Re.pattern :=
  (Re.lit "/" ++ [Re.Plus "framework" true Re.Word] ++ Re.raw sep
    ++ [Re.Plus "benchmark" false Re.Word] ++ Re.raw sep
    ++ [Re.Plus "constraint" false Re.Word] ++ Re.raw sep
    ++ [Re.Plus "mode" false Re.Word]
    ++ Re.raw sep
    ++ [Re.Group "datetime" [Re.Digit; Re.Lit "8"; Re.Lit "T"; Re.Digit; Re.Lit "6"]]
    ++ Re.lit "/")%list.

Definition file_pat (sep : string) : Re.pattern :=
  ([Re.Plus "framework" true Re.Word] ++ Re.raw sep
    ++ [Re.Plus "task" false Re.Word] ++ Re.raw sep
    ++ [Re.Plus "fold" false Re.Digit] ++ Re.lit ".csv")%list.

Record t := {
  folder_g : Re.groupdict;       (* empty for the default dictionary *)
  framework_name : string;
  task_name : string;
  fold : Z;
  constraint : option string;
  benchmark : option string;
}.

(** [TaskResult.score_from_predictions_file] up to line 331, where the
    identity is complete: the values of [folder_g], [framework_name],
    [task_name], [fold], [constraint] and [benchmark]. [None] is the early
    [return None]. *)
Definition score_from_predictions_file_identity (cfg : Config) (path : string) : option t :=
  let sep := token_separator cfg in
  let '(folder, basename) := OsPath.split path in
  let folder_g :=
    if negb (String.eqb folder "") then
      match Re.match_ (folder_pat sep) folder with
      | Some g => g
      | None => []
      end
    else [] in
  match Re.fullmatch (file_pat sep) basename with
  | None => None
  | Some file_g =>
      match Re.group file_g "framework", Re.group file_g "task", Re.group file_g "fold" with
      | Some fw, Some task, Some fold =>
          Some {| folder_g := folder_g;
                  framework_name := fw;
                  task_name := task;
                  fold := Str.int_of_digits fold;
                  constraint := Re.group folder_g "constraint";
                  benchmark := Re.group folder_g "benchmark" |}
      | _, _, _ => None
      end
  end.

(** Texts without a ["/"], and patterns with a literal one. *)
Definition no_slash (s : string) : Prop := ~ In "/"%char (Str.chars s).

Definition wants_slash (p : Re.pattern) : Prop := In (Re.Ch (Re.Lit "/")) p.

End Identity.

(** ** Namespaces *)

Module Namespace.

(** Modelled from the spec: [Namespace] of [amlb.utils], which is not part
    of the module. It is a record of named fields kept in insertion
    order; a field that was never set reads as unset ([None]); [in] tests
    for a field; [%] adds the fields of its right operand that the left
    one lacks and never overwrites one. *)
Definition t := list (string * pyval).

Fixpoint get (ns : t) (k : string) : option pyval :=
  match ns with
  | [] => None
  | (k', v) :: ns' => if String.eqb k' k then Some v else get ns' k
  end.

Definition contains (ns : t) (k : string) : bool :=
  match get ns k with Some _ => true | None => false end.

(** [ns.k] and [ns[k]] *)
Definition getattr (ns : t) (k : string) : pyval :=
  match get ns k with Some v => v | None => PNone end.

(** [ns[k] = v]: a field keeps its place when it is set again. *)
Fixpoint set (ns : t) (k : string) (v : pyval) : t :=
  match ns with
  | [] => [(k, v)]
  | (k', v') :: ns' =>
      if String.eqb k' k then (k', v) :: ns' else (k', v') :: set ns' k v
  end.

(** [a % b] *)
Definition merge_missing (a b : t) : t :=
  fold_left (fun acc kv => if contains acc (fst kv) then acc else set acc (fst kv) (snd kv)) b a.

Definition keys (ns : t) : list string := map fst ns.

End Namespace.

(** ** The result classes *)

Module Results.

(** Modelled from the spec: [DatasetType] of [amlb.data], the enumeration
    of the task types. *)
Inductive DatasetType := binary | multiclass | regression.

Definition DatasetType_name (t : DatasetType) : string :=
  match t with
  | binary => "binary"
  | multiclass => "multiclass"
  | regression => "regression"
  end.

(** [f"{self.type}"] *)
Definition type_str (t : option DatasetType) : string :=
  match t with
  | None => "None"
  | Some t => "DatasetType." ++ DatasetType_name t
  end.

(** A predictions table, as far as the module looks into it: the number
    of its columns and, for each function of [amlb.datautils] that a
    metric method applies to it, what the call returns or raises (with the
    conversion by [float] where the method has one). *)
Record Table := {
  n_columns : nat;                        (* df.shape[1] *)
  accuracy_score : res pyval;
  balanced_accuracy_score : res pyval;
  roc_auc_score : res pyval;
  confusion_matrix : res pyval;
  per_class_errors : res pyval;           (* the list built from the confusion matrix *)
  mean_of_errors : res pyval;             (* statistics.mean of that list *)
  max_of_errors : res pyval;              (* max of that list *)
  f1_score : res pyval;
  log_loss : res pyval;
  mean_absolute_error : res pyval;
  mean_squared_error : res pyval;
  mean_squared_log_error : res pyval;
  r2_score : res pyval;
}.

(** An attribute of an object, by what [getattr(self, name)()] does. *)
Inductive attr :=
| Data (tyname : string)      (* a value that cannot be called; its type's name *)
| Method (call : res pyval).  (* a callable, and what the call without argument does *)

Definition call0 (a : attr) : res pyval :=
  match a with
  | Data ty => Raise (Exn "TypeError" ("'" ++ ty ++ "' object is not callable"))
  | Method c => c
  end.

(** What the interpreter supplies: the attributes every instance inherits
    from [object], [math.sqrt], and the printing and reading of floats. *)
Record Python := {
  object_attr : string -> option attr;
  math_sqrt : pyval -> res pyval;
  float_str : pyfloat -> string;                 (* str(f) *)
  format_1f : pyfloat -> string;                 (* "{:.1f}".format(f) *)
  format_6g : pyfloat -> string;                 (* "{:.6g}".format(f) *)
  float_of_str : string -> option pyfloat;       (* float(s), [None] for a ValueError *)
}.

Inductive Class := NoResult_ | ErrorResult_ | ClassificationResult_ | RegressionResult_.

Record Result := {
  class : Class;
  df : option Table;
  info : option string;
  type_ : option DatasetType;
}.

(** [NoResult(info)] *)
Definition NoResult (info : option string) : Result :=
  {| class := NoResult_; df := None; info := info; type_ := None |}.

(** [s[:n]] *)
Definition slice_to (n : Z) (s : string) : string :=
  let l := Str.chars s in
  if (0 <=? n)%Z then Str.of_chars (firstn (Z.to_nat n) l)
  else Str.of_chars (firstn (length l - Z.to_nat (- n)) l).

(** [ErrorResult(error)] for an [error] of class [cls] and text [msg]. *)
Definition ErrorResult (cfg : Config) (error : exn) : Result :=
  let msg := exn_class error ++ ": " ++ exn_msg error in
  let max_len := error_max_length cfg in
  let msg :=
    if (Z.of_nat (String.length msg) <=? max_len)%Z then msg
    else slice_to (max_len - 3) msg ++ "..." in
  {| class := ErrorResult_; df := None; info := Some msg; type_ := None |}.

(** [ClassificationResult(df)], [RegressionResult(df)]: the attributes are
    arrays cut out of the table; only the type and the info are kept. *)
Definition ClassificationResult (t : Table) (info : option string) : Result :=
  {| class := ClassificationResult_; df := Some t; info := info;
     type_ := Some (if Nat.eqb (n_columns t - 2) 2 then binary else multiclass) |}.

Definition RegressionResult (t : Table) (info : option string) : Result :=
  {| class := RegressionResult_; df := Some t; info := info; type_ := Some regression |}.

Definition missing_arg (fn arg : string) : res pyval :=
  Raise (Exn "TypeError" (fn ++ "() missing 1 required positional argument: '" ++ arg ++ "'")).

Definition lookup {A} (tbl : list (string * A)) (k : string) : option A :=
  match find (fun kv => String.eqb (fst kv) k) tbl with
  | Some kv => Some (snd kv)
  | None => None
  end.

Definition or_none (o : option Table) (ty : string) : attr :=
  match o with Some _ => Data ty | None => Data "NoneType" end.

(** The attributes set on the instance by the [__init__] methods. *)
Definition instance_attrs (r : Result) : list (string * attr) :=
  ([ ("df", or_none (df r) "DataFrame");
    ("info", Data (match info r with Some _ => "str" | None => "NoneType" end));
    ("truth", or_none (df r) "numpy.ndarray");
    ("predictions", or_none (df r) "numpy.ndarray");
    ("target", match class r with
               | ClassificationResult_ | RegressionResult_ => Data "Feature"
               | _ => Data "NoneType"
               end);
    ("type", Data (match type_ r with Some _ => "DatasetType" | None => "NoneType" end)) ]
  ++ match class r with
     | ClassificationResult_ =>
         [ ("classes", Data "numpy.ndarray");
           ("probabilities", Data "numpy.ndarray");
           ("labels", Data "numpy.ndarray") ]
     | NoResult_ | ErrorResult_ => [ ("missing_result", Data "float") ]
     | RegressionResult_ => []
     end)%list.

Definition after {A} (first : res pyval) (then_ : res A) : res A :=
  _ <- first ;; then_.

(** The methods of [ClassificationResult]. *)
Definition classification_methods (r : Result) (t : Table) : list (string * attr) :=
  [ ("acc", Method (accuracy_score t));
    ("balacc", Method (balanced_accuracy_score t));
    ("auc", Method (match type_ r with
                    | Some binary => roc_auc_score t
                    | _ => Ok (PFloat nan)
                    end));
    ("cm", Method (confusion_matrix t));
    ("_per_class_errors", Method (after (confusion_matrix t) (per_class_errors t)));
    ("mean_pce", Method (after (after (confusion_matrix t) (per_class_errors t)) (mean_of_errors t)));
    ("max_pce", Method (after (after (confusion_matrix t) (per_class_errors t)) (max_of_errors t)));
    ("f1", Method (f1_score t));
    ("logloss", Method (log_loss t));
    ("_autoencode", Method (missing_arg "_autoencode" "vec")) ].

(** The methods of [RegressionResult]. *)
Definition regression_methods (py : Python) (t : Table) : list (string * attr) :=
  [ ("mae", Method (mean_absolute_error t));
    ("mse", Method (mean_squared_error t));
    ("msle", Method (mean_squared_log_error t));
    ("rmse", Method (v <- mean_squared_error t ;; math_sqrt py v));
    ("rmsle", Method (v <- mean_squared_log_error t ;; math_sqrt py v));
    ("r2", Method (r2_score t)) ].

(** The methods of [Result]. *)
Definition result_methods : list (string * attr) :=
  [ ("__init__", Method (missing_arg "__init__" "predictions_df"));
    ("evaluate", Method (missing_arg "evaluate" "metric")) ].

Definition class_attrs (py : Python) (r : Result) : list (string * attr) :=
  (match class r, df r with
   | ClassificationResult_, Some t => classification_methods r t
   | RegressionResult_, Some t => regression_methods py t
   | _, _ => []
   end ++ result_methods)%list.

(** [getattr(self, name)], [None] when [hasattr(self, name)] is false. *)
Definition getattr (py : Python) (r : Result) (name : string) : option attr :=
  match lookup (instance_attrs r) name with
  | Some a => Some a
  | None =>
      match lookup (class_attrs py r) name with
      | Some a => Some a
      | None => object_attr py name
      end
  end.

(** What [hasattr(self, name)] raises for a [name] that is not a string
    (the wording of the text varies with the interpreter). *)
Definition hasattr_TypeError : exn :=
  Exn "TypeError" "hasattr(): attribute name must be string".

(** [Result.evaluate] *)
Definition Result_evaluate (py : Python) (self : Result) (metric : pyval)
  : res (pyval * option string) :=
  match metric with
  | PStr m =>
      match getattr py self m with
      | Some a =>
          match call0 a with
          | Ok v => Ok (v, None)
          | Raise e => Ok (PFloat nan, Some ("scoring " ++ m ++ ": " ++ exn_msg e))
          end
      | None =>
          Ok (PFloat nan, Some ("Unsupported metric " ++ m ++ " for " ++ type_str (type_ self)))
      end
  | _ => Raise hasattr_TypeError
  end.

(** [NoResult.evaluate] *)
Definition NoResult_evaluate (self : Result) (metric : pyval) : res (pyval * option string) :=
  Ok (PFloat nan, None).

(** [result.evaluate(metric)], by the class of [result]. *)
Definition evaluate (py : Python) (self : Result) (metric : pyval)
  : res (pyval * option string) :=
  match class self with
  | NoResult_ | ErrorResult_ => NoResult_evaluate self metric
  | ClassificationResult_ | RegressionResult_ => Result_evaluate py self metric
  end.

(** The classes that score a table, and those that stand for its absence. *)
Definition scored (r : Result) : Prop :=
  class r = ClassificationResult_ \/ class r = RegressionResult_.

Definition absent (r : Result) : Prop :=
  class r = NoResult_ \/ class r = ErrorResult_.

End Results.

(** ** Scoring one task and fold: [TaskResult] *)

Module TaskResult.
Import Results.

(** Modelled from the spec: the metadata object read from the side-file
    of a run, a [Namespace] whose fields the run may or may not have
    written. A field that is absent reads as unset. *)
Record Metadata := {
  md_framework : pyval;
  md_version : option pyval;             (* [None]: no field [version] *)
  md_framework_version : pyval;
  md_framework_params : option string;   (* its [repr], when set and truthy *)
  md_seed : pyval;
  md_metric : pyval;
  md_metrics : option (list string);     (* [None]: unset *)
}.

(** [Namespace(lambda: None)] *)
Definition no_metadata : Metadata :=
  {| md_framework := PNone; md_version := None; md_framework_version := PNone;
     md_framework_params := None; md_seed := PNone; md_metric := PNone;
     md_metrics := None |}.

(** A predictions file on disk: what [read_csv] makes of it and, for a
    table, what [validate_predictions] and the constructor of the result
    class raise on it, if anything. *)
Record Predictions := {
  table : Table;
  validation : option exn;
  construction : option exn;
}.

(** The files the module reads: [None] is a path at which
    [os.path.isfile] is false. *)
Record World := {
  predictions_at : string -> option (res Predictions);
  metadata_at : string -> option Metadata;
}.

Record TaskDef := { task_id : pyval; task_name : string }.

Record t := {
  task : TaskDef;
  fold : Z;
  constraint : pyval;
  predictions_dir : string;
}.

(** [TaskResult.__init__] *)
Definition init (cfg : Config) (task : TaskDef) (fold : Z) (constraint : pyval)
           (predictions_dir : option string) : t :=
  {| task := task; fold := fold; constraint := constraint;
     predictions_dir :=
       match predictions_dir with
       | Some d => if String.eqb d "" then default_predictions_dir cfg else d
       | None => default_predictions_dir cfg
       end |}.

Definition _predictions_file (self : t) : string :=
  OsPath.join (predictions_dir self)
    [task_name (task self); str_of_int (fold self); "predictions.csv"].

Definition _metadata_file (self : t) : string :=
  OsPath.join (predictions_dir self)
    [task_name (task self); str_of_int (fold self); "metadata.json"].

Definition raise_if (e : option exn) : res unit :=
  match e with Some e => Raise e | None => Ok tt end.

(** [TaskResult.load_predictions] *)
Definition load_predictions (cfg : Config) (w : World) (predictions_file : string) : Result :=
  match predictions_at w predictions_file with
  | Some file =>
      let attempt :=
        p <- file ;;
        _ <- (if test_mode cfg then raise_if (validation p) else Ok tt) ;;
        _ <- raise_if (construction p) ;;
        Ok (if Nat.ltb 2 (n_columns (table p))
            then ClassificationResult (table p) None
            else RegressionResult (table p) None) in
      match attempt with
      | Ok r => r
      | Raise e => ErrorResult cfg (Exn "ResultError" (exn_msg e))
      end
  | None => NoResult (Some "Missing predictions.")
  end.

(** [TaskResult.load_metadata] *)
Definition load_metadata (w : World) (metadata_file : string) : Metadata :=
  match metadata_at w metadata_file with
  | Some md => md
  | None => no_metadata
  end.

(** [get_result] and [get_metadata]: the files do not change while a task
    is scored, so the value that [memoize] keeps is the value of a call. *)
Definition get_result (cfg : Config) (w : World) (self : t) : Result :=
  load_predictions cfg w (_predictions_file self).

Definition get_metadata (w : World) (self : t) : Metadata :=
  load_metadata w (_metadata_file self).

Definition required_metares : list string :=
  ["training_duration"; "predict_duration"; "models_count"].

(** The inner function [do_score]: the score, and the list of scoring
    errors after the call. *)
Definition do_score (py : Python) (result : Result) (scoring_errors : list string)
           (m : pyval) : res (pyval * list string) :=
  '(score, err) <- evaluate py result m ;;
  match err with
  | Some e => if String.eqb e "" then Ok (score, scoring_errors)
              else Ok (score, (scoring_errors ++ [e])%list)
  | None => Ok (score, scoring_errors)
  end.

(** The loop [for metric in metadata.metrics or []]. *)
Fixpoint score_metrics (py : Python) (result : Result) (metrics : list string)
         (scores : Namespace.t) (scoring_errors : list string)
  : res (Namespace.t * list string) :=
  match metrics with
  | [] => Ok (scores, scoring_errors)
  | metric :: metrics' =>
      '(score, errs) <- do_score py result scoring_errors (PStr metric) ;;
      score_metrics py result metrics' (Namespace.set scores metric score) errs
  end.

(** [x in scores] for a value [x]: the fields are named by strings. *)
Definition in_scores (scores : Namespace.t) (x : pyval) : bool :=
  match x with
  | PStr k => Namespace.contains scores k
  | _ => false
  end.

Definition info_val (i : option string) : pyval :=
  match i with Some s => PStr s | None => PNone end.

(** The record as lines 364-381 of [compute_scores] build it, before any
    metric is scored; [utc] is what [datetime_iso()] returns. *)
Definition initial_scores (cfg : Config) (utc : string) (self : t) (metadata : Metadata)
           (meta_result : Namespace.t) : Namespace.t :=
  let scores : Namespace.t :=
    [ ("id", task_id (task self));
      ("task", PStr (task_name (task self)));
      ("constraint", constraint self);
      ("framework", md_framework metadata);
      ("version", match md_version metadata with
                  | Some v => v
                  | None => md_framework_version metadata
                  end);
      ("params", PStr (match md_framework_params metadata with Some r => r | None => "" end));
      ("fold", PInt (fold self));
      ("mode", run_mode cfg);
      ("seed", md_seed metadata);
      ("app_version", app_version cfg);
      ("utc", PStr utc);
      ("metric", md_metric metadata);
      ("duration", PFloat nan) ] in
  fold_left (fun sc m =>
               Namespace.set sc m (match Namespace.get meta_result m with
                                   | Some v => v
                                   | None => PFloat nan
                                   end))
            required_metares scores.

(** Line 396: [scores[scores.metric] if scores.metric in scores else
    do_score(scores.metric)]. *)
Definition primary_score (py : Python) (result : Result) (scores : Namespace.t)
           (scoring_errors : list string) : res (pyval * list string) :=
  let metric := Namespace.getattr scores "metric" in
  if in_scores scores metric
  then Ok (Namespace.getattr scores (match metric with PStr k => k | _ => "" end),
           scoring_errors)
  else do_score py result scoring_errors metric.

(** Lines 396-400: the fields [result] and [info], and the fields of
    [meta_result] that are left. *)
Definition finish (result : Result) (meta_result : Namespace.t) (scores : Namespace.t)
           (res_ : pyval) (scoring_errors : list string) : Namespace.t :=
  let scores := Namespace.set scores "result" res_ in
  let scores := Namespace.set scores "info" (info_val (info result)) in
  let scores :=
    match scoring_errors with
    | [] => scores
    | _ =>
        Namespace.set scores "info"
          (PStr (Str.join "; "
                   (filter (fun it => negb (String.eqb it ""))
                      ((match info result with Some i => [i] | None => [] end)
                         ++ scoring_errors)%list)))
    end in
  Namespace.merge_missing scores
    (filter (fun kv => negb (existsb (String.eqb (fst kv)) required_metares)) meta_result).

(** [TaskResult.compute_scores] *)
Definition compute_scores (cfg : Config) (py : Python) (w : World) (utc : string)
           (self : t) (result : option Result) (meta_result : option Namespace.t)
  : res Namespace.t :=
  let meta_result := match meta_result with Some m => m | None => [] end in
  let metadata := get_metadata w self in
  let scores := initial_scores cfg utc self metadata meta_result in
  let result := match result with Some r => r | None => get_result cfg w self end in
  let metrics := match md_metrics metadata with Some l => l | None => [] end in
  '(scores, scoring_errors) <- score_metrics py result metrics scores [] ;;
  '(res_, scoring_errors) <- primary_score py result scores scoring_errors ;;
  Ok (finish result meta_result scores res_ scoring_errors).

(** The scoring error that the metric [m] adds to [scoring_errors]: the
    message of [evaluate], when there is one and it is not empty. *)
Definition message (py : Python) (r : Result) (m : string) : list string :=
  match evaluate py r (PStr m) with
  | Ok (_, Some e) => if String.eqb e "" then [] else [e]
  | _ => []
  end.

(** The diagnostic of the result itself, as an element of the joined info. *)
Definition own_info (r : Result) : list string :=
  match info r with
  | Some i => if String.eqb i "" then [] else [i]
  | None => []
  end.

(** [scores[m] = nan] *)
Definition set_nan (sc : Namespace.t) (m : string) : Namespace.t :=
  Namespace.set sc m (PFloat nan).

(** The names of the fields of the record before the metrics are scored. *)
Definition initial_fields : list string :=
  ["id"; "task"; "constraint"; "framework"; "version"; "params"; "fold"; "mode"; "seed";
   "app_version"; "utc"; "metric"; "duration";
   "training_duration"; "predict_duration"; "models_count"].

End TaskResult.

(** ** Data frames

    A frame is its column labels and its rows, with the default index; a
    column counts as a float column when all its cells are floats. What
    [pandas] and [amlb.datautils] decide about the values of the cells is
    not fixed here but taken from a [Library]: the frame made of a list of
    records (with the dtype that each column is given), the equality of
    two cells, and the labels that are read in a csv file. *)

Module Frames.

Record DataFrame := { columns : list string; rows : list (list pyval) }.

Record Library := {
  to_data_frame : list Namespace.t -> DataFrame;           (* amlb.datautils.to_data_frame *)
  same_cell : pyval -> pyval -> bool;                      (* two cells, for drop_duplicates *)
  read_columns : list (list string) -> res (list string);  (* read_csv(path, nrows=1).columns *)
}.

Definition labels_eqb (a b : list string) : bool :=
  if list_eq_dec string_dec a b then true else false.

(** [index.is_unique] *)
Fixpoint is_unique (cols : list string) : bool :=
  match cols with
  | [] => true
  | c :: cols' => negb (existsb (String.eqb c) cols') && is_unique cols'
  end.

Fixpoint index_of (c : string) (cols : list string) : option nat :=
  match cols with
  | [] => None
  | c' :: cols' =>
      if String.eqb c' c then Some 0
      else match index_of c cols' with Some i => Some (S i) | None => None end
  end.

Definition has_column (cols : list string) (c : string) : bool :=
  match index_of c cols with Some _ => true | None => false end.

(** The cell of [row] under the label [c], NaN when the label is new. *)
Definition cell (cols : list string) (row : list pyval) (c : string) : pyval :=
  match index_of c cols with
  | Some i => nth i row (PFloat nan)
  | None => PFloat nan
  end.

(** The cells of [df] under the labels [cols], NaN under a new label. *)
Definition realign (df : DataFrame) (cols : list string) : DataFrame :=
  {| columns := cols;
     rows := map (fun row => map (cell (columns df) row) cols) (rows df) |}.

(** [df.reindex(columns=cols)]: the frame as it is when [cols] are its
    labels; otherwise its cells under the new labels, which [pandas]
    refuses when a label of the frame repeats. *)
Definition reindex (df : DataFrame) (cols : list string) : res DataFrame :=
  if labels_eqb (columns df) cols then Ok df
  else if is_unique (columns df) then Ok (realign df cols)
  else Raise (Exn "ValueError" "cannot reindex from a duplicate axis").

(** [df.empty] *)
Definition empty (df : DataFrame) : bool :=
  match columns df, rows df with
  | [], _ | _, [] => true
  | _, _ => false
  end.

(** [df[c]], [None] for a [KeyError]. *)
Definition column (df : DataFrame) (c : string) : option (list pyval) :=
  match index_of c (columns df) with
  | Some i => Some (map (fun row => nth i row (PFloat nan)) (rows df))
  | None => None
  end.

Fixpoint replace_nth {A} (i : nat) (x : A) (l : list A) : list A :=
  match l, i with
  | [], _ => []
  | _ :: l', O => x :: l'
  | a :: l', S i' => a :: replace_nth i' x l'
  end.

(** [df[c] = vals] *)
Definition set_column (df : DataFrame) (c : string) (vals : list pyval) : DataFrame :=
  match index_of c (columns df) with
  | Some i =>
      {| columns := columns df;
         rows := map (fun rv => replace_nth i (snd rv) (fst rv)) (combine (rows df) vals) |}
  | None =>
      {| columns := (columns df ++ [c])%list;
         rows := map (fun rv => (fst rv ++ [snd rv])%list) (combine (rows df) vals) |}
  end.

(** The labels of [l] in the order of their first occurrence. *)
Fixpoint first_seen (seen l : list string) : list string :=
  match l with
  | [] => []
  | c :: l' =>
      if existsb (String.eqb c) seen then first_seen seen l'
      else c :: first_seen (c :: seen) l'
  end.

(** [a.append(b, sort=False)]: the rows of [b] after the rows of [a].
    Frames with the same labels are put end to end; otherwise both are
    aligned on the labels of [a] followed by the new labels of [b], which
    [pandas] refuses when a label repeats. *)
Definition append (a b : DataFrame) : res DataFrame :=
  if labels_eqb (columns a) (columns b) then
    Ok {| columns := columns a; rows := (rows a ++ rows b)%list |}
  else if is_unique (columns a) && is_unique (columns b) then
    let cols :=
      (columns a ++ filter (fun c => negb (has_column (columns a) c)) (columns b))%list in
    Ok {| columns := cols; rows := (rows (realign a cols) ++ rows (realign b cols))%list |}
  else Raise (Exn "InvalidIndexError"
                "Reindexing only valid with uniquely valued Index objects").

(** Two rows are duplicates when they have equal cells under every label. *)
Fixpoint same_row (lib : Library) (a b : list pyval) : bool :=
  match a, b with
  | [], [] => true
  | x :: a', y :: b' => same_cell lib x y && same_row lib a' b'
  | _, _ => false
  end.

(** The rows of [l] that duplicate neither a row of [seen] nor an earlier
    row of [l]. *)
Fixpoint keep_first (lib : Library) (seen l : list (list pyval)) : list (list pyval) :=
  match l with
  | [] => []
  | r :: l' =>
      if existsb (fun s => same_row lib s r) seen then keep_first lib seen l'
      else r :: keep_first lib (r :: seen) l'
  end.

(** [df.drop_duplicates()] *)
Definition drop_duplicates (lib : Library) (df : DataFrame) : DataFrame :=
  {| columns := columns df; rows := keep_first lib [] (rows df) |}.

(** No row of [l] duplicates an earlier row of [l]. *)
Definition distinct_rows (lib : Library) (l : list (list pyval)) : Prop :=
  ForallOrdPairs (fun a b => same_row lib a b = false) l.

Fixpoint insert_sorted (c : string) (l : list string) : list string :=
  match l with
  | [] => [c]
  | d :: l' => if String.leb c d then c :: l else d :: insert_sorted c l'
  end.

(** [l.sort()] on strings. *)
Definition sort (l : list string) : list string := fold_right insert_sorted [] l.

Definition is_float (v : pyval) : bool :=
  match v with PFloat _ => true | _ => false end.

(** [df.select_dtypes(include=[np.float]).columns] *)
Definition float_columns (df : DataFrame) : list string :=
  filter (fun c => match column df c with
                   | Some vals => forallb is_float vals
                   | None => false
                   end) (columns df).

(** What has been seen once [l] has been read. *)
Definition seen_after (lib : Library) (seen l : list (list pyval)) : list (list pyval) :=
  (rev (keep_first lib seen l) ++ seen)%list.

End Frames.

(** ** The ledger: [Scoreboard]

    Scoreboards and frames are objects that the code shares and updates
    in place, so both live in a store and are named by references. *)

Module Scoreboard.
Import Results Frames.

Definition ref := nat.

Inductive Scores :=
| AsFrame (l : ref)                      (* a data frame *)
| AsRecords (rs : list Namespace.t).     (* a list of score records *)

(** The fields of a [Scoreboard], and the two slots in which the
    decorator [cached] keeps the results of [as_data_frame] and of
    [as_printable_data_frame]. *)
Record t := {
  scope : Naming.Scope;
  scores : Scores;
  cached_as_data_frame : option ref;
  cached_as_printable_data_frame : option ref;
}.

(** A csv file: its lines, each a list of fields. *)
Definition File := list (list string).

Record Store := {
  frames : list DataFrame;
  boards : list t;
  files : list (string * File);
  backups : list (string * File);
}.

(** Computations that read and update the store and may raise. *)
Definition M (A : Type) : Type := Store -> res A * Store.

Definition ret {A} (a : A) : M A := fun st => (Ok a, st).

Definition throw {A} (e : exn) : M A := fun st => (Raise e, st).

Definition mbind {A B} (m : M A) (k : A -> M B) : M B :=
  fun st =>
    match m st with
    | (Ok a, st') => k a st'
    | (Raise e, st') => (Raise e, st')
    end.

Notation "x <~ m ;; k" := (mbind m (fun x => k))
  (at level 61, m at next level, right associativity).

Definition lift {A} (r : res A) : M A :=
  match r with Ok a => ret a | Raise e => throw e end.

Definition dangling {A} : M A := throw (Exn "ReferenceError" "no such object").

Definition new_frame (df : DataFrame) : M ref :=
  fun st =>
    (Ok (length (frames st)),
     {| frames := (frames st ++ [df])%list; boards := boards st;
        files := files st; backups := backups st |}).

Definition read_frame (l : ref) : M DataFrame :=
  fun st =>
    match nth_error (frames st) l with
    | Some df => (Ok df, st)
    | None => dangling st
    end.

Definition write_frame (l : ref) (df : DataFrame) : M unit :=
  fun st =>
    (Ok tt,
     {| frames := replace_nth l df (frames st); boards := boards st;
        files := files st; backups := backups st |}).

Definition new_board (b : t) : M ref :=
  fun st =>
    (Ok (length (boards st)),
     {| frames := frames st; boards := (boards st ++ [b])%list;
        files := files st; backups := backups st |}).

Definition read_board (self : ref) : M t :=
  fun st =>
    match nth_error (boards st) self with
    | Some b => (Ok b, st)
    | None => dangling st
    end.

Definition write_board (self : ref) (b : t) : M unit :=
  fun st =>
    (Ok tt,
     {| frames := frames st; boards := replace_nth self b (boards st);
        files := files st; backups := backups st |}).

Definition read_file (path : string) : M (option File) :=
  fun st => (Ok (lookup (files st) path), st).

Definition write_file (path : string) (f : File) : M unit :=
  fun st =>
    (Ok tt,
     {| frames := frames st; boards := boards st;
        files := (path, f) :: files st; backups := backups st |}).

(** Modelled from the spec: [backup_file] of [amlb.utils] copies an
    existing file aside and does nothing when there is none. *)
Definition backup_file (path : string) : M unit :=
  fun st =>
    match lookup (files st) path with
    | Some f =>
        (Ok tt,
         {| frames := frames st; boards := boards st;
            files := files st; backups := (path, f) :: backups st |})
    | None => (Ok tt, st)
    end.

(** [str(v)] *)
Definition py_str (py : Python) (v : pyval) : string :=
  match v with
  | PNone => "None"
  | PBool true => "True"
  | PBool false => "False"
  | PInt z => str_of_int z
  | PFloat f => float_str py f
  | PStr s => s
  | PObj r => r
  end.

(** A cell as [to_csv] writes it. *)
Definition csv_text (py : Python) (v : pyval) : string :=
  match v with
  | PNone => ""
  | PFloat FNaN => ""
  | _ => py_str py v
  end.

(** Modelled from the spec: [write_csv] of [amlb.datautils] writes the
    rows of the frame, after the header when [header] is set, at the end
    of the file when [append] is set and in place of it otherwise. *)
Definition write_csv (py : Python) (df : DataFrame) (path : string) (header append : bool)
  : M unit :=
  old <~ read_file path ;;
  let before := if append then match old with Some f => f | None => [] end else [] in
  write_file path
    (before ++ (if header then [columns df] else []) ++ map (map (csv_text py)) (rows df))%list.

(** [read_csv(path, nrows=1).columns]: the labels that [read_csv] of
    [amlb.datautils] reads in an existing file, or its exception. *)
Definition read_header (lib : Library) (path : string) : M (list string) :=
  f <~ read_file path ;;
  match f with
  | Some f => lift (read_columns lib f)
  | None => throw (Exn "FileNotFoundError" path)
  end.

(** [Scoreboard.save_df] *)
Definition save_df (lib : Library) (py : Python) (data_frame : DataFrame) (path : string)
           (append : bool) : M unit :=
  f <~ read_file path ;;
  let exists_ := match f with Some _ => true | None => false end in
  new_format <~ (if exists_
                 then h <~ read_header lib path ;;
                      ret (negb (labels_eqb h (columns data_frame)))
                 else ret false) ;;
  _ <~ (if new_format || (exists_ && negb append) then backup_file path else ret tt) ;;
  let new_file := negb exists_ || negb append || new_format in
  write_csv py data_frame path new_file (negb new_file).

Definition fixed_cols : list string :=
  ["id"; "task"; "framework"; "constraint"; "fold"; "result"; "metric"; "mode"; "version";
   "params"; "app_version"; "utc"; "duration"; "training_duration"; "predict_duration";
   "models_count"; "seed"; "info"].

Definition mem (c : string) (l : list string) : bool := existsb (String.eqb c) l.

(** Modelled from the spec: the decorator [cached] of [amlb.utils], which
    is not part of the module and which the specification does not
    describe. As its name says, the value of the first call is kept on the
    instance, in [slot], and every later call returns that same object. *)
Definition cached (slot : t -> option ref) (keep : t -> ref -> t) (fn : ref -> M ref)
           (self : ref) : M ref :=
  b <~ read_board self ;;
  match slot b with
  | Some l => ret l
  | None =>
      l <~ fn self ;;
      b <~ read_board self ;;
      _ <~ write_board self (keep b l) ;;
      ret l
  end.

Definition keep_as_data_frame (b : t) (l : ref) : t :=
  {| scope := scope b; scores := scores b;
     cached_as_data_frame := Some l;
     cached_as_printable_data_frame := cached_as_printable_data_frame b |}.

Definition keep_as_printable_data_frame (b : t) (l : ref) : t :=
  {| scope := scope b; scores := scores b;
     cached_as_data_frame := cached_as_data_frame b;
     cached_as_printable_data_frame := Some l |}.

(** The body of [Scoreboard.as_data_frame]. *)
Definition as_data_frame_body (lib : Library) (self : ref) : M ref :=
  b <~ read_board self ;;
  l <~ match scores b with
       | AsFrame l => ret l
       | AsRecords rs => new_frame (to_data_frame lib rs)
       end ;;
  df <~ read_frame l ;;
  if empty df then ret l
  else
    let dynamic_cols := filter (fun c => negb (mem c fixed_cols)) (columns df) in
    df <~ lift (reindex df (fixed_cols ++ sort dynamic_cols)%list) ;;
    new_frame df.

(** [Scoreboard.as_data_frame] *)
Definition as_data_frame (lib : Library) : ref -> M ref :=
  cached cached_as_data_frame keep_as_data_frame (as_data_frame_body lib).

(** The three helpers of [as_printable_data_frame]. *)
Definition str_print (val : pyval) : pyval :=
  match val with
  | PNone | PStr "" | PStr "None" | PFloat FNaN => PStr ""
  | _ => val
  end.

(** [int(f)] *)
Definition int_of_float (f : pyfloat) : res Z :=
  match f with
  | FNum m e => Ok (if (0 <=? e)%Z then m * 2 ^ e else Z.quot m (2 ^ (- e)))%Z
  | FInf _ => Raise (Exn "OverflowError" "cannot convert float infinity to integer")
  | FNaN => Raise (Exn "ValueError" "cannot convert float NaN to integer")
  end.

Definition int_print (val : pyval) : res pyval :=
  match val with
  | PFloat FNaN => Ok (str_print val)
  | PFloat f => z <- int_of_float f ;; Ok (PInt z)
  | _ => Ok (str_print val)
  end.

Definition num_print (fn : pyfloat -> string) (val : pyval) : res pyval :=
  match val with
  | PStr _ => Ok PNone
  | PFloat f => Ok (PStr (fn f))
  | PInt z => Ok (PStr (fn (FNum z 0)))
  | PBool b => Ok (PStr (fn (FNum (if b then 1 else 0) 0)))
  | PNone | PObj _ => Raise (Exn "TypeError" "unsupported format string passed to __format__")
  end.

(** An element under [astype(np.float)]. *)
Definition to_float (py : Python) (val : pyval) : res pyval :=
  match val with
  | PFloat f => Ok (PFloat f)
  | PInt z => Ok (PFloat (FNum z 0))
  | PBool b => Ok (PFloat (FNum (if b then 1 else 0) 0))
  | PNone => Ok (PFloat nan)
  | PStr s =>
      match float_of_str py s with
      | Some f => Ok (PFloat f)
      | None => Raise (Exn "ValueError" ("could not convert string to float: '" ++ s ++ "'"))
      end
  | PObj r => Raise (Exn "TypeError" "float() argument must be a string or a number")
  end.

Fixpoint map_res {A B} (f : A -> res B) (l : list A) : res (list B) :=
  match l with
  | [] => Ok []
  | a :: l' => b <- f a ;; bs <- map_res f l' ;; Ok (b :: bs)
  end.

(** [df[col] = f(df[col])] on the frame at [l]. *)
Definition update_column (l : ref) (col : string) (f : list pyval -> res (list pyval))
  : M unit :=
  df <~ read_frame l ;;
  match column df col with
  | None => throw (Exn "KeyError" col)
  | Some vals =>
      vals' <~ lift (f vals) ;;
      write_frame l (set_column df col vals')
  end.

Fixpoint for_each (cols : list string) (body : string -> M unit) : M unit :=
  match cols with
  | [] => ret tt
  | c :: cols' => _ <~ body c ;; for_each cols' body
  end.

Definition force_str_cols : list string := ["id"].
Definition nanable_int_cols : list string := ["fold"; "models_count"; "seed"].
Definition low_precision_float_cols : list string :=
  ["duration"; "training_duration"; "predict_duration"].

(** The body of [Scoreboard.as_printable_data_frame]. *)
Definition as_printable_data_frame_body (lib : Library) (py : Python) (self : ref) : M ref :=
  df <~ as_data_frame lib self ;;
  frame <~ read_frame df ;;
  let high_precision_float_cols :=
    filter (fun c => negb (mem c (nanable_int_cols ++ low_precision_float_cols)%list))
           (float_columns frame) in
  _ <~ for_each force_str_cols (fun col =>
         update_column df col (fun vals =>
           Ok (map (fun v => PStr (py_str py (str_print v))) vals))) ;;
  _ <~ for_each nanable_int_cols (fun col =>
         update_column df col (fun vals =>
           vals <- map_res int_print vals ;;
           Ok (map (fun v => PStr (py_str py v)) vals))) ;;
  _ <~ for_each low_precision_float_cols (fun col =>
         update_column df col (fun vals =>
           vals <- map_res (to_float py) vals ;;
           vals <- map_res (num_print (format_1f py)) vals ;;
           map_res (to_float py) vals)) ;;
  _ <~ for_each high_precision_float_cols (fun col =>
         update_column df col (fun vals =>
           vals <- map_res (num_print (format_6g py)) vals ;;
           map_res (to_float py) vals)) ;;
  ret df.

(** [Scoreboard.as_printable_data_frame] *)
Definition as_printable_data_frame (lib : Library) (py : Python) : ref -> M ref :=
  cached cached_as_printable_data_frame keep_as_printable_data_frame
    (as_printable_data_frame_body lib py).

(** [Scoreboard._score_file] *)
Definition _score_file (cfg : Config) (self : ref) : M string :=
  b <~ read_board self ;;
  ret (Naming._score_file cfg (scope b)).

(** [Scoreboard.save] *)
Definition save (cfg : Config) (lib : Library) (py : Python) (self : ref) (append : bool)
  : M unit :=
  l <~ as_printable_data_frame lib py self ;;
  frame <~ read_frame l ;;
  path <~ _score_file cfg self ;;
  save_df lib py frame path append.

(** The argument of [append]: a scoreboard or a data frame. *)
Inductive BoardOrDf := Board (b : ref) | Df (l : ref).

(** [Scoreboard.append]: the reference of the new scoreboard. *)
Definition append (lib : Library) (self : ref) (board_or_df : BoardOrDf)
           (no_duplicates : bool) : M ref :=
  to_append <~ match board_or_df with
               | Board b => as_data_frame lib b
               | Df l => ret l
               end ;;
  mine <~ as_data_frame lib self ;;
  a <~ read_frame mine ;;
  o <~ read_frame to_append ;;
  merged <~ lift (Frames.append a o) ;;
  scores <~ new_frame merged ;;
  scores <~ (if no_duplicates
             then f <~ read_frame scores ;; new_frame (drop_duplicates lib f)
             else ret scores) ;;
  b <~ read_board self ;;
  new_board {| scope := scope b; scores := AsFrame scores;
               cached_as_data_frame := None;
               cached_as_printable_data_frame := None |}.

(** The rows of the table of a scoreboard, as [as_data_frame] gives them. *)
Definition table_rows (lib : Library) (self : ref) : M (list (list pyval)) :=
  l <~ as_data_frame lib self ;;
  df <~ read_frame l ;;
  ret (rows df).

(** The frame that [as_data_frame] starts from: [self.scores] when it is
    a frame, and the frame made of the records otherwise. *)
Definition scores_frame (lib : Library) (st : Store) (b : t) : option DataFrame :=
  match scores b with
  | AsFrame l => nth_error (frames st) l
  | AsRecords rs => Some (to_data_frame lib rs)
  end.

(** The frame that [as_data_frame] makes of a frame: the frame itself when
    it is empty, and otherwise the frame with the fixed columns first and
    the other columns after them, sorted. *)
Definition canonical (df : DataFrame) : res DataFrame :=
  if empty df then Ok df
  else reindex df (fixed_cols
                     ++ sort (filter (fun c => negb (mem c fixed_cols)) (columns df)))%list.

(** A store that has only grown: the frames that existed are as they
    were, and so are the files and the backups. *)
Definition grown (st st1 : Store) : Prop :=
  (forall i d, nth_error (frames st) i = Some d -> nth_error (frames st1) i = Some d)
  /\ files st1 = files st /\ backups st1 = backups st
  /\ length (boards st1) = length (boards st).

(** The labels in increasing order. *)
Definition increasing (l : list string) : Prop :=
  Sorted (fun a b => String.leb a b = true) l.

(** The rows of the record collection that a scoreboard holds. *)
Definition held_rows (lib : Library) (self : ref) : M (list (list pyval)) :=
  b <~ read_board self ;;
  match scores b with
  | AsFrame l => df <~ read_frame l ;; ret (rows df)
  | AsRecords rs => ret (rows (to_data_frame lib rs))
  end.

(** A column of the table of a scoreboard, as [as_data_frame] gives it. *)
Definition table_column (lib : Library) (self : ref) (c : string)
  : M (option (list pyval)) :=
  l <~ as_data_frame lib self ;;
  df <~ read_frame l ;;
  ret (column df c).

(** The rows of a frame as lines of a csv file, and the file that holds
    the frame alone. *)
Definition lines (py : Python) (df : DataFrame) : File :=
  map (map (csv_text py)) (rows df).

Definition fresh (py : Python) (df : DataFrame) : File := columns df :: lines py df.

End Scoreboard.

(** ** The groups of a match *)

Module Captures.

(** The groups that a match of the pattern [p] adds to the dictionary, in
    the order of the pattern: one for each named group, and the text of a
    repetition [c+] is not empty. *)
Fixpoint captured (p : Re.pattern) (caps : Re.groupdict) : Prop :=
  match p with
  | [] => caps = []
  | Re.Ch _ :: p' => captured p' caps
  | Re.Plus name _ _ :: p' =>
      exists v caps', caps = (name, v) :: caps' /\ v <> "" /\ captured p' caps'
  | Re.Group name _ :: p' =>
      exists v caps', caps = (name, v) :: caps' /\ captured p' caps'
  end.

End Captures.

(** ** Predictions files: [TaskResult.validate_predictions],
       [TaskResult.save_predictions] *)

Module Predictions.
Import Results Frames Scoreboard.

(** What [pandas] supplies beside the frames: whether [pd.to_numeric]
    accepts a string, and the text of a set of values in a message. *)
Record Pandas := {
  to_numeric : string -> bool;
  set_repr : list pyval -> string;
}.

Definition AssertionError (msg : string) : exn := Exn "AssertionError" msg.

(** [assert b, msg] *)
Definition assert_ (b : bool) (msg : string) : res unit :=
  if b then Ok tt else Raise (AssertionError msg).

Definition quote : string := String (ascii_of_nat 34) EmptyString.

(** [names[-k]] for [k] at most the length of [names]. *)
Definition from_end (k : nat) (names : list string) : string :=
  nth (length names - k) names "".

(** The column at a position. *)
Definition column_at (df : DataFrame) (i : nat) : list pyval :=
  map (fun row => nth i row (PFloat nan)) (rows df).

(** [pd.to_numeric(col)], for its exception: the first cell that cannot be
    parsed raises. *)
Fixpoint to_numeric_column (pd : Pandas) (position : nat) (col : list pyval) : res unit :=
  match col with
  | [] => Ok tt
  | PStr s :: col' =>
      if to_numeric pd s then to_numeric_column pd (S position) col'
      else Raise (Exn "ValueError"
                    ("Unable to parse string " ++ quote ++ s ++ quote ++ " at position "
                       ++ str_of_int (Z.of_nat position)))
  | PObj r :: _ => Raise (Exn "TypeError" ("Invalid object type at position "
                                            ++ str_of_int (Z.of_nat position)))
  | _ :: col' => to_numeric_column pd (S position) col'
  end.

(** [for name, col in frame.items(): pd.to_numeric(col)] over the columns
    at the positions [first], ..., [first + count - 1]. *)
Fixpoint to_numeric_columns (pd : Pandas) (df : DataFrame) (first count : nat) : res unit :=
  match count with
  | O => Ok tt
  | S count' =>
      _ <- to_numeric_column pd 0 (column_at df first) ;;
      to_numeric_columns pd df (S first) count'
  end.

(** [a < b] on floats, false when either is NaN. *)
Definition float_lt (a b : pyfloat) : bool :=
  match a, b with
  | FNaN, _ | _, FNaN => false
  | FInf true, FInf true => false
  | FInf true, _ => true
  | _, FInf true => false
  | FInf false, _ => false
  | _, FInf false => true
  | FNum m1 e1, FNum m2 e2 =>
      let e := Z.min e1 e2 in
      (m1 * 2 ^ (e1 - e) <? m2 * 2 ^ (e2 - e))%Z
  end.

(** [series.idxmax()]: the label of the first greatest value, NaN left
    out; [best] is the greatest so far. No label when all values are NaN. *)
Fixpoint idxmax (labels : list string) (vals : list pyfloat)
         (best : option (string * pyfloat)) : option string :=
  match labels, vals with
  | l :: labels', v :: vals' =>
      let best' :=
        match v, best with
        | FNaN, _ => best
        | _, None => Some (l, v)
        | _, Some (_, b) => if float_lt b v then Some (l, v) else best
        end in
      idxmax labels' vals' best'
  | _, _ => match best with Some (l, _) => Some l | None => None end
  end.

(** [l] is the label of the first greatest value of [vals], and [v] that
    value: [v] is not NaN, no value under a label is greater, and every
    earlier value is NaN or less. *)
Definition first_greatest (labels : list string) (vals : list pyfloat)
           (l : string) (v : pyfloat) : Prop :=
  exists i,
    nth_error labels i = Some l
    /\ nth_error vals i = Some v
    /\ v <> FNaN
    /\ (forall j w, j < length labels -> nth_error vals j = Some w -> float_lt v w = false)
    /\ (forall j w, j < i -> nth_error vals j = Some w -> w = FNaN \/ float_lt w v = true).

Definition as_float (py : Python) (v : pyval) : res pyfloat :=
  f <- to_float py v ;;
  match f with PFloat x => Ok x | _ => Ok FNaN end.

(** [validate_row]: [r[:-2].astype(float).idxmax() == r[-2]] *)
Definition validate_row (py : Python) (predictors : list string) (r : list pyval) : res bool :=
  let n := length predictors in
  probs <- map_res (as_float py) (firstn n r) ;;
  Ok (match idxmax predictors probs None, nth n r (PFloat nan) with
      | Some l, PStr p => String.eqb l p
      | _, _ => false
      end).

(** [frame.apply(validate_row, axis=1).all()] on a frame with rows. *)
Fixpoint all_rows (py : Python) (predictors : list string) (rs : list (list pyval)) : res bool :=
  match rs with
  | [] => Ok true
  | r :: rs' =>
      b <- validate_row py predictors r ;;
      bs <- all_rows py predictors rs' ;;
      Ok (b && bs)
  end.

(** [np.unique(l)]: the distinct elements, sorted. *)
Definition unique (l : list string) : list string := sort (first_seen [] l).

(** [set(a) == set(b)] *)
Definition same_set (a b : list string) : bool :=
  forallb (fun x => mem x b) a && forallb (fun x => mem x a) b.

Definition is_label (predictors : list string) (v : pyval) : bool :=
  match v with
  | PStr s => mem s predictors
  | _ => false
  end.

(** The distinct values of [l], in the order of their first occurrence:
    [series.unique()]. *)
Fixpoint distinct (seen l : list pyval) : list pyval :=
  match l with
  | [] => []
  | v :: l' =>
      if in_dec pyval_eq_dec v seen then distinct seen l'
      else v :: distinct (v :: seen) l'
  end.

(** [TaskResult.validate_predictions], with [_encode_predictions_and_truth_]
    at its value [False]. The two warnings about the values of [truth] are
    logged and change nothing. For a classification frame without rows
    [pandas] decides what [apply] returns; here such a frame passes the
    last check. *)
Definition validate_predictions (py : Python) (pd : Pandas) (predictions : DataFrame)
  : res unit :=
  let names := columns predictions in
  _ <- assert_ (Nat.leb 2 (length names))
         "predictions frame should have 2 columns (regression) or more (classification)" ;;
  _ <- assert_ (String.eqb (from_end 1 names) "truth")
         "last column of predictions frame must be named `truth`" ;;
  _ <- assert_ (String.eqb (from_end 2 names) "predictions")
         "last column of predictions frame must be named `predictions`" ;;
  if Nat.eqb (length names) 2 then
    to_numeric_columns pd predictions 0 2
  else
    let n := length names - 2 in
    let predictors := firstn n names in
    let preds := column_at predictions n in
    _ <- assert_ (if list_eq_dec string_dec predictors (sort predictors) then true else false)
           "Predictors columns are not sorted in lexicographic order." ;;
    _ <- assert_ (same_set (unique predictors) predictors)
           "Predictions contain multiple columns with the same label." ;;
    _ <- to_numeric_columns pd predictions 0 n ;;
    let predictions_set := distinct [] preds in
    _ <- assert_ (forallb (is_label predictors) predictions_set)
           ("Predictions column contains unexpected values: "
              ++ set_repr pd (filter (fun v => negb (is_label predictors v)) predictions_set)
              ++ ".") ;;
    ok <- all_rows py predictors (rows predictions) ;;
    assert_ ok "Predictions don't always match the predictor with the highest probability.".

(** The label encoder of the target of a dataset and the truth of its
    test split, which [amlb.data] supplies. *)
Record Dataset := {
  classes : list string;                                  (* label_encoder.classes *)
  inverse_transform : list pyval -> res (list pyval);     (* label_encoder.inverse_transform *)
  test_y : list pyval;                                    (* dataset.test.y *)
}.

(** [df[labels]]: the columns under [labels], in that order. *)
Definition select (df : DataFrame) (labels : list string) : DataFrame :=
  {| columns := labels;
     rows := map (fun row => map (cell (columns df) row) labels) (rows df) |}.

(** [{prob_cols.index(col): i for i, col in enumerate(sorted_cols)}] *)
Fixpoint encoding_map (prob_cols sorted_cols : list string) (i : nat) : list (nat * nat) :=
  match sorted_cols with
  | [] => []
  | col :: rest =>
      match index_of col prob_cols with
      | Some k => (k, i) :: encoding_map prob_cols rest (S i)
      | None => encoding_map prob_cols rest (S i)
      end
  end.

(** [encoding_map[v]]: the last pair written for a key is the one kept. *)
Fixpoint map_get (m : list (nat * nat)) (k : nat) : option nat :=
  match m with
  | [] => None
  | (k', v) :: m' =>
      match map_get m' k with
      | Some v' => Some v'
      | None => if Nat.eqb k' k then Some v else None
      end
  end.

(** [remap(values)] *)
Definition remap (m : list (nat * nat)) (values : list pyval) : res (list pyval) :=
  map_res (fun v =>
             match v with
             | PInt z =>
                 match (if (0 <=? z)%Z then map_get m (Z.to_nat z) else None) with
                 | Some j => Ok (PInt (Z.of_nat j))
                 | None => Raise (Exn "KeyError" (str_of_int z))
                 end
             | _ => Raise (Exn "KeyError" "not an index")
             end) values.

(** [df.assign(name=values)] *)
Definition assign (df : DataFrame) (name : string) (values : list pyval) : res DataFrame :=
  match columns df, rows df with
  | [], [] => Ok {| columns := [name]; rows := map (fun v => [v]) values |}
  | _, _ =>
      if Nat.eqb (length values) (length (rows df)) then Ok (set_column df name values)
      else Raise (Exn "ValueError" "Length of values does not match length of index")
  end.

(** [TaskResult.save_predictions], with [_encode_predictions_and_truth_] at
    its value [False]; the preview is logged and changes nothing. *)
Definition save_predictions (py : Python) (dataset : Dataset) (output_file : string)
           (predictions : list pyval) (truth : option (list pyval))
           (probabilities : option (list (list pyval)))
           (probabilities_labels : option (list string))
           (target_is_encoded : bool) : M unit :=
  let labels := match probabilities_labels with Some (c :: l) => Some (c :: l) | _ => None end in
  let '(df, remap_) :=
    match probabilities with
    | Some probs =>
        let prob_cols := match labels with Some l => l | None => classes dataset end in
        let df := {| columns := prob_cols; rows := probs |} in
        match labels with
        | Some _ =>
            let df := select df (sort prob_cols) in
            if list_eq_dec string_dec prob_cols (columns df) then (df, None)
            else (df, Some (encoding_map prob_cols (columns df) 0))
        | None => (df, None)
        end
    | None => ({| columns := []; rows := [] |}, None)
    end in
  let truth := match truth with Some t => t | None => test_y dataset end in
  values <~ lift
    (if target_is_encoded then
       '(predictions, truth) <-
          match remap_ with
          | Some m => p <- remap m predictions ;; t <- remap m truth ;; Ok (p, t)
          | None => Ok (predictions, truth)
          end ;;
       preds <- inverse_transform dataset predictions ;;
       truth <- inverse_transform dataset truth ;;
       Ok (preds, truth)
     else Ok (predictions, truth)) ;;
  df <~ lift (assign df "predictions" (fst values)) ;;
  df <~ lift (assign df "truth" (snd values)) ;;
  _ <~ backup_file output_file ;;
  write_csv py df output_file true false.

End Predictions.

(** ** An interpreter, files and scoreboards for the examples

    The interpreter is exact on NaN, on the infinities and on whole
    numbers of fewer than seven digits, which is all the examples contain. *)

Module Examples.
Import Results.

Definition whole (f : pyfloat) : string :=
  match f with
  | FNaN => "nan"
  | FInf false => "inf"
  | FInf true => "-inf"
  | FNum m e => str_of_int (if (0 <=? e)%Z then m * 2 ^ e else Z.quot m (2 ^ (- e)))%Z
  end.

Definition with_decimal (f : pyfloat) : string :=
  match f with
  | FNum _ _ => whole f ++ ".0"
  | _ => whole f
  end.

Fixpoint leading_digits (l : list ascii) : list ascii :=
  match l with
  | a :: l' => if Str.is_digit a then a :: leading_digits l' else []
  | [] => []
  end.

Definition read_whole (s : string) : option pyfloat :=
  if String.eqb s "nan" then Some FNaN
  else if String.eqb s "inf" then Some (FInf false)
  else if String.eqb s "-inf" then Some (FInf true)
  else
    let l := Str.chars s in
    let '(neg, l) := match l with
                     | "-"%char :: l' => (true, l')
                     | _ => (false, l)
                     end in
    match leading_digits l with
    | [] => None
    | ds =>
        let z := Str.int_of_digits (Str.of_chars ds) in
        let rest := Str.of_chars (skipn (length ds) l) in
        if String.eqb rest "" || String.eqb rest ".0"
        then Some (FNum (if neg then - z else z) 0)
        else None
    end.

Definition py0 : Python :=
  {| object_attr := fun _ => None;
     math_sqrt := fun v => match v with
                           | PFloat FNaN => Ok (PFloat FNaN)
                           | PFloat (FNum 0 _) => Ok v
                           | PFloat (FNum 1 0) => Ok v
                           | _ => Raise (Exn "ValueError" "math domain error")
                           end;
     float_str := with_decimal;
     format_1f := with_decimal;
     format_6g := whole;
     float_of_str := read_whole |}.

Definition cfg0 (sep : string) : Config :=
  {| token_separator := sep; test_mode := false; run_mode := PStr "local";
     app_version := PStr "dev"; error_max_length := 200;
     default_scores_dir := "/out/scores"; default_predictions_dir := "/out/predictions" |}.

(** A regression table on which every metric function returns 0 and a
    classification table with two classes on which [log_loss] raises. *)
Definition zero : res pyval := Ok (PFloat (FNum 0 0)).

Definition table0 (n : nat) (logloss : res pyval) : Table :=
  {| n_columns := n;
     accuracy_score := zero; balanced_accuracy_score := zero; roc_auc_score := zero;
     confusion_matrix := Ok (PObj "array([[1, 0], [0, 1]])");
     per_class_errors := Ok (PObj "[0.0, 0.0]");
     mean_of_errors := zero; max_of_errors := zero;
     f1_score := zero; log_loss := logloss;
     mean_absolute_error := zero; mean_squared_error := zero;
     mean_squared_log_error := zero; r2_score := zero |}.

Definition regression0 : Table := table0 2 zero.

Definition classification0 : Table :=
  table0 4 (Raise (Exn "ValueError" "y_true contains only one label")).

Definition task0 : TaskResult.TaskDef :=
  {| TaskResult.task_id := PStr "t"; TaskResult.task_name := "t" |}.

Definition self0 : TaskResult.t := TaskResult.init (cfg0 ".") task0 0 (PStr "1h") None.

(** Files of a run: the predictions file of [self0] holds [p] and its
    metadata file holds [md], when they are given. *)
Definition world0 (p : option Table) (md : option TaskResult.Metadata) : TaskResult.World :=
  {| TaskResult.predictions_at := fun path =>
       if String.eqb path "/out/predictions/t/0/predictions.csv"
       then match p with
            | Some t => Some (Ok {| TaskResult.table := t;
                                    TaskResult.validation := None;
                                    TaskResult.construction := None |})
            | None => None
            end
       else None;
     TaskResult.metadata_at := fun path =>
       if String.eqb path "/out/predictions/t/0/metadata.json" then md else None |}.

Definition metadata0 (metric : pyval) (metrics : list string) : TaskResult.Metadata :=
  {| TaskResult.md_framework := PStr "fw"; TaskResult.md_version := Some (PStr "1.0");
     TaskResult.md_framework_version := PNone; TaskResult.md_framework_params := None;
     TaskResult.md_seed := PInt 1; TaskResult.md_metric := metric;
     TaskResult.md_metrics := Some metrics |}.

Definition scope0 : Naming.Scope :=
  {| Naming.framework_name := Naming.NStr "fw"; Naming.benchmark_name := Naming.NNone;
     Naming.task_name := Naming.NNone; Naming.scores_dir := "/out/scores" |}.

Definition board0 (rs : list Namespace.t) : Scoreboard.t :=
  {| Scoreboard.scope := scope0; Scoreboard.scores := Scoreboard.AsRecords rs;
     Scoreboard.cached_as_data_frame := None;
     Scoreboard.cached_as_printable_data_frame := None |}.

(** A store that holds one scoreboard, made of the records [rs]. *)
Definition store0 (rs : list Namespace.t) : Scoreboard.Store :=
  {| Scoreboard.frames := []; Scoreboard.boards := [board0 rs];
     Scoreboard.files := []; Scoreboard.backups := [] |}.

Definition record0 : Namespace.t :=
  [("id", PStr "t"); ("fold", PInt 0); ("acc", PFloat (FNum 1 0))].

(** Files of a run in which the predictions file of [self0] is [file]. *)
Definition world1 (file : res TaskResult.Predictions) (md : option TaskResult.Metadata)
  : TaskResult.World :=
  {| TaskResult.predictions_at := fun path =>
       if String.eqb path "/out/predictions/t/0/predictions.csv" then Some file else None;
     TaskResult.metadata_at := fun path =>
       if String.eqb path "/out/predictions/t/0/metadata.json" then md else None |}.

(** A [pandas] for the examples: it parses what [py0] parses. *)
Definition pd0 : Predictions.Pandas :=
  {| Predictions.to_numeric := fun s => match read_whole s with Some _ => true | None => false end;
     Predictions.set_repr := fun l => "{" ++ Str.join ", " (map (Scoreboard.py_str py0) l) ++ "}" |}.

(** Predictions over the classes [a] and [b]; in [twice_a] both
    probability columns have the label [a]. *)
Definition predictions_ab : Frames.DataFrame :=
  {| Frames.columns := ["a"; "b"; "predictions"; "truth"];
     Frames.rows := [[PStr "1"; PStr "0"; PStr "a"; PStr "a"];
                     [PStr "0"; PStr "1"; PStr "b"; PStr "a"]] |}.

(** Predictions in which both classes have the greatest probability. *)
Definition predictions_tie : Frames.DataFrame :=
  {| Frames.columns := ["a"; "b"; "predictions"; "truth"];
     Frames.rows := [[PStr "1"; PStr "1"; PStr "a"; PStr "b"]] |}.

Definition predictions_twice_a : Frames.DataFrame :=
  {| Frames.columns := ["a"; "a"; "predictions"; "truth"];
     Frames.rows := [[PStr "1"; PStr "0"; PStr "a"; PStr "a"]] |}.

(** A dataset whose encoder knows the classes [a] and [b]. *)
Definition dataset_ab : Predictions.Dataset :=
  {| Predictions.classes := ["a"; "b"];
     Predictions.inverse_transform :=
       Scoreboard.map_res (fun v => match v with
                                    | PInt 0 => Ok (PStr "a")
                                    | PInt 1 => Ok (PStr "b")
                                    | _ => Raise (Exn "ValueError" "y contains previously unseen labels")
                                    end);
     Predictions.test_y := [PInt 0; PInt 0] |}.

(** A library for the examples. Its [to_data_frame] gives one row for
    each record and one column for each field, with the values as they are
    given, which is the frame of [pandas] when the records have the same
    fields and a field has values of one type. Two cells are equal when
    they are the same number, are both missing, or are the same text. The
    labels of a file are those of its first line that is not blank, where
    an empty label is named [Unnamed: i] and a label that repeats is set
    apart by [.1], [.2], and so on. *)
Definition records_frame (records : list Namespace.t) : Frames.DataFrame :=
  let cols := Frames.first_seen [] (concat (map Namespace.keys records)) in
  {| Frames.columns := cols;
     Frames.rows := map (fun r => map (fun c => match Namespace.get r c with
                                                 | Some v => v
                                                 | None => PFloat nan
                                                 end) cols) records |}.

Definition same_float (a b : pyfloat) : bool :=
  match a, b with
  | FNaN, FNaN => true
  | FInf x, FInf y => Bool.eqb x y
  | FNum m1 e1, FNum m2 e2 =>
      let e := Z.min e1 e2 in
      (m1 * 2 ^ (e1 - e) =? m2 * 2 ^ (e2 - e))%Z
  | _, _ => false
  end.

Definition number (v : pyval) : option pyfloat :=
  match v with
  | PNone => Some FNaN
  | PBool b => Some (FNum (if b then 1 else 0) 0)
  | PInt z => Some (FNum z 0)
  | PFloat f => Some f
  | _ => None
  end.

Definition same_value (a b : pyval) : bool :=
  match number a, number b with
  | Some x, Some y => same_float x y
  | None, None => if pyval_eq_dec a b then true else false
  | _, _ => false
  end.

Fixpoint mangle (seen : list string) (i : nat) (labels : list string) : list string :=
  match labels with
  | [] => []
  | c :: labels' =>
      let c := if String.eqb c "" then "Unnamed: " ++ str_of_int (Z.of_nat i) else c in
      let name :=
        match count_occ string_dec seen c with
        | O => c
        | k => c ++ "." ++ str_of_int (Z.of_nat k)
        end in
      name :: mangle (c :: seen) (S i) labels'
  end.

Fixpoint read_first_line (f : list (list string)) : res (list string) :=
  match f with
  | [] => Raise (Exn "EmptyDataError" "No columns to parse from file")
  | [] :: f' => read_first_line f'
  | h :: _ => Ok (mangle [] 0 h)
  end.

Definition lib0 : Frames.Library :=
  {| Frames.to_data_frame := records_frame;
     Frames.same_cell := same_value;
     Frames.read_columns := read_first_line |}.

(** A store that holds the csv file [f] at the path of the ledger. *)
Definition store_with_file (f : Scoreboard.File) : Scoreboard.Store :=
  {| Scoreboard.frames := []; Scoreboard.boards := [];
     Scoreboard.files := [("/out/scores/fw.csv", f)]; Scoreboard.backups := [] |}.

Definition frame0 : Frames.DataFrame :=
  {| Frames.columns := ["id"; "acc"]; Frames.rows := [[PStr "t"; PFloat (FNum 1 0)]] |}.

(** A frame in which the label [id] repeats. *)
Definition frame_twice_id : Frames.DataFrame :=
  {| Frames.columns := ["id"; "id"]; Frames.rows := [[PStr "t"; PStr "t"]] |}.

(** The scope of the framework [fw] and the task [t]. *)
Definition scope_fw_t : Naming.Scope :=
  {| Naming.framework_name := Naming.NStr "fw"; Naming.benchmark_name := Naming.NNone;
     Naming.task_name := Naming.NStr "t"; Naming.scores_dir := "/out/scores" |}.

End Examples.

(** * Properties *)

(** ** Evaluation of a metric *)

Module ResultsFacts.
Import Results Examples.

Lemma scored_or_absent (r : Result) : scored r \/ absent r.
Proof. unfold scored, absent. destruct (class r); auto. Qed.

Lemma evaluate_scored py r metric :
  scored r -> evaluate py r metric = Result_evaluate py r metric.
Proof. intros [H | H]; unfold evaluate; rewrite H; reflexivity. Qed.

Lemma evaluate_absent py r metric :
  absent r -> evaluate py r metric = Ok (PFloat nan, None).
Proof. intros [H | H]; unfold evaluate; rewrite H; reflexivity. Qed.

(** A metric that is named by a string is always given a score. *)
Lemma evaluate_str_ok py r m :
  exists score err, evaluate py r (PStr m) = Ok (score, err).
Proof.
  destruct (scored_or_absent r) as [H | H].
  - rewrite (evaluate_scored _ _ _ H). unfold Result_evaluate.
    destruct (getattr py r m) as [a |]; [destruct (call0 a) |]; eauto.
  - rewrite (evaluate_absent _ _ _ H). eauto.
Qed.

Lemma evaluate_missing py r m :
  scored r -> getattr py r m = None ->
  evaluate py r (PStr m)
  = Ok (PFloat nan, Some ("Unsupported metric " ++ m ++ " for " ++ type_str (type_ r))).
Proof.
  intros H G. rewrite (evaluate_scored _ _ _ H). unfold Result_evaluate.
  rewrite G. reflexivity.
Qed.

Lemma evaluate_raising py r m a e :
  scored r -> getattr py r m = Some a -> call0 a = Raise e ->
  evaluate py r (PStr m) = Ok (PFloat nan, Some ("scoring " ++ m ++ ": " ++ exn_msg e)).
Proof.
  intros H G C. rewrite (evaluate_scored _ _ _ H). unfold Result_evaluate.
  rewrite G, C. reflexivity.
Qed.

Lemma evaluate_returning py r m a v :
  scored r -> getattr py r m = Some a -> call0 a = Ok v ->
  evaluate py r (PStr m) = Ok (v, None).
Proof.
  intros H G C. rewrite (evaluate_scored _ _ _ H). unfold Result_evaluate.
  rewrite G, C. reflexivity.
Qed.

(** The attributes that [Result.__init__] sets are values, not callables. *)
Lemma init_attributes_are_data py r m :
  In m ["df"; "info"; "truth"; "predictions"; "target"; "type"] ->
  exists ty, getattr py r m = Some (Data ty).
Proof.
  intros H. simpl in H.
  unfold getattr, instance_attrs, or_none.
  destruct H as [<- | [<- | [<- | [<- | [<- | [<- | []]]]]]]; simpl;
    destruct (df r), (class r); eauto.
Qed.

(** C9: for every metric, [evaluate] on a [NoResult] and on an
    [ErrorResult] returns NaN and no error: a missing or unreadable
    predictions file is never reported as a scoring error. *)
Theorem NoResult_evaluate_is_nan :
  forall py cfg info error metric,
    evaluate py (NoResult info) metric = Ok (PFloat nan, None)
    /\ evaluate py (ErrorResult cfg error) metric = Ok (PFloat nan, None).
Proof. intros. split; reflexivity. Qed.

Lemma scoring_is_not_unsupported m x y :
  Ok (PFloat nan, Some ("scoring " ++ m ++ x))
  <> Ok (PFloat nan, Some ("Unsupported metric " ++ m ++ y)).
Proof. simpl. discriminate. Qed.

(** C10: on a classification or regression result, a metric name that is
    the name of an attribute that cannot be called is not reported as
    unsupported: the call is attempted, its [TypeError] is caught, and
    [evaluate] returns NaN with a message that starts with
    ["scoring <name>:"], without raising. *)
Theorem evaluate_non_callable_attribute :
  forall py r m ty,
    scored r ->
    getattr py r m = Some (Data ty) ->
    evaluate py r (PStr m)
    = Ok (PFloat nan, Some ("scoring " ++ m ++ ": '" ++ ty ++ "' object is not callable"))
    /\ evaluate py r (PStr m)
       <> Ok (PFloat nan, Some ("Unsupported metric " ++ m ++ " for " ++ type_str (type_ r))).
Proof.
  intros py r m ty H G.
  assert (E : evaluate py r (PStr m)
              = Ok (PFloat nan,
                    Some ("scoring " ++ m ++ ": '" ++ ty ++ "' object is not callable"))).
  { exact (evaluate_raising py r m (Data ty)
             (Exn "TypeError" ("'" ++ ty ++ "' object is not callable")) H G eq_refl). }
  split; [exact E |]. rewrite E. apply scoring_is_not_unsupported.
Qed.

Lemma evaluate_non_callable_attribute_info :
  scored (ClassificationResult classification0 None)
  /\ getattr py0 (ClassificationResult classification0 None) "info" = Some (Data "NoneType")
  /\ evaluate py0 (ClassificationResult classification0 None) (PStr "info")
     = Ok (PFloat nan, Some "scoring info: 'NoneType' object is not callable").
Proof.
  assert (H : scored (ClassificationResult classification0 None)) by (left; reflexivity).
  split; [exact H |]. split; [reflexivity |].
  exact (proj1 (evaluate_non_callable_attribute py0
                  (ClassificationResult classification0 None) "info" "NoneType"
                  H eq_refl)).
Defined.

End ResultsFacts.

(** ** Records of fields *)

Module NamespaceFacts.
Import Namespace.

Lemma get_set_same ns k v : get (set ns k v) k = Some v.
Proof.
  induction ns as [| [k' v'] ns IH]; simpl.
  - rewrite String.eqb_refl. reflexivity.
  - destruct (String.eqb k' k) eqn:E; simpl; rewrite E; auto.
Qed.

Lemma get_set_other ns k v k' : k <> k' -> get (set ns k v) k' = get ns k'.
Proof.
  intros N. induction ns as [| [k0 v0] ns IH]; simpl.
  - destruct (String.eqb_spec k k'); [contradiction | reflexivity].
  - destruct (String.eqb_spec k0 k) as [-> | Hk]; simpl.
    + destruct (String.eqb_spec k k'); [contradiction | reflexivity].
    + destruct (String.eqb k0 k'); auto.
Qed.

Lemma contains_set_same ns k v : contains (set ns k v) k = true.
Proof. unfold contains. rewrite get_set_same. reflexivity. Qed.

Lemma contains_set_mono ns k v k' :
  contains ns k' = true -> contains (set ns k v) k' = true.
Proof.
  destruct (string_dec k k') as [<- | N].
  - intros _. apply contains_set_same.
  - unfold contains. rewrite get_set_other by exact N. auto.
Qed.

Lemma get_merge_missing a b k v :
  get a k = Some v -> get (merge_missing a b) k = Some v.
Proof.
  unfold merge_missing. revert a.
  induction b as [| [k' v'] b IH]; simpl; intros a H; [exact H |].
  apply IH. destruct (contains a k') eqn:C; [exact H |].
  rewrite get_set_other; [exact H |].
  intros <-. unfold contains in C. rewrite H in C. discriminate.
Qed.

End NamespaceFacts.

(** ** Scoring a task *)

Module TaskResultFacts.
Import Results TaskResult Examples ResultsFacts NamespaceFacts.

Lemma do_score_str py r errs m :
  exists score errs', do_score py r errs (PStr m) = Ok (score, errs').
Proof.
  unfold do_score.
  destruct (evaluate_str_ok py r m) as (score & err & ->). simpl.
  destruct err as [e |]; [destruct (String.eqb e "") |]; eauto.
Qed.

(** The loop over the declared metrics never raises, keeps the fields of
    the record and gives every declared metric a field. *)
Lemma score_metrics_ok py r metrics :
  forall scores errs,
  exists scores' errs',
    score_metrics py r metrics scores errs = Ok (scores', errs')
    /\ (forall k, Namespace.contains scores k = true -> Namespace.contains scores' k = true)
    /\ (forall m, In m metrics -> Namespace.contains scores' m = true).
Proof.
  induction metrics as [| metric metrics IH]; intros scores errs; simpl.
  - exists scores, errs. split; [reflexivity |]. split; [auto | intros m []].
  - destruct (do_score_str py r errs metric) as (score & errs1 & ->). simpl.
    destruct (IH (Namespace.set scores metric score) errs1)
      as (scores' & errs' & E & K & M).
    exists scores', errs'. split; [exact E |]. split.
    + intros k Hk. apply K. apply contains_set_mono. exact Hk.
    + intros m [<- | Hm]; [apply K, contains_set_same | apply M, Hm].
Qed.

(** The loop over the declared metrics never raises: it gives every
    declared metric the score that [evaluate] returns for it, and leaves
    the other fields as they are. *)
Lemma score_metrics_scores py r metrics :
  forall scores errs,
  exists scores' errs',
    score_metrics py r metrics scores errs = Ok (scores', errs')
    /\ (forall k, In k metrics ->
          exists score err,
            evaluate py r (PStr k) = Ok (score, err)
            /\ Namespace.get scores' k = Some score)
    /\ (forall k, ~ In k metrics -> Namespace.get scores' k = Namespace.get scores k).
Proof.
  induction metrics as [| metric metrics IH]; intros scores errs; simpl.
  - exists scores, errs. split; [reflexivity |]. split; [intros k [] | reflexivity].
  - destruct (evaluate_str_ok py r metric) as (score & err & E).
    assert (D : exists errs1, do_score py r errs (PStr metric) = Ok (score, errs1)).
    { unfold do_score. rewrite E. simpl.
      destruct err as [e |]; [destruct (String.eqb e "") |]; eauto. }
    destruct D as [errs1 ->]. simpl.
    destruct (IH (Namespace.set scores metric score) errs1)
      as (scores' & errs' & R & S & K).
    exists scores', errs'. split; [exact R |]. split.
    + intros k I. destruct (in_dec string_dec k metrics) as [J | J]; [apply S, J |].
      destruct I as [<- | I]; [| contradiction].
      exists score, err. split; [exact E |].
      rewrite (K _ J). apply get_set_same.
    + intros k N. rewrite K by tauto. apply get_set_other. tauto.
Qed.

Lemma score_metrics_absent py r metrics :
  absent r ->
  forall scores errs,
    score_metrics py r metrics scores errs = Ok (fold_left set_nan metrics scores, errs).
Proof.
  intros H. induction metrics as [| metric metrics IH]; intros scores errs; simpl.
  - reflexivity.
  - unfold do_score. rewrite (evaluate_absent _ _ _ H). simpl. apply IH.
Qed.

Lemma get_set_nan_keep metrics :
  forall scores m, Namespace.get scores m = Some (PFloat nan) ->
    Namespace.get (fold_left set_nan metrics scores) m = Some (PFloat nan).
Proof.
  induction metrics as [| x metrics IH]; intros scores m H; simpl; [exact H |].
  apply IH. unfold set_nan. destruct (string_dec x m) as [-> | N].
  - apply get_set_same.
  - rewrite get_set_other by exact N. exact H.
Qed.

Lemma get_set_nan_in metrics :
  forall scores m, In m metrics ->
    Namespace.get (fold_left set_nan metrics scores) m = Some (PFloat nan).
Proof.
  induction metrics as [| x metrics IH]; intros scores m H; [destruct H |].
  simpl. destruct H as [-> | H].
  - apply get_set_nan_keep. apply get_set_same.
  - apply IH, H.
Qed.

Lemma get_set_nan_out metrics :
  forall scores k, ~ In k metrics ->
    Namespace.get (fold_left set_nan metrics scores) k = Namespace.get scores k.
Proof.
  induction metrics as [| x metrics IH]; intros scores k H; simpl; [reflexivity |].
  rewrite IH by (intros J; apply H; right; exact J).
  unfold set_nan. apply get_set_other. intros ->. apply H. left. reflexivity.
Qed.

Lemma keys_initial_scores cfg utc self md meta :
  Namespace.keys (initial_scores cfg utc self md meta) = initial_fields.
Proof. reflexivity. Qed.

Lemma get_not_key ns k : ~ In k (Namespace.keys ns) -> Namespace.get ns k = None.
Proof.
  induction ns as [| [k' v] ns IH]; simpl; intros H; [reflexivity |].
  destruct (String.eqb_spec k' k) as [-> | N].
  - exfalso. apply H. left. reflexivity.
  - apply IH. intros J. apply H. right. exact J.
Qed.

Lemma metric_initial_scores cfg utc self md meta :
  Namespace.get (initial_scores cfg utc self md meta) "metric" = Some (md_metric md).
Proof. reflexivity. Qed.

(** C4, as amended: for every metric name, [evaluate] returns and does
    not raise. A [NoResult] or [ErrorResult] returns NaN and no message.
    A classification or regression result returns NaN and
    ["Unsupported metric <m> for <type>"] when it has no attribute of that
    name, and NaN and ["scoring <m>: <message>"] when the call of the
    attribute raises. So the loop over the declared metrics never stops
    early: whatever the other metrics do, the field of every declared
    metric is the score that [evaluate] returns for that metric, and no
    other field is changed. *)
Theorem evaluate_isolates_failures :
  forall py r m,
    (exists score err, evaluate py r (PStr m) = Ok (score, err))
    /\ (absent r -> evaluate py r (PStr m) = Ok (PFloat nan, None))
    /\ (scored r -> getattr py r m = None ->
        evaluate py r (PStr m)
        = Ok (PFloat nan,
              Some ("Unsupported metric " ++ m ++ " for " ++ type_str (type_ r))))
    /\ (scored r -> forall a e, getattr py r m = Some a -> call0 a = Raise e ->
        evaluate py r (PStr m)
        = Ok (PFloat nan, Some ("scoring " ++ m ++ ": " ++ exn_msg e)))
    /\ (forall metrics scores errs,
        exists scores' errs',
          score_metrics py r metrics scores errs = Ok (scores', errs')
          /\ (forall k, In k metrics ->
                exists score err,
                  evaluate py r (PStr k) = Ok (score, err)
                  /\ Namespace.get scores' k = Some score)
          /\ (forall k, ~ In k metrics ->
                Namespace.get scores' k = Namespace.get scores k)).
Proof.
  intros py r m. split; [apply evaluate_str_ok |].
  split; [apply evaluate_absent |].
  split; [apply evaluate_missing |].
  split; [intros H a e; apply evaluate_raising; exact H |].
  apply score_metrics_scores.
Qed.

Lemma evaluate_isolates_failures_logloss :
  evaluate py0 (ClassificationResult classification0 None) (PStr "logloss")
  = Ok (PFloat nan, Some "scoring logloss: y_true contains only one label")
  /\ evaluate py0 (ClassificationResult classification0 None) (PStr "rmse")
     = Ok (PFloat nan, Some "Unsupported metric rmse for DatasetType.binary")
  /\ exists scores' errs',
       score_metrics py0 (ClassificationResult classification0 None)
         ["logloss"; "rmse"; "acc"] [] [] = Ok (scores', errs')
       /\ Namespace.get scores' "logloss" = Some (PFloat nan)
       /\ Namespace.get scores' "rmse" = Some (PFloat nan)
       /\ Namespace.get scores' "acc" = Some (PFloat (FNum 0 0)).
Proof.
  assert (H : scored (ClassificationResult classification0 None)) by (left; reflexivity).
  split; [| split].
  3: {
    destruct (proj2 (proj2 (proj2 (proj2
               (evaluate_isolates_failures py0 (ClassificationResult classification0 None)
                  "acc"))))
               ["logloss"; "rmse"; "acc"] [] [])
      as (scores' & errs' & E & S & _).
    exists scores', errs'. split; [exact E |].
    injection E as <- _. repeat split. }
  - exact (proj1 (proj2 (proj2 (proj2
             (evaluate_isolates_failures py0 (ClassificationResult classification0 None)
                "logloss"))))
             H (Method (log_loss classification0))
             (Exn "ValueError" "y_true contains only one label") eq_refl eq_refl).
  - exact (proj1 (proj2 (proj2
             (evaluate_isolates_failures py0 (ClassificationResult classification0 None)
                "rmse")))
             H eq_refl).
Defined.

(** C4 as stated fails: a [NoResult] has no metric [acc] and yet returns
    no message, and a classification result has no metric [info] and yet
    does not answer "Unsupported metric". *)
Lemma evaluate_unsupported_counterexample :
  getattr py0 (NoResult (Some "Missing predictions.")) "acc" = None
  /\ evaluate py0 (NoResult (Some "Missing predictions.")) (PStr "acc") = Ok (PFloat nan, None)
  /\ lookup (class_attrs py0 (ClassificationResult classification0 None)) "info" = None
  /\ evaluate py0 (ClassificationResult classification0 None) (PStr "info")
     = Ok (PFloat nan, Some "scoring info: 'NoneType' object is not callable").
Proof. repeat split. Qed.

(** C1: a predictions file that loads into a classification or
    regression result and no metadata file make [compute_scores] raise:
    the primary metric is unset, it is not a field of the record, and
    [hasattr] refuses a name that is not a string. *)
Theorem compute_scores_without_metadata_raises :
  forall cfg py w utc self meta_result,
    metadata_at w (_metadata_file self) = None ->
    scored (get_result cfg w self) ->
    compute_scores cfg py w utc self None meta_result
    = Raise hasattr_TypeError.
Proof.
  intros cfg py w utc self meta_result M S.
  unfold compute_scores, get_metadata, load_metadata. rewrite M. simpl.
  unfold primary_score. unfold Namespace.getattr at 1.
  rewrite metric_initial_scores. simpl.
  unfold do_score. rewrite (evaluate_scored _ _ _ S). reflexivity.
Qed.

Lemma compute_scores_without_metadata_raises_regression :
  metadata_at (world0 (Some regression0) None) (_metadata_file self0) = None
  /\ class (get_result (cfg0 ".") (world0 (Some regression0) None) self0) = RegressionResult_
  /\ compute_scores (cfg0 ".") py0 (world0 (Some regression0) None) "2020-01-01T00:00:00"
       self0 None None
     = Raise hasattr_TypeError.
Proof.
  split; [reflexivity |]. split; [reflexivity |].
  apply compute_scores_without_metadata_raises; [reflexivity | right; reflexivity].
Defined.

(** The sibling path: without metadata and without predictions the
    record is produced, with the fields of the metadata unset. *)
Lemma compute_scores_without_metadata_absent cfg py w utc self :
  metadata_at w (_metadata_file self) = None ->
  absent (get_result cfg w self) ->
  exists scores,
    compute_scores cfg py w utc self None None = Ok scores
    /\ Namespace.get scores "framework" = Some PNone
    /\ Namespace.get scores "version" = Some PNone
    /\ Namespace.get scores "seed" = Some PNone
    /\ Namespace.get scores "metric" = Some PNone
    /\ Namespace.get scores "training_duration" = Some (PFloat nan)
    /\ Namespace.get scores "predict_duration" = Some (PFloat nan)
    /\ Namespace.get scores "models_count" = Some (PFloat nan).
Proof.
  intros M A.
  unfold compute_scores, get_metadata, load_metadata. rewrite M. simpl.
  unfold primary_score. unfold Namespace.getattr at 1.
  rewrite metric_initial_scores. simpl.
  unfold do_score. rewrite (evaluate_absent _ _ _ A). simpl.
  eexists. split; [reflexivity |]. repeat split.
Qed.

Lemma missing_predictions_result cfg w self :
  predictions_at w (_predictions_file self) = None ->
  get_result cfg w self = NoResult (Some "Missing predictions.").
Proof. intros H. unfold get_result, load_predictions. rewrite H. reflexivity. Qed.

(** Without a result the primary score is NaN and adds no scoring error,
    unless the primary metric names a field that the record had before
    the metrics were scored. *)
Lemma primary_score_absent py r cfg utc self md meta metrics errs :
  absent r ->
  (forall k, md_metric md = PStr k -> In k metrics \/ ~ In k initial_fields) ->
  primary_score py r (fold_left set_nan metrics (initial_scores cfg utc self md meta)) errs
  = Ok (PFloat nan, errs).
Proof.
  intros A H. unfold primary_score.
  set (sc0 := initial_scores cfg utc self md meta).
  set (sc1 := fold_left set_nan metrics sc0).
  assert (fallback : forall x, do_score py r errs x = Ok (PFloat nan, errs)).
  { intros x. unfold do_score. rewrite (evaluate_absent _ _ _ A). reflexivity. }
  destruct (Namespace.getattr sc1 "metric") as [| | | | k |] eqn:G; simpl; try apply fallback.
  destruct (Namespace.contains sc1 k) eqn:C; [| apply fallback].
  f_equal. f_equal.
  assert (Hm : ~ In "metric" metrics).
  { intros J. unfold Namespace.getattr in G. subst sc1.
    rewrite (get_set_nan_in metrics sc0 "metric" J) in G. discriminate. }
  assert (Hk : md_metric md = PStr k).
  { unfold Namespace.getattr in G. subst sc1.
    rewrite (get_set_nan_out metrics sc0 "metric" Hm) in G.
    subst sc0. rewrite metric_initial_scores in G. exact G. }
  unfold Namespace.getattr.
  destruct (H k Hk) as [I | I].
  - subst sc1. rewrite (get_set_nan_in metrics sc0 k I). reflexivity.
  - destruct (in_dec string_dec k metrics) as [J | J].
    + subst sc1. rewrite (get_set_nan_in metrics sc0 k J). reflexivity.
    + exfalso. unfold Namespace.contains in C. subst sc1.
      rewrite (get_set_nan_out metrics sc0 k J) in C.
      rewrite get_not_key in C; [discriminate |].
      subst sc0. rewrite keys_initial_scores. exact I.
Qed.

(** Without a result the primary score is some value and adds no scoring
    error, whatever the primary metric is. *)
Lemma primary_score_absent_returns py r scores errs :
  absent r -> exists v, primary_score py r scores errs = Ok (v, errs).
Proof.
  intros A. unfold primary_score.
  destruct (in_scores scores (Namespace.getattr scores "metric")); [eauto |].
  unfold do_score. rewrite (evaluate_absent _ _ _ A). simpl. eauto.
Qed.

(** C5, as amended: when the predictions file is missing, scoring returns
    a record whose [info] is ["Missing predictions."] and in which every
    declared metric other than one named [info] or [result] is NaN,
    whatever the primary metric is. Its [result] is NaN provided the
    primary metric, when it is a name, is a declared metric or is not the
    name of a field that the record has before the metrics are scored. *)
Theorem missing_predictions_scores :
  forall cfg py w utc self meta_result,
    predictions_at w (_predictions_file self) = None ->
    exists scores,
      compute_scores cfg py w utc self None meta_result = Ok scores
      /\ Namespace.get scores "info" = Some (PStr "Missing predictions.")
      /\ (forall m,
            In m (match md_metrics (get_metadata w self) with Some l => l | None => [] end) ->
            m <> "info" -> m <> "result" ->
            Namespace.get scores m = Some (PFloat nan))
      /\ ((forall k, md_metric (get_metadata w self) = PStr k ->
             In k (match md_metrics (get_metadata w self) with Some l => l | None => [] end)
             \/ ~ In k initial_fields) ->
          Namespace.get scores "result" = Some (PFloat nan)).
Proof.
  intros cfg py w utc self meta_result P.
  unfold compute_scores. rewrite (missing_predictions_result cfg w self P).
  set (md := get_metadata w self) in *.
  set (metrics := match md_metrics md with Some l => l | None => [] end) in *.
  set (meta := match meta_result with Some m => m | None => [] end).
  assert (A : absent (NoResult (Some "Missing predictions."))) by (left; reflexivity).
  cbv zeta.
  rewrite (score_metrics_absent py _ metrics A). simpl.
  destruct (primary_score_absent_returns py (NoResult (Some "Missing predictions."))
              (fold_left set_nan metrics (initial_scores cfg utc self md meta)) [] A)
    as [v E].
  rewrite E. simpl.
  eexists. split; [reflexivity |]. unfold finish. simpl.
  split; [| split].
  - apply get_merge_missing. apply get_set_same.
  - intros m I N R. apply get_merge_missing.
    rewrite get_set_other by (intros X; apply N; symmetry; exact X).
    rewrite get_set_other by (intros X; apply R; symmetry; exact X).
    apply get_set_nan_in, I.
  - intros H.
    rewrite (primary_score_absent py _ cfg utc self md meta metrics [] A H) in E.
    injection E as <-.
    apply get_merge_missing. rewrite get_set_other by discriminate. apply get_set_same.
Qed.

Lemma missing_predictions_scores_acc :
  (exists scores,
      compute_scores (cfg0 ".") py0
        (world0 None (Some (metadata0 (PStr "acc") ["acc"; "auc"])))
        "2020-01-01T00:00:00" self0 None None = Ok scores
      /\ Namespace.get scores "info" = Some (PStr "Missing predictions.")
      /\ Namespace.get scores "result" = Some (PFloat nan)
      /\ Namespace.get scores "acc" = Some (PFloat nan)
      /\ Namespace.get scores "auc" = Some (PFloat nan))
  /\ (exists scores,
      compute_scores (cfg0 ".") py0
        (world0 None (Some (metadata0 (PStr "fold") ["acc"])))
        "2020-01-01T00:00:00" self0 None None = Ok scores
      /\ Namespace.get scores "info" = Some (PStr "Missing predictions.")
      /\ Namespace.get scores "acc" = Some (PFloat nan)).
Proof.
  split.
  - destruct (missing_predictions_scores (cfg0 ".") py0
                (world0 None (Some (metadata0 (PStr "acc") ["acc"; "auc"])))
                "2020-01-01T00:00:00" self0 None eq_refl)
      as (scores & E & I & M & R).
    exists scores. repeat split; try assumption.
    + apply R. intros k K. injection K as <-. left. left. reflexivity.
    + apply M; [left; reflexivity | discriminate | discriminate].
    + apply M; [right; left; reflexivity | discriminate | discriminate].
  - destruct (missing_predictions_scores (cfg0 ".") py0
                (world0 None (Some (metadata0 (PStr "fold") ["acc"])))
                "2020-01-01T00:00:00" self0 None eq_refl)
      as (scores & E & I & M & _).
    exists scores. repeat split; try assumption.
    apply M; [left; reflexivity | discriminate | discriminate].
Defined.

(** C5 as stated fails: with no predictions file and a metadata file
    whose primary metric is named [fold], the field [result] of the record
    is the fold, not NaN; and with a declared metric named [info], the
    field of that metric is the diagnostic, not NaN. *)
Lemma missing_predictions_counterexample :
  predictions_at (world0 None (Some (metadata0 (PStr "fold") []))) (_predictions_file self0)
  = None
  /\ (exists scores,
        compute_scores (cfg0 ".") py0 (world0 None (Some (metadata0 (PStr "fold") [])))
          "2020-01-01T00:00:00" self0 None None = Ok scores
        /\ Namespace.get scores "info" = Some (PStr "Missing predictions.")
        /\ Namespace.get scores "result" = Some (PInt 0)
        /\ PInt 0 <> PFloat nan)
  /\ (exists scores,
        compute_scores (cfg0 ".") py0 (world0 None (Some (metadata0 (PStr "acc") ["info"])))
          "2020-01-01T00:00:00" self0 None None = Ok scores
        /\ Namespace.get scores "info" = Some (PStr "Missing predictions.")
        /\ PStr "Missing predictions." <> PFloat nan).
Proof.
  split; [reflexivity |]. split.
  - eexists. split; [reflexivity |].
    split; [reflexivity |]. split; [reflexivity | discriminate].
  - eexists. split; [reflexivity |]. split; [reflexivity | discriminate].
Qed.

End TaskResultFacts.

(** ** Saving a table *)

Module SaveFacts.
Import Results Frames Scoreboard Examples.

Lemma lookup_head {A} (k : string) (v : A) (l : list (string * A)) :
  lookup ((k, v) :: l) k = Some v.
Proof. unfold lookup. simpl. rewrite String.eqb_refl. reflexivity. Qed.

#[local] Arguments labels_eqb : simpl never.

Lemma labels_eqb_true a : labels_eqb a a = true.
Proof. unfold labels_eqb. destruct (list_eq_dec string_dec a a); congruence. Qed.

Lemma labels_eqb_false a b : a <> b -> labels_eqb a b = false.
Proof. unfold labels_eqb. destruct (list_eq_dec string_dec a b); congruence. Qed.

Ltac save_df_run F :=
  unfold save_df, write_csv, backup_file, read_header, mbind, read_file, write_file,
    lift, ret, throw;
  repeat (rewrite ?F, ?orb_true_r, ?orb_false_r; simpl).

Ltac save_df_done :=
  eexists; split; [reflexivity |]; simpl; split; [apply lookup_head | reflexivity].

(** C6, as amended: a save of a table to a path, by the state of the
    file. The header of a file that exists is the list of labels that
    [read_csv] reads in it. When these labels differ from the columns of
    the table, the file is backed up and replaced by the header and the
    rows. When they are the columns of the table and appending was asked
    for, the rows are added at the end of the file, with no header and no
    backup. When the file does not exist, or exists and appending was not
    asked for, the file holds the header and the rows, and the file that
    existed is backed up. When [read_csv] raises on the file that exists,
    the save raises the same exception and nothing is written or backed
    up. *)
Theorem save_df_cases :
  forall lib py st df path append,
    (forall f h,
        lookup (files st) path = Some f -> read_columns lib f = Ok h ->
        h <> columns df ->
        exists st',
          save_df lib py df path append st = (Ok tt, st')
          /\ lookup (files st') path = Some (fresh py df)
          /\ backups st' = (path, f) :: backups st)
    /\ (forall f h,
        lookup (files st) path = Some f -> read_columns lib f = Ok h ->
        h = columns df -> append = true ->
        exists st',
          save_df lib py df path append st = (Ok tt, st')
          /\ lookup (files st') path = Some (f ++ lines py df)%list
          /\ backups st' = backups st)
    /\ (lookup (files st) path = None ->
        exists st',
          save_df lib py df path append st = (Ok tt, st')
          /\ lookup (files st') path = Some (fresh py df)
          /\ backups st' = backups st)
    /\ (forall f h,
        lookup (files st) path = Some f -> read_columns lib f = Ok h ->
        append = false ->
        exists st',
          save_df lib py df path append st = (Ok tt, st')
          /\ lookup (files st') path = Some (fresh py df)
          /\ backups st' = (path, f) :: backups st)
    /\ (forall f e,
        lookup (files st) path = Some f -> read_columns lib f = Raise e ->
        save_df lib py df path append st = (Raise e, st)).
Proof.
  intros lib py st df path append. repeat split.
  - intros f h F R N. save_df_run F. rewrite R. save_df_run F.
    rewrite (labels_eqb_false _ _ N). save_df_run F. save_df_done.
  - intros f h F R -> ->. save_df_run F. rewrite R. save_df_run F.
    rewrite labels_eqb_true. save_df_run F. save_df_done.
  - intros F. save_df_run F. save_df_done.
  - intros f h F R ->. save_df_run F. rewrite R. save_df_run F.
    destruct (labels_eqb h (columns df)); save_df_run F; save_df_done.
  - intros f e F R. save_df_run F. rewrite R. reflexivity.
Qed.

Lemma save_df_cases_on_a_ledger :
  (exists st',
      save_df lib0 py0 frame0 "/out/scores/fw.csv" true
        (store_with_file [["id"; "auc"]; ["t"; "0.5"]]) = (Ok tt, st')
      /\ lookup (files st') "/out/scores/fw.csv" = Some [["id"; "acc"]; ["t"; "1.0"]]
      /\ backups st' = [("/out/scores/fw.csv", [["id"; "auc"]; ["t"; "0.5"]])])
  /\ (exists st',
      save_df lib0 py0 frame0 "/out/scores/fw.csv" true
        (store_with_file [["id"; "acc"]; ["s"; "0.5"]]) = (Ok tt, st')
      /\ lookup (files st') "/out/scores/fw.csv"
         = Some [["id"; "acc"]; ["s"; "0.5"]; ["t"; "1.0"]]
      /\ backups st' = []).
Proof.
  split.
  - apply (proj1 (save_df_cases lib0 py0 (store_with_file [["id"; "auc"]; ["t"; "0.5"]])
                    frame0 "/out/scores/fw.csv" true)
             [["id"; "auc"]; ["t"; "0.5"]] ["id"; "auc"]);
      [reflexivity | reflexivity | discriminate].
  - apply (proj1 (proj2 (save_df_cases lib0 py0
                    (store_with_file [["id"; "acc"]; ["s"; "0.5"]])
                    frame0 "/out/scores/fw.csv" true))
             [["id"; "acc"]; ["s"; "0.5"]] ["id"; "acc"]); reflexivity.
Defined.

(** C6 as stated fails. A file that exists and is empty is an existing
    file, and a save to it without appending is to write the table after a
    backup: the save raises instead, and the file and the backups are as
    they were. And a file whose header line is that of the table, with a
    label that repeats, is not appended to: the labels read in it are not
    those of the table, so it is backed up and replaced. *)
Lemma save_df_counterexample :
  lookup (files (store_with_file [])) "/out/scores/fw.csv" = Some []
  /\ save_df lib0 py0 frame0 "/out/scores/fw.csv" false (store_with_file [])
     = (Raise (Exn "EmptyDataError" "No columns to parse from file"), store_with_file [])
  /\ lookup (files (store_with_file [["id"; "id"]; ["s"; "s"]])) "/out/scores/fw.csv"
     = Some (columns frame_twice_id :: [["s"; "s"]])
  /\ read_columns lib0 [["id"; "id"]; ["s"; "s"]] = Ok ["id"; "id.1"]
  /\ fst (save_df lib0 py0 frame_twice_id "/out/scores/fw.csv" true
            (store_with_file [["id"; "id"]; ["s"; "s"]])) = Ok tt
  /\ lookup (files (snd (save_df lib0 py0 frame_twice_id "/out/scores/fw.csv" true
                           (store_with_file [["id"; "id"]; ["s"; "s"]]))))
            "/out/scores/fw.csv"
     = Some [["id"; "id"]; ["t"; "t"]]
  /\ backups (snd (save_df lib0 py0 frame_twice_id "/out/scores/fw.csv" true
                     (store_with_file [["id"; "id"]; ["s"; "s"]])))
     = [("/out/scores/fw.csv", [["id"; "id"]; ["s"; "s"]])].
Proof. repeat split; vm_compute; reflexivity. Qed.

End SaveFacts.

(** ** Rows without duplicates *)

Module FramesFacts.
Import Frames.

Lemma same_row_refl lib :
  (forall v, same_cell lib v v = true) -> forall r, same_row lib r r = true.
Proof. intros H r. induction r as [| v r IH]; simpl; [reflexivity |]. rewrite H, IH. reflexivity. Qed.

Lemma keep_first_length lib seen l : length (keep_first lib seen l) <= length l.
Proof.
  revert seen. induction l as [| r l IH]; intros seen; simpl; [lia |].
  destruct (existsb (fun s => same_row lib s r) seen); simpl.
  - specialize (IH seen). lia.
  - specialize (IH (r :: seen)). lia.
Qed.

(** The rows that are kept duplicate neither one another nor a row that
    was seen before. *)
Lemma keep_first_distinct lib l :
  forall seen,
    distinct_rows lib (keep_first lib seen l)
    /\ forall x, In x (keep_first lib seen l) ->
         existsb (fun s => same_row lib s x) seen = false.
Proof.
  unfold distinct_rows.
  induction l as [| r l IH]; intros seen; simpl; [split; [constructor | intros x []] |].
  destruct (existsb (fun s => same_row lib s r) seen) eqn:D; [apply IH |].
  destruct (IH (r :: seen)) as [F S]. split.
  - constructor; [| exact F]. apply Forall_forall. intros x I.
    specialize (S x I). simpl in S. apply orb_false_iff in S. tauto.
  - intros x [<- | I]; [exact D |].
    specialize (S x I). simpl in S. apply orb_false_iff in S. tauto.
Qed.

Lemma distinct_rows_NoDup lib l :
  (forall v, same_cell lib v v = true) -> distinct_rows lib l -> NoDup l.
Proof.
  intros H D. induction D as [| r l F D IH]; constructor; [| exact IH].
  intros I. rewrite Forall_forall in F. specialize (F r I).
  rewrite (same_row_refl lib H) in F. discriminate.
Qed.

(** The count of the rows is kept exactly when no row duplicates a row
    that was seen or an earlier row. *)
Lemma keep_first_same_length_seen lib l :
  forall seen,
    length (keep_first lib seen l) = length l
    <-> distinct_rows lib l
        /\ forall x, In x l -> existsb (fun s => same_row lib s x) seen = false.
Proof.
  unfold distinct_rows.
  induction l as [| r l IH]; intros seen; simpl.
  - split; [intros _; split; [constructor | intros x []] | reflexivity].
  - destruct (existsb (fun s => same_row lib s r) seen) eqn:D.
    + split.
      * intros H. pose proof (keep_first_length lib seen l). lia.
      * intros [_ S]. specialize (S r (or_introl eq_refl)). congruence.
    + simpl. split.
      * intros H. injection H as H. apply IH in H as [F S]. split.
        -- constructor; [| exact F]. apply Forall_forall. intros x I.
           specialize (S x I). simpl in S. apply orb_false_iff in S. tauto.
        -- intros x [<- | I]; [exact D |].
           specialize (S x I). simpl in S. apply orb_false_iff in S. tauto.
      * intros [F S]. inversion F as [| ? ? Fr Fl]; subst. f_equal. apply IH.
        split; [exact Fl |]. intros x I. simpl. apply orb_false_iff. split.
        -- rewrite Forall_forall in Fr. apply Fr, I.
        -- apply S. right. exact I.
Qed.

Lemma keep_first_same_length lib l :
  length (keep_first lib [] l) = length l <-> distinct_rows lib l.
Proof.
  rewrite keep_first_same_length_seen. split; [tauto |].
  intros D. split; [exact D | reflexivity].
Qed.

Lemma keep_first_seen lib seen l :
  (forall x, In x l -> existsb (fun s => same_row lib s x) seen = true) ->
  keep_first lib seen l = [].
Proof.
  induction l as [| r l IH]; intros H; simpl; [reflexivity |].
  rewrite (H r (or_introl eq_refl)). apply IH. intros x I. apply H. right. exact I.
Qed.

Lemma keep_first_app lib seen l1 l2 :
  keep_first lib seen (l1 ++ l2)
  = (keep_first lib seen l1 ++ keep_first lib (seen_after lib seen l1) l2)%list.
Proof.
  unfold seen_after. revert seen.
  induction l1 as [| r l1 IH]; intros seen; simpl; [reflexivity |].
  destruct (existsb (fun s => same_row lib s r) seen); simpl.
  - apply IH.
  - rewrite IH. rewrite <- app_assoc. reflexivity.
Qed.

Lemma seen_more lib (more seen : list (list pyval)) x :
  existsb (fun s => same_row lib s x) seen = true ->
  existsb (fun s => same_row lib s x) (more ++ seen) = true.
Proof. intros H. rewrite existsb_app, H. apply orb_true_r. Qed.

(** Once [l] has been read, every row of [l] duplicates a row that has
    been seen, when a cell is equal to itself. *)
Lemma seen_after_all lib seen l x :
  (forall v, same_cell lib v v = true) ->
  In x l -> existsb (fun s => same_row lib s x) (seen_after lib seen l) = true.
Proof.
  intros R. unfold seen_after. revert seen.
  induction l as [| r l IH]; intros seen; simpl; [intros [] |].
  intros H. destruct (existsb (fun s => same_row lib s r) seen) eqn:D; simpl.
  - destruct H as [<- | H]; [apply seen_more, D | apply IH, H].
  - rewrite <- app_assoc. simpl. destruct H as [<- | H].
    + rewrite existsb_app. simpl. rewrite (same_row_refl lib R r). simpl.
      apply orb_true_r.
    + apply (IH (r :: seen) H).
Qed.

(** Appended to itself, a list of rows keeps its first occurrences. *)
Lemma keep_first_twice lib seen l :
  (forall v, same_cell lib v v = true) ->
  keep_first lib seen (l ++ l) = keep_first lib seen l.
Proof.
  intros R. rewrite keep_first_app. rewrite (keep_first_seen lib (seen_after lib seen l) l).
  - apply app_nil_r.
  - intros x. apply seen_after_all, R.
Qed.

Lemma is_unique_NoDup cols : is_unique cols = true <-> NoDup cols.
Proof.
  induction cols as [| c cols IH]; simpl; [split; [constructor | reflexivity] |].
  rewrite andb_true_iff, negb_true_iff, IH. split.
  - intros [E N]. constructor; [| exact N]. intros I.
    assert (X : existsb (String.eqb c) cols = true).
    { apply existsb_exists. exists c. split; [exact I | apply String.eqb_refl]. }
    congruence.
  - intros N. inversion N as [| ? ? I N']; subst. split; [| exact N'].
    destruct (existsb (String.eqb c) cols) eqn:X; [| reflexivity].
    apply existsb_exists in X as (x & Ix & E). apply String.eqb_eq in E. subst x.
    contradiction.
Qed.

(** Appended to itself, a frame has its rows twice under its labels. *)
Lemma append_self df :
  Frames.append df df = Ok {| columns := columns df; rows := (rows df ++ rows df)%list |}.
Proof. unfold Frames.append. rewrite SaveFacts.labels_eqb_true. reflexivity. Qed.

End FramesFacts.

(** ** Scoreboards in the store *)

Module ScoreboardFacts.
Import Results Frames Scoreboard Examples FramesFacts.

Lemma mbind_ok {A B} (m : M A) (k : A -> M B) st b st' :
  mbind m k st = (Ok b, st') ->
  exists a st1, m st = (Ok a, st1) /\ k a st1 = (Ok b, st').
Proof.
  unfold mbind. destruct (m st) as [[a | e] st1]; [eauto | discriminate].
Qed.

Lemma mbind_step {A B} (m : M A) (k : A -> M B) st a st1 :
  m st = (Ok a, st1) -> mbind m k st = k a st1.
Proof. unfold mbind. intros ->. reflexivity. Qed.

Lemma read_board_ok self st b st' :
  read_board self st = (Ok b, st') -> nth_error (boards st) self = Some b /\ st' = st.
Proof.
  unfold read_board, dangling, throw.
  destruct (nth_error (boards st) self); [| discriminate].
  intros H. injection H as -> ->. auto.
Qed.

Lemma read_board_at self st b :
  nth_error (boards st) self = Some b -> read_board self st = (Ok b, st).
Proof. unfold read_board. intros ->. reflexivity. Qed.

Lemma read_frame_ok l st df st' :
  read_frame l st = (Ok df, st') -> nth_error (frames st) l = Some df /\ st' = st.
Proof.
  unfold read_frame, dangling, throw.
  destruct (nth_error (frames st) l); [| discriminate].
  intros H. injection H as -> ->. auto.
Qed.

Lemma read_frame_at l st df :
  nth_error (frames st) l = Some df -> read_frame l st = (Ok df, st).
Proof. unfold read_frame. intros ->. reflexivity. Qed.

Lemma nth_error_replace_nth {A} (l : list A) i x y :
  nth_error l i = Some y -> nth_error (replace_nth i x l) i = Some x.
Proof.
  revert i. induction l as [| a l IH]; intros [| i]; simpl; try discriminate; auto.
Qed.

Lemma nth_error_last {A} (l : list A) x : nth_error (l ++ [x]) (length l) = Some x.
Proof. induction l; simpl; auto. Qed.

Lemma nth_error_before {A} (l : list A) x i y :
  nth_error l i = Some y -> nth_error (l ++ [x]) i = Some y.
Proof.
  intros H. rewrite nth_error_app1; [exact H |].
  apply nth_error_Some. congruence.
Qed.

(** Once a cached method has returned, the scoreboard holds the result
    in the slot of the method. *)
Lemma cached_kept slot keep fn self st l st1 :
  (forall b r, slot (keep b r) = Some r) ->
  cached slot keep fn self st = (Ok l, st1) ->
  exists b1, nth_error (boards st1) self = Some b1 /\ slot b1 = Some l.
Proof.
  intros K H. unfold cached in H.
  apply mbind_ok in H as (b & s0 & Hb & H).
  apply read_board_ok in Hb as [Hb ->].
  destruct (slot b) eqn:C.
  - injection H as <- <-. eauto.
  - apply mbind_ok in H as (l0 & s1 & _ & H).
    apply mbind_ok in H as (b' & s2 & Hb' & H).
    apply read_board_ok in Hb' as [Hb' ->].
    apply mbind_ok in H as (u & s3 & Hw & H).
    unfold write_board in Hw. injection Hw as Hw.
    injection H as <- <-. subst s3. simpl.
    eexists. split; [apply (nth_error_replace_nth _ _ _ _ Hb') | apply K].
Qed.

(** ... and every later call returns that same object. *)
Lemma cached_again slot keep fn self st b l :
  nth_error (boards st) self = Some b -> slot b = Some l ->
  cached slot keep fn self st = (Ok l, st).
Proof.
  intros B C. unfold cached.
  rewrite (mbind_step _ _ _ _ _ (read_board_at _ _ _ B)). rewrite C. reflexivity.
Qed.

Lemma as_data_frame_cached lib self st l st1 :
  as_data_frame lib self st = (Ok l, st1) ->
  exists b1, nth_error (boards st1) self = Some b1 /\ cached_as_data_frame b1 = Some l.
Proof. apply cached_kept. reflexivity. Qed.

Lemma as_data_frame_again lib self st b l :
  nth_error (boards st) self = Some b -> cached_as_data_frame b = Some l ->
  as_data_frame lib self st = (Ok l, st).
Proof. apply cached_again. Qed.

(** C8, as amended: appended to itself with [no_duplicates=True], a
    scoreboard yields the rows of its table without those that duplicate
    an earlier row, in the order of their first occurrence; two rows are
    duplicates when their cells are equal as [drop_duplicates] compares
    them, and a cell is equal to itself. The row count never grows, and it
    is the row count of the table exactly when no row of the table
    duplicates an earlier one. *)
Theorem append_self_keeps_first_rows :
  forall lib self st l st1 df,
    (forall v, same_cell lib v v = true) ->
    as_data_frame lib self st = (Ok l, st1) ->
    nth_error (frames st1) l = Some df ->
    exists b' st',
      append lib self (Board self) true st = (Ok b', st')
      /\ fst (held_rows lib b' st') = Ok (keep_first lib [] (rows df))
      /\ length (keep_first lib [] (rows df)) <= length (rows df)
      /\ (length (keep_first lib [] (rows df)) = length (rows df)
          <-> distinct_rows lib (rows df)).
Proof.
  intros lib self st l st1 df R H F.
  destruct (as_data_frame_cached _ _ _ _ _ H) as (b1 & B & C).
  unfold append.
  rewrite (mbind_step _ _ _ _ _ H).
  rewrite (mbind_step _ _ _ _ _ (as_data_frame_again lib _ _ _ _ B C)).
  rewrite (mbind_step _ _ _ _ _ (read_frame_at _ _ _ F)).
  rewrite (mbind_step _ _ _ _ _ (read_frame_at _ _ _ F)).
  rewrite (append_self df).
  unfold mbind at 1. simpl.
  unfold mbind at 1. simpl.
  unfold mbind at 1. unfold mbind at 1. unfold read_frame at 1. simpl.
  rewrite nth_error_last. simpl.
  unfold mbind at 1. unfold read_board at 1. simpl. rewrite B.
  unfold new_board. simpl.
  eexists. eexists. split; [reflexivity |].
  split; [| split; [apply keep_first_length | apply keep_first_same_length]].
  unfold held_rows, mbind, read_board, read_frame. simpl.
  rewrite nth_error_last. simpl. rewrite nth_error_last. simpl.
  rewrite (keep_first_twice lib [] (rows df) R). reflexivity.
Qed.

Lemma same_float_refl f : same_float f f = true.
Proof.
  destruct f as [| b | m e]; simpl; [reflexivity | apply Bool.eqb_reflx | apply Z.eqb_refl].
Qed.

Lemma same_value_refl v : same_value v v = true.
Proof.
  unfold same_value.
  destruct (number v) as [f |] eqn:N; [apply same_float_refl |].
  destruct (pyval_eq_dec v v); congruence.
Qed.

Lemma append_self_keeps_first_rows_once :
  exists b' st',
    append lib0 0 (Board 0) true (store0 [record0]) = (Ok b', st')
    /\ fst (held_rows lib0 b' st')
       = Ok [[PStr "t"; PFloat nan; PFloat nan; PFloat nan; PInt 0; PFloat nan; PFloat nan;
              PFloat nan; PFloat nan; PFloat nan; PFloat nan; PFloat nan; PFloat nan;
              PFloat nan; PFloat nan; PFloat nan; PFloat nan; PFloat nan;
              PFloat (FNum 1 0)]].
Proof.
  destruct (append_self_keeps_first_rows lib0 0 (store0 [record0])
              1 (snd (as_data_frame lib0 0 (store0 [record0])))
              {| columns := (fixed_cols ++ ["acc"])%list;
                 rows := [map (cell ["id"; "fold"; "acc"] (map snd record0))
                            (fixed_cols ++ ["acc"])%list] |}
              same_value_refl eq_refl eq_refl)
    as (b' & st' & E & R & _).
  exists b', st'. split; [exact E | exact R].
Defined.

(** C8 as stated fails: a scoreboard that holds the same record twice has
    two rows, and appended to itself it yields one. *)
Lemma append_self_counterexample :
  fst (held_rows lib0 0 (store0 [record0; record0]))
  = Ok [map snd record0; map snd record0]
  /\ exists b' st',
       append lib0 0 (Board 0) true (store0 [record0; record0]) = (Ok b', st')
       /\ option_map (@length _)
            (match fst (held_rows lib0 b' st') with Ok r => Some r | Raise _ => None end)
          = Some 1.
Proof. split; [reflexivity |]. eexists. eexists. split; reflexivity. Qed.

Lemma update_column_boards l col f st u st' :
  update_column l col f st = (Ok u, st') -> boards st' = boards st.
Proof.
  unfold update_column. intros H.
  apply mbind_ok in H as (df & s1 & Hdf & H).
  apply read_frame_ok in Hdf as [_ ->].
  destruct (column df col); [| discriminate].
  apply mbind_ok in H as (vals & s2 & Hl & H).
  unfold lift in Hl. destruct (f l0); [| discriminate].
  injection Hl as <- <-. unfold write_frame in H. injection H as H.
  subst st'. reflexivity.
Qed.

Lemma for_each_boards cols body :
  (forall c st u st', body c st = (Ok u, st') -> boards st' = boards st) ->
  forall st u st', for_each cols body st = (Ok u, st') -> boards st' = boards st.
Proof.
  intros Hb. induction cols as [| c cols IH]; simpl; intros st u st' H.
  - inversion H; subst; reflexivity.
  - apply mbind_ok in H as (u1 & s1 & H1 & H).
    rewrite (IH _ _ _ H). apply (Hb _ _ _ _ H1).
Qed.

(** The first call of [as_printable_data_frame] returns the frame that
    [as_data_frame] has cached, rewritten in place: from then on both
    calls return that one frame. *)
Lemma printable_frame_is_the_table lib py self st b l st' :
  nth_error (boards st) self = Some b ->
  cached_as_printable_data_frame b = None ->
  as_printable_data_frame lib py self st = (Ok l, st') ->
  as_data_frame lib self st' = (Ok l, st')
  /\ as_printable_data_frame lib py self st' = (Ok l, st').
Proof.
  intros B C H. unfold as_printable_data_frame, cached in H.
  rewrite (mbind_step _ _ _ _ _ (read_board_at _ _ _ B)) in H. rewrite C in H.
  apply mbind_ok in H as (l0 & s7 & Hbody & H).
  unfold as_printable_data_frame_body in Hbody.
  apply mbind_ok in Hbody as (df & s1 & Hdf & Hbody).
  destruct (as_data_frame_cached _ _ _ _ _ Hdf) as (b1 & B1 & C1).
  apply mbind_ok in Hbody as (frame & s2 & Hf & Hbody).
  apply read_frame_ok in Hf as [_ ->].
  apply mbind_ok in Hbody as (u1 & s3 & H1 & Hbody).
  apply for_each_boards in H1; [| intros; eapply update_column_boards; eassumption].
  apply mbind_ok in Hbody as (u2 & s4 & H2 & Hbody).
  apply for_each_boards in H2; [| intros; eapply update_column_boards; eassumption].
  apply mbind_ok in Hbody as (u3 & s5 & H3 & Hbody).
  apply for_each_boards in H3; [| intros; eapply update_column_boards; eassumption].
  apply mbind_ok in Hbody as (u4 & s6 & H4 & Hbody).
  apply for_each_boards in H4; [| intros; eapply update_column_boards; eassumption].
  injection Hbody as <- <-.
  assert (B6 : nth_error (boards s6) self = Some b1) by congruence.
  rewrite (mbind_step _ _ _ _ _ (read_board_at _ _ _ B6)) in H.
  unfold mbind, write_board, ret in H. injection H as <- <-.
  split.
  - eapply as_data_frame_again.
    + simpl. apply (nth_error_replace_nth _ _ _ _ B6).
    + simpl. exact C1.
  - eapply cached_again.
    + simpl. apply (nth_error_replace_nth _ _ _ _ B6).
    + reflexivity.
Qed.

(** C2: a save rewrites the table that [as_data_frame] returns. Before
    the save the table of the scoreboard has the fold 0 and no model
    count; after it, the same call returns the strings ["0"] and [""],
    which is what the later merges and comparisons of rows then see. *)
Theorem save_rewrites_the_table :
  fst (table_column lib0 0 "fold" (store0 [record0])) = Ok (Some [PInt 0])
  /\ fst (table_column lib0 0 "models_count" (store0 [record0])) = Ok (Some [PFloat nan])
  /\ fst (save (cfg0 ".") lib0 py0 0 false (store0 [record0])) = Ok tt
  /\ fst (table_column lib0 0 "fold"
            (snd (save (cfg0 ".") lib0 py0 0 false (store0 [record0]))))
     = Ok (Some [PStr "0"])
  /\ fst (table_column lib0 0 "models_count"
            (snd (save (cfg0 ".") lib0 py0 0 false (store0 [record0]))))
     = Ok (Some [PStr ""]).
Proof. repeat split; vm_compute; reflexivity. Qed.

End ScoreboardFacts.

(** ** File names *)

Module NamingFacts.
Import Naming Examples.

(** C7: for the separator ["-"] and the scope of a framework and a task,
    [_score_file] writes the underscore of its own after [task], not the
    separator, and [from_file] reads the name it produced as the name of
    a framework alone. With the separator ["."] the name is not the one
    of the pattern either. *)
Theorem score_file_is_not_read_back :
  _score_file (cfg0 "-") scope_fw_t = "/out/scores/fw-task_t.csv"
  /\ spec_framework_task_file "-" "fw" "t" = "fw-task-t.csv"
  /\ from_file (cfg0 "-") "/out/scores/fw-task_t.csv"
     = Some {| framework_name := NStr "fw-task_t"; benchmark_name := NFalse;
               task_name := NFalse; scores_dir := "/out/scores" |}
  /\ option_map (same_scope scope_fw_t) (from_file (cfg0 "-") "/out/scores/fw-task_t.csv")
     = Some false
  /\ score_file_name "." scope_fw_t = "fw.task_t.csv"
  /\ spec_framework_task_file "." "fw" "t" = "fw.task.t.csv".
Proof. repeat split. Qed.

(** The order of precedence of the scopes is the one of the specification. *)
Lemma score_file_name_precedence sep sc :
  score_file_name sep sc
  = match name_truthy (framework_name sc), name_truthy (task_name sc),
          name_truthy (benchmark_name sc) with
    | true, true, _ => name_str (framework_name sc) ++ sep ++ "task_" ++ name_str (task_name sc) ++ ".csv"
    | true, false, true =>
        name_str (framework_name sc) ++ sep ++ "benchmark_" ++ name_str (benchmark_name sc) ++ ".csv"
    | true, false, false => name_str (framework_name sc) ++ ".csv"
    | false, true, _ => "task_" ++ name_str (task_name sc) ++ ".csv"
    | false, false, true => "benchmark_" ++ name_str (benchmark_name sc) ++ ".csv"
    | false, false, false => results_file
    end.
Proof.
  unfold score_file_name.
  destruct (name_truthy (framework_name sc)), (name_truthy (task_name sc)),
    (name_truthy (benchmark_name sc)); reflexivity.
Qed.

End NamingFacts.

(** ** Identity of a predictions file *)

Module IdentityFacts.
Import Identity Examples.

Lemma no_slash_tail a s : no_slash (String a s) -> no_slash s.
Proof. unfold no_slash. simpl. tauto. Qed.

Lemma no_slash_head a s : no_slash (String a s) -> Ascii.eqb a "/" = false.
Proof.
  unfold no_slash. simpl. intros H.
  destruct (Ascii.eqb_spec a "/"); [exfalso; apply H; left; congruence | reflexivity].
Qed.

Lemma more_none {R} lazy c (k : list ascii -> string -> option R) s :
  no_slash s ->
  (forall taken' rest, no_slash rest -> k taken' rest = None) ->
  forall taken, Re.more lazy c k taken s = None.
Proof.
  intros N H. induction s as [| a s IH]; intros taken; simpl.
  - rewrite (H _ _ N). destruct lazy; reflexivity.
  - rewrite (H _ _ N).
    destruct (Re.in_class c a); [rewrite (IH (no_slash_tail _ _ N)) |];
      destruct lazy; reflexivity.
Qed.

Lemma take_no_slash body :
  forall s t rest, Re.take body s = Some (t, rest) -> no_slash s -> no_slash rest.
Proof.
  induction body as [| c body IH]; intros s t rest; simpl.
  - intros H. injection H as <- <-. auto.
  - destruct s as [| a s]; [discriminate |].
    destruct (Re.in_class c a); [| discriminate].
    destruct (Re.take body s) as [[t' rest'] |] eqn:E; [| discriminate].
    intros H N. injection H as <- <-.
    apply (IH _ _ _ E). apply (no_slash_tail _ _ N).
Qed.

(** A pattern with a literal ["/"] matches no text without one. *)
Lemma run_none an p :
  wants_slash p -> forall s g, no_slash s -> Re.run an p s g = None.
Proof.
  unfold wants_slash.
  induction p as [| n p IH]; intros W s g N; [destruct W |].
  destruct n as [c | name lazy c | name body]; simpl.
  - destruct s as [| a s]; [reflexivity |].
    destruct W as [E | W].
    + injection E as ->. simpl. rewrite (no_slash_head _ _ N). reflexivity.
    + destruct (Re.in_class c a); [| reflexivity].
      apply (IH W). apply (no_slash_tail _ _ N).
  - destruct W as [E | W]; [discriminate |].
    unfold Re.plus. destruct s as [| a s]; [reflexivity |].
    destruct (Re.in_class c a); [| reflexivity].
    apply more_none; [apply (no_slash_tail _ _ N) |].
    intros taken' rest Nr. apply (IH W _ _ Nr).
  - destruct W as [E | W]; [discriminate |].
    destruct (Re.take body s) as [[t rest] |] eqn:E; [| reflexivity].
    apply (IH W). apply (take_no_slash _ _ _ _ E N).
Qed.

(** The folder pattern ends with a ["/"], and [os.path.split] returns a
    folder without one: a folder that is one directory under the root is
    never matched, whatever its name. *)
Lemma folder_pat_needs_inner_slash sep dir :
  no_slash dir -> Re.match_ (folder_pat sep) (String "/" dir) = None.
Proof.
  intros N. unfold Re.match_, folder_pat.
  change (Re.run Re.Prefix (Re.lit "/" ++ ?p)%list (String "/" dir) [])
    with (Re.run Re.Prefix p dir []).
  apply run_none; [| exact N].
  unfold wants_slash. repeat (apply in_or_app; right). left. reflexivity.
Qed.

(** C3: for a predictions file in a directory named
    [<framework><sep><benchmark><sep><constraint><sep><mode>], with or
    without the date, the framework, the task and the fold are read from
    the name of the file, and nothing is read from the directory: the
    constraint and the benchmark stay unset. The folder pattern accepts a
    directory only when it is followed by another one and ends with a
    digit, ["8T"], a digit and ["6"]. *)
Theorem predictions_path_identity :
  score_from_predictions_file_identity (cfg0 "_") "/fw_bench_1h_local_20200101T101010/fw_task_0.csv"
  = Some {| folder_g := []; framework_name := "fw"; task_name := "task"; fold := 0;
            constraint := None; benchmark := None |}
  /\ score_from_predictions_file_identity (cfg0 "_") "/fw_bench_1h_local/fw_task_0.csv"
     = Some {| folder_g := []; framework_name := "fw"; task_name := "task"; fold := 0;
               constraint := None; benchmark := None |}
  /\ score_from_predictions_file_identity (cfg0 ".") "/fw.bench.1h.local.20200101T101010/fw.task.0.csv"
     = Some {| folder_g := []; framework_name := "fw"; task_name := "task"; fold := 0;
               constraint := None; benchmark := None |}
  /\ score_from_predictions_file_identity (cfg0 "_") "/fw_bench_1h_local_20200101T101010/predictions/fw_task_0.csv"
     = Some {| folder_g := []; framework_name := "fw"; task_name := "task"; fold := 0;
               constraint := None; benchmark := None |}
  /\ score_from_predictions_file_identity (cfg0 "_") "/fw_bench_1h_local_18T26/predictions/fw_task_0.csv"
     = Some {| folder_g := [("datetime", "18T26"); ("mode", "local"); ("constraint", "1h");
                            ("benchmark", "bench"); ("framework", "fw")];
               framework_name := "fw"; task_name := "task"; fold := 0;
               constraint := Some "1h"; benchmark := Some "bench" |}.
Proof. repeat split. Qed.

End IdentityFacts.

(** ** More on results and scoring *)

Module ScoringFacts.
Import Results TaskResult Examples ResultsFacts NamespaceFacts TaskResultFacts.

Lemma length_of_chars l : String.length (Str.of_chars l) = length l.
Proof. induction l; simpl; auto. Qed.

Lemma length_chars s : length (Str.chars s) = String.length s.
Proof. induction s; simpl; auto. Qed.

Lemma length_app_string a b : String.length (a ++ b) = String.length a + String.length b.
Proof. induction a; simpl; auto. Qed.

(** X1: the diagnostic of an [ErrorResult] is ["<class>: <message>"] when
    that fits in [error_max_length], and otherwise its first
    [error_max_length - 3] characters followed by ["..."]; when the limit is
    at least 3 the diagnostic is never longer than the limit. *)
Theorem ErrorResult_info_is_bounded :
  forall cfg error,
    (3 <= error_max_length cfg)%Z ->
    exists msg,
      info (ErrorResult cfg error) = Some msg
      /\ (Z.of_nat (String.length msg) <= error_max_length cfg)%Z
      /\ ((Z.of_nat (String.length (exn_class error ++ ": " ++ exn_msg error))
           <= error_max_length cfg)%Z ->
          msg = exn_class error ++ ": " ++ exn_msg error)
      /\ ((error_max_length cfg
           < Z.of_nat (String.length (exn_class error ++ ": " ++ exn_msg error)))%Z ->
          msg = slice_to (error_max_length cfg - 3)
                         (exn_class error ++ ": " ++ exn_msg error) ++ "...").
Proof.
  intros cfg error H. unfold ErrorResult. cbn [info].
  set (full := exn_class error ++ ": " ++ exn_msg error).
  set (max_len := error_max_length cfg) in *.
  destruct (Z.leb_spec (Z.of_nat (String.length full)) max_len) as [L | L].
  - exists full. repeat split; auto. intros; lia.
  - eexists. split; [reflexivity |]. split; [| split; [intros; lia | reflexivity]].
    unfold slice_to. destruct (Z.leb_spec 0 (max_len - 3)) as [P | P]; [| lia].
    rewrite length_app_string, length_of_chars. simpl.
    pose proof (firstn_le_length (Z.to_nat (max_len - 3)) (Str.chars full)). lia.
Qed.

Lemma ErrorResult_info_is_bounded_short :
  exists msg,
    info (ErrorResult (cfg0 ".") (Exn "ResultError" "no columns")) = Some msg
    /\ (Z.of_nat (String.length msg) <= 200)%Z.
Proof.
  destruct (ErrorResult_info_is_bounded (cfg0 ".") (Exn "ResultError" "no columns"))
    as (msg & E & L & _); [simpl; lia |].
  exists msg. split; [exact E | exact L].
Defined.

(** X2: asked of a classification result that does not have exactly two
    classes, the metric [auc] is NaN with no error message: the area is
    not computed and nothing is reported. *)
Theorem auc_is_nan_unless_binary :
  forall py t info,
    n_columns t - 2 <> 2 ->
    evaluate py (ClassificationResult t info) (PStr "auc") = Ok (PFloat nan, None).
Proof.
  intros py t info H.
  assert (S : scored (ClassificationResult t info)) by (left; reflexivity).
  apply (evaluate_returning py _ "auc" (Method (Ok (PFloat nan))) _ S); [| reflexivity].
  unfold getattr, class_attrs, classification_methods, ClassificationResult. simpl.
  destruct (Nat.eqb_spec (n_columns t - 2) 2); [contradiction | reflexivity].
Qed.

Lemma auc_is_nan_unless_binary_three_classes :
  evaluate py0 (ClassificationResult (table0 5 zero) None) (PStr "auc")
  = Ok (PFloat nan, None).
Proof. apply auc_is_nan_unless_binary. simpl. discriminate. Defined.

Lemma bind_ok {A B} (m : res A) (k : A -> res B) b :
  Py.bind m k = Ok b -> exists a, m = Ok a /\ k a = Ok b.
Proof. destruct m as [a | e]; simpl; [eauto | discriminate]. Qed.

Lemma do_score_message py r errs m score errs' :
  do_score py r errs (PStr m) = Ok (score, errs') ->
  errs' = (errs ++ message py r m)%list.
Proof.
  unfold do_score, message.
  destruct (evaluate py r (PStr m)) as [[v [e |]] | e]; simpl; try discriminate.
  - destruct (String.eqb e ""); intros H; injection H as <- <-;
      [rewrite app_nil_r |]; reflexivity.
  - intros H. injection H as <- <-. rewrite app_nil_r. reflexivity.
Qed.

(** The loop over the declared metrics changes no other field and adds
    the messages of the metrics that fail, in the order of the list. *)
Lemma score_metrics_effect py r metrics :
  forall scores errs scores' errs',
    score_metrics py r metrics scores errs = Ok (scores', errs') ->
    (forall k, ~ In k metrics -> Namespace.get scores' k = Namespace.get scores k)
    /\ errs' = (errs ++ flat_map (message py r) metrics)%list.
Proof.
  induction metrics as [| m metrics IH]; simpl; intros scores errs scores' errs' H.
  - injection H as <- <-. rewrite app_nil_r. auto.
  - apply bind_ok in H as ([score errs1] & D & H).
    apply IH in H as [K E]. split.
    + intros k N. rewrite K by tauto. apply get_set_other. tauto.
    + rewrite E, (do_score_message _ _ _ _ _ _ D), <- app_assoc. reflexivity.
Qed.

Lemma contains_get ns k v : Namespace.get ns k = Some v -> Namespace.contains ns k = true.
Proof. unfold Namespace.contains. intros ->. reflexivity. Qed.

Lemma contains_merge_missing a b k :
  Namespace.contains a k = true -> Namespace.contains (Namespace.merge_missing a b) k = true.
Proof.
  unfold Namespace.contains at 1. destruct (Namespace.get a k) eqn:G; [| discriminate].
  intros _. apply (contains_get _ _ p). apply get_merge_missing. exact G.
Qed.

Lemma contains_finish r meta scores res_ errs k :
  Namespace.contains scores k = true \/ k = "result" \/ k = "info" ->
  Namespace.contains (finish r meta scores res_ errs) k = true.
Proof.
  intros H. unfold finish. apply contains_merge_missing.
  assert (C : Namespace.contains
                (Namespace.set (Namespace.set scores "result" res_) "info"
                   (info_val (info r))) k = true).
  { destruct H as [H | [-> | ->]].
    - apply contains_set_mono, contains_set_mono, H.
    - apply contains_set_mono, contains_set_same.
    - apply contains_set_same. }
  destruct errs; [exact C | apply contains_set_mono, C].
Qed.

(** X3: when the metadata names a primary metric and no declared metric
    is itself named ["metric"], [compute_scores] returns a record, whatever
    the result and whatever the metrics do, and the record has the fields
    [result] and [info] and one field for each declared metric. *)
Theorem compute_scores_returns :
  forall cfg py w utc self result meta_result k,
    md_metric (get_metadata w self) = PStr k ->
    ~ In "metric" (match md_metrics (get_metadata w self) with Some l => l | None => [] end) ->
    exists scores,
      compute_scores cfg py w utc self result meta_result = Ok scores
      /\ Namespace.contains scores "result" = true
      /\ Namespace.contains scores "info" = true
      /\ forall m,
           In m (match md_metrics (get_metadata w self) with Some l => l | None => [] end) ->
           Namespace.contains scores m = true.
Proof.
  intros cfg py w utc self result meta_result k K N. unfold compute_scores.
  set (md := get_metadata w self) in *.
  set (metrics := match md_metrics md with Some l => l | None => [] end) in *.
  set (meta := match meta_result with Some m => m | None => [] end).
  set (r := match result with Some r => r | None => get_result cfg w self end).
  cbv zeta.
  destruct (score_metrics_ok py r metrics (initial_scores cfg utc self md meta) [])
    as (sc1 & errs1 & E & _ & M).
  rewrite E. simpl.
  destruct (score_metrics_effect _ _ _ _ _ _ _ E) as [F _].
  assert (G : Namespace.getattr sc1 "metric" = PStr k).
  { unfold Namespace.getattr. rewrite (F "metric" N), metric_initial_scores. exact K. }
  unfold primary_score. rewrite G.
  assert (P : exists res_ errs2,
             (if in_scores sc1 (PStr k)
              then Ok (Namespace.getattr sc1 k, errs1)
              else do_score py r errs1 (PStr k)) = Ok (res_, errs2)).
  { destruct (in_scores sc1 (PStr k)); [eauto | apply do_score_str]. }
  destruct P as (res_ & errs2 & ->). simpl.
  eexists. split; [reflexivity |].
  split; [apply contains_finish; auto |].
  split; [apply contains_finish; auto |].
  intros m I. apply contains_finish. left. apply M, I.
Qed.

Lemma compute_scores_returns_with_failing_metric :
  exists scores,
    compute_scores (cfg0 ".") py0
      (world0 (Some classification0) (Some (metadata0 (PStr "acc") ["acc"; "logloss"])))
      "2020-01-01T00:00:00" self0 None None = Ok scores
    /\ Namespace.contains scores "result" = true
    /\ Namespace.contains scores "logloss" = true.
Proof.
  destruct (compute_scores_returns (cfg0 ".") py0
              (world0 (Some classification0) (Some (metadata0 (PStr "acc") ["acc"; "logloss"])))
              "2020-01-01T00:00:00" self0 None None "acc" eq_refl)
    as (scores & E & R & _ & M).
  - simpl. intuition discriminate.
  - exists scores. repeat split; [exact E | exact R |].
    apply M. right. left. reflexivity.
Defined.

(** What a successful [compute_scores] went through. *)
Lemma compute_scores_inv cfg py w utc self result meta_result scores :
  compute_scores cfg py w utc self result meta_result = Ok scores ->
  exists sc1 errs1 res_ errs2,
    score_metrics py (match result with Some r => r | None => get_result cfg w self end)
      (match md_metrics (get_metadata w self) with Some l => l | None => [] end)
      (initial_scores cfg utc self (get_metadata w self)
         (match meta_result with Some m => m | None => [] end)) []
    = Ok (sc1, errs1)
    /\ primary_score py (match result with Some r => r | None => get_result cfg w self end)
         sc1 errs1 = Ok (res_, errs2)
    /\ scores = finish (match result with Some r => r | None => get_result cfg w self end)
                  (match meta_result with Some m => m | None => [] end) sc1 res_ errs2.
Proof.
  unfold compute_scores. cbv zeta. intros H.
  apply bind_ok in H as ([sc1 errs1] & E & H).
  apply bind_ok in H as ([res_ errs2] & P & H).
  injection H as <-. exists sc1, errs1, res_, errs2. auto.
Qed.

Lemma get_finish_kept r meta scores res_ errs k v :
  k <> "result" -> k <> "info" ->
  Namespace.get scores k = Some v ->
  Namespace.get (finish r meta scores res_ errs) k = Some v.
Proof.
  intros N1 N2 G. unfold finish. apply get_merge_missing.
  assert (C : Namespace.get
                (Namespace.set (Namespace.set scores "result" res_) "info"
                   (info_val (info r))) k = Some v).
  { rewrite !get_set_other by (intros E; symmetry in E; contradiction). exact G. }
  destruct errs; [exact C |].
  rewrite get_set_other by (intros E; symmetry in E; contradiction). exact C.
Qed.

Lemma initial_field_set cfg utc self md meta k :
  In k initial_fields -> exists v, Namespace.get (initial_scores cfg utc self md meta) k = Some v.
Proof.
  unfold initial_fields. simpl. intros H.
  repeat (destruct H as [<- | H]; [eexists; reflexivity |]). contradiction.
Qed.

Lemma initial_fields_not_result k : In k initial_fields -> k <> "result" /\ k <> "info".
Proof.
  unfold initial_fields. simpl. intros H.
  repeat (destruct H as [<- | H]; [split; discriminate |]). contradiction.
Qed.

(** X4: a field that the record has before the metrics are scored
    (the identity of the task, the fields of the metadata, the three
    durations and counts) keeps its value to the end, unless a declared
    metric has its name: neither the primary score, nor the diagnostics,
    nor the fields of [meta_result] overwrite it. *)
Theorem compute_scores_keeps_fields :
  forall cfg py w utc self result meta_result scores k,
    compute_scores cfg py w utc self result meta_result = Ok scores ->
    In k initial_fields ->
    ~ In k (match md_metrics (get_metadata w self) with Some l => l | None => [] end) ->
    Namespace.get scores k
    = Namespace.get (initial_scores cfg utc self (get_metadata w self)
                       (match meta_result with Some m => m | None => [] end)) k.
Proof.
  intros cfg py w utc self result meta_result scores k H I N.
  apply compute_scores_inv in H as (sc1 & errs1 & res_ & errs2 & E & _ & ->).
  destruct (score_metrics_effect _ _ _ _ _ _ _ E) as [F _].
  destruct (initial_field_set cfg utc self (get_metadata w self)
              (match meta_result with Some m => m | None => [] end) k I) as [v G].
  destruct (initial_fields_not_result k I) as [N1 N2].
  rewrite G. apply get_finish_kept; auto. rewrite (F k N). exact G.
Qed.

Lemma compute_scores_keeps_fields_fold :
  exists scores,
    compute_scores (cfg0 ".") py0
      (world0 (Some regression0) (Some (metadata0 (PStr "rmse") ["rmse"])))
      "2020-01-01T00:00:00" self0 None (Some [("fold", PInt 99)]) = Ok scores
    /\ Namespace.get scores "fold" = Some (PInt 0).
Proof.
  assert (E : exists scores,
             compute_scores (cfg0 ".") py0
               (world0 (Some regression0) (Some (metadata0 (PStr "rmse") ["rmse"])))
               "2020-01-01T00:00:00" self0 None (Some [("fold", PInt 99)]) = Ok scores)
    by (eexists; reflexivity).
  destruct E as [scores E]. exists scores. split; [exact E |].
  rewrite (compute_scores_keeps_fields _ _ _ _ _ _ _ _ "fold" E).
  - reflexivity.
  - simpl. tauto.
  - simpl. intuition discriminate.
Defined.

Lemma get_merge_missing_new b :
  forall a k, Namespace.contains a k = false ->
    Namespace.get (Namespace.merge_missing a b) k = Namespace.get b k.
Proof.
  unfold Namespace.merge_missing.
  induction b as [| [k' v'] b IH]; simpl; intros a k C.
  - unfold Namespace.contains in C. destruct (Namespace.get a k); [discriminate | reflexivity].
  - destruct (String.eqb_spec k' k) as [-> | D].
    + rewrite C. apply (get_merge_missing (Namespace.set a k v') b k v').
      apply get_set_same.
    + apply IH. destruct (Namespace.contains a k'); [exact C |].
      unfold Namespace.contains. rewrite get_set_other by exact D.
      exact C.
Qed.

Lemma get_filter_other (keep : string -> bool) ns :
  forall k, keep k = true ->
    Namespace.get (filter (fun kv => keep (fst kv)) ns) k = Namespace.get ns k.
Proof.
  induction ns as [| [k' v'] ns IH]; simpl; intros k K; [reflexivity |].
  destruct (keep k') eqn:E; simpl.
  - destruct (String.eqb k' k); auto.
  - destruct (String.eqb_spec k' k) as [-> | D]; [congruence | auto].
Qed.

(** X5: the fields [training_duration], [predict_duration] and
    [models_count] of the record are those of [meta_result] when it has
    them and NaN when it has not; every other field of [meta_result] is
    added to the record under its own name when the record has no field of
    that name. *)
Theorem compute_scores_meta_result :
  forall cfg py w utc self result meta_result scores,
    compute_scores cfg py w utc self result meta_result = Ok scores ->
    (forall m,
        In m required_metares ->
        ~ In m (match md_metrics (get_metadata w self) with Some l => l | None => [] end) ->
        Namespace.get scores m
        = Some (match Namespace.get (match meta_result with Some x => x | None => [] end) m with
                | Some v => v
                | None => PFloat nan
                end))
    /\ (forall k,
        ~ In k required_metares -> ~ In k initial_fields ->
        ~ In k (match md_metrics (get_metadata w self) with Some l => l | None => [] end) ->
        k <> "result" -> k <> "info" ->
        Namespace.get scores k
        = Namespace.get (match meta_result with Some x => x | None => [] end) k).
Proof.
  intros cfg py w utc self result meta_result scores H. split.
  - intros m I N.
    rewrite (compute_scores_keeps_fields _ _ _ _ _ _ _ _ m H); [| | exact N].
    + simpl in I. destruct I as [<- | [<- | [<- | []]]]; reflexivity.
    + simpl in I. unfold initial_fields. simpl.
      destruct I as [<- | [<- | [<- | []]]]; tauto.
  - intros k R I N N1 N2.
    apply compute_scores_inv in H as (sc1 & errs1 & res_ & errs2 & E & _ & ->).
    destruct (score_metrics_effect _ _ _ _ _ _ _ E) as [F _].
    unfold finish.
    assert (G : Namespace.get sc1 k = None).
    { rewrite (F k N). apply get_not_key. rewrite keys_initial_scores. exact I. }
    rewrite get_merge_missing_new.
    + apply (get_filter_other (fun k => negb (existsb (String.eqb k) required_metares))).
      apply negb_true_iff. apply not_true_iff_false. intros X.
      apply existsb_exists in X as (x & Hx & Ex).
      apply String.eqb_eq in Ex. subst x. contradiction.
    + unfold Namespace.contains.
      destruct errs2; rewrite !get_set_other by (intros X; symmetry in X; contradiction);
        rewrite G; reflexivity.
Qed.

Lemma compute_scores_meta_result_durations :
  exists scores,
    compute_scores (cfg0 ".") py0
      (world0 (Some regression0) (Some (metadata0 (PStr "rmse") ["rmse"])))
      "2020-01-01T00:00:00" self0 None
      (Some [("training_duration", PFloat (FNum 12 0)); ("tag", PStr "x")]) = Ok scores
    /\ Namespace.get scores "training_duration" = Some (PFloat (FNum 12 0))
    /\ Namespace.get scores "predict_duration" = Some (PFloat nan)
    /\ Namespace.get scores "tag" = Some (PStr "x").
Proof.
  assert (E : exists scores,
             compute_scores (cfg0 ".") py0
               (world0 (Some regression0) (Some (metadata0 (PStr "rmse") ["rmse"])))
               "2020-01-01T00:00:00" self0 None
               (Some [("training_duration", PFloat (FNum 12 0)); ("tag", PStr "x")])
             = Ok scores)
    by (eexists; reflexivity).
  destruct E as [scores E]. exists scores. split; [exact E |].
  destruct (compute_scores_meta_result _ _ _ _ _ _ _ _ E) as [D O].
  split; [| split].
  - rewrite D; [reflexivity | simpl; tauto | simpl; intuition discriminate].
  - rewrite D; [reflexivity | simpl; tauto | simpl; intuition discriminate].
  - rewrite O; [reflexivity | | | | |]; simpl; intuition discriminate.
Defined.

Lemma messages_not_empty py r metrics :
  filter (fun it => negb (String.eqb it "")) (flat_map (message py r) metrics)
  = flat_map (message py r) metrics.
Proof.
  induction metrics as [| m metrics IH]; simpl; [reflexivity |].
  rewrite filter_app, IH. f_equal. unfold message.
  destruct (evaluate py r (PStr m)) as [[v [e |]] | e]; try reflexivity.
  destruct (String.eqb e "") eqn:E; simpl; [reflexivity | rewrite E; reflexivity].
Qed.

Lemma own_info_filter r :
  filter (fun it => negb (String.eqb it ""))
         (match info r with Some i => [i] | None => [] end)
  = own_info r.
Proof.
  unfold own_info. destruct (info r) as [i |]; simpl; [| reflexivity].
  destruct (String.eqb i ""); reflexivity.
Qed.

(** X6: when the primary metric is one of the declared metrics, the
    [info] of the record is the diagnostic of the result when no declared
    metric fails; otherwise it is that diagnostic (when there is one)
    followed by the messages of the metrics that failed, in the order in
    which they are declared, joined by ["; "]. *)
Theorem compute_scores_info :
  forall cfg py w utc self result meta_result scores k,
    compute_scores cfg py w utc self result meta_result = Ok scores ->
    md_metric (get_metadata w self) = PStr k ->
    In k (match md_metrics (get_metadata w self) with Some l => l | None => [] end) ->
    ~ In "metric" (match md_metrics (get_metadata w self) with Some l => l | None => [] end) ->
    Namespace.get scores "info"
    = Some (match flat_map
                    (message py (match result with
                                 | Some r => r
                                 | None => get_result cfg w self
                                 end))
                    (match md_metrics (get_metadata w self) with Some l => l | None => [] end)
            with
            | [] => info_val (info (match result with
                                    | Some r => r
                                    | None => get_result cfg w self
                                    end))
            | errs =>
                PStr (Str.join "; "
                        (own_info (match result with
                                   | Some r => r
                                   | None => get_result cfg w self
                                   end) ++ errs)%list)
            end).
Proof.
  intros cfg py w utc self result meta_result scores k H K I N.
  apply compute_scores_inv in H as (sc1 & errs1 & res_ & errs2 & E & P & ->).
  set (r := match result with Some r => r | None => get_result cfg w self end) in *.
  set (metrics := match md_metrics (get_metadata w self) with Some l => l | None => [] end) in *.
  destruct (score_metrics_effect _ _ _ _ _ _ _ E) as [F M]. simpl in M.
  destruct (score_metrics_ok py r metrics
              (initial_scores cfg utc self (get_metadata w self)
                 (match meta_result with Some m => m | None => [] end)) [])
    as (sc1' & errs1' & E' & _ & C).
  rewrite E in E'. injection E' as <- <-.
  assert (G : Namespace.getattr sc1 "metric" = PStr k).
  { unfold Namespace.getattr. rewrite (F "metric" N), metric_initial_scores. exact K. }
  unfold primary_score in P. rewrite G in P. simpl in P. rewrite (C k I) in P.
  injection P as _ <-. subst errs1.
  unfold finish. apply get_merge_missing.
  destruct (flat_map (message py r) metrics) as [| e errs] eqn:X.
  - apply get_set_same.
  - rewrite get_set_same. f_equal. f_equal. f_equal.
    rewrite filter_app, own_info_filter. f_equal.
    rewrite <- X. apply messages_not_empty.
Qed.

Lemma compute_scores_info_logloss :
  exists scores,
    compute_scores (cfg0 ".") py0
      (world0 (Some classification0) (Some (metadata0 (PStr "acc") ["acc"; "logloss"])))
      "2020-01-01T00:00:00" self0 None None = Ok scores
    /\ Namespace.get scores "info"
       = Some (PStr "scoring logloss: y_true contains only one label").
Proof.
  assert (E : exists scores,
             compute_scores (cfg0 ".") py0
               (world0 (Some classification0)
                  (Some (metadata0 (PStr "acc") ["acc"; "logloss"])))
               "2020-01-01T00:00:00" self0 None None = Ok scores)
    by (eexists; reflexivity).
  destruct E as [scores E]. exists scores. split; [exact E |].
  rewrite (compute_scores_info _ _ _ _ _ _ _ _ "acc" E eq_refl).
  - reflexivity.
  - left. reflexivity.
  - simpl. intuition discriminate.
Defined.

(** A result that stands for missing or unreadable predictions gives NaN
    to every declared metric and to the primary one, and its diagnostic
    to [info]. *)
Lemma absent_result_record cfg py w utc self result meta_result :
  absent (match result with Some r => r | None => get_result cfg w self end) ->
  (forall k, md_metric (get_metadata w self) = PStr k ->
     In k (match md_metrics (get_metadata w self) with Some l => l | None => [] end)
     \/ ~ In k initial_fields) ->
  exists scores,
    compute_scores cfg py w utc self result meta_result = Ok scores
    /\ Namespace.get scores "info"
       = Some (info_val (info (match result with
                               | Some r => r
                               | None => get_result cfg w self
                               end)))
    /\ Namespace.get scores "result" = Some (PFloat nan)
    /\ forall m,
         In m (match md_metrics (get_metadata w self) with Some l => l | None => [] end) ->
         m <> "info" ->
         Namespace.get scores m = Some (PFloat nan).
Proof.
  intros A H. unfold compute_scores.
  set (r := match result with Some r => r | None => get_result cfg w self end) in *.
  set (md := get_metadata w self) in *.
  set (metrics := match md_metrics md with Some l => l | None => [] end) in *.
  set (meta := match meta_result with Some m => m | None => [] end).
  cbv zeta.
  rewrite (score_metrics_absent py _ metrics A). simpl.
  rewrite (primary_score_absent py _ cfg utc self md meta metrics [] A H). simpl.
  eexists. split; [reflexivity |]. unfold finish. simpl.
  split; [| split].
  - apply get_merge_missing. apply get_set_same.
  - apply get_merge_missing. rewrite get_set_other by discriminate. apply get_set_same.
  - intros m I N. apply get_merge_missing.
    rewrite get_set_other by (intros E; apply N; symmetry; exact E).
    destruct (string_dec "result" m) as [<- | R].
    + apply get_set_same.
    + rewrite get_set_other by exact R. apply get_set_nan_in, I.
Qed.

(** X7: a predictions file that exists and cannot be read is not an
    error of the scoring: the record is produced, its [result] and every
    declared metric are NaN, and its [info] is the diagnostic of the
    [ErrorResult], ["ResultError: "] followed by the text of the failure
    (cut at [error_max_length]). *)
Theorem unreadable_predictions_scores :
  forall cfg py w utc self meta_result e,
    predictions_at w (_predictions_file self) = Some (Raise e) ->
    (forall k, md_metric (get_metadata w self) = PStr k ->
       In k (match md_metrics (get_metadata w self) with Some l => l | None => [] end)
       \/ ~ In k initial_fields) ->
    exists scores,
      compute_scores cfg py w utc self None meta_result = Ok scores
      /\ Namespace.get scores "info"
         = Some (info_val (info (ErrorResult cfg (Exn "ResultError" (exn_msg e)))))
      /\ Namespace.get scores "result" = Some (PFloat nan)
      /\ forall m,
           In m (match md_metrics (get_metadata w self) with Some l => l | None => [] end) ->
           m <> "info" ->
           Namespace.get scores m = Some (PFloat nan).
Proof.
  intros cfg py w utc self meta_result e P H.
  assert (R : get_result cfg w self = ErrorResult cfg (Exn "ResultError" (exn_msg e))).
  { unfold get_result, load_predictions. rewrite P. reflexivity. }
  destruct (absent_result_record cfg py w utc self None meta_result) as (scores & E & I & X).
  - rewrite R. right. reflexivity.
  - exact H.
  - exists scores. rewrite R in I. auto.
Qed.

Lemma unreadable_predictions_scores_parser_error :
  exists scores,
    compute_scores (cfg0 ".") py0
      (world1 (Raise (Exn "ParserError" "Error tokenizing data"))
         (Some (metadata0 (PStr "acc") ["acc"; "auc"])))
      "2020-01-01T00:00:00" self0 None None = Ok scores
    /\ Namespace.get scores "info" = Some (PStr "ResultError: Error tokenizing data")
    /\ Namespace.get scores "result" = Some (PFloat nan)
    /\ Namespace.get scores "auc" = Some (PFloat nan).
Proof.
  destruct (unreadable_predictions_scores (cfg0 ".") py0
              (world1 (Raise (Exn "ParserError" "Error tokenizing data"))
                 (Some (metadata0 (PStr "acc") ["acc"; "auc"])))
              "2020-01-01T00:00:00" self0 None
              (Exn "ParserError" "Error tokenizing data") eq_refl)
    as (scores & E & I & R & M).
  - intros k K. injection K as <-. left. left. reflexivity.
  - exists scores. repeat split; try assumption.
    apply M; [right; left; reflexivity | discriminate].
Defined.

End ScoringFacts.

(** ** More on the ledger *)

Module LedgerFacts.
Import Results Frames Scoreboard Examples FramesFacts ScoreboardFacts SaveFacts.

Lemma insert_sorted_in c l x : In x (insert_sorted c l) <-> x = c \/ In x l.
Proof.
  induction l as [| d l IH]; simpl; [intuition |].
  destruct (String.leb c d); simpl; [intuition |]. rewrite IH. intuition.
Qed.

Lemma sort_in l x : In x (sort l) <-> In x l.
Proof.
  unfold sort. induction l as [| c l IH]; simpl; [tauto |].
  rewrite insert_sorted_in, IH. intuition.
Qed.

Lemma insert_sorted_increasing c l : increasing l -> increasing (insert_sorted c l).
Proof.
  unfold increasing. induction l as [| d l IH]; simpl; intros H.
  - repeat constructor.
  - destruct (String.leb c d) eqn:E.
    + constructor; [exact H | constructor; exact E].
    + inversion H as [| ? ? Hl Hd]; subst.
      constructor; [apply IH, Hl |].
      assert (D : String.leb d c = true).
      { destruct (String.leb_total c d) as [X | X]; congruence. }
      destruct l as [| e l]; simpl; [constructor; exact D |].
      destruct (String.leb c e); constructor; [exact D |].
      inversion Hd; assumption.
Qed.

Lemma sort_increasing l : increasing (sort l).
Proof.
  unfold sort. induction l as [| c l IH]; simpl.
  - constructor.
  - apply insert_sorted_increasing, IH.
Qed.

Lemma insert_sorted_NoDup c l : ~ In c l -> NoDup l -> NoDup (insert_sorted c l).
Proof.
  induction l as [| d l IH]; simpl; intros N D.
  - repeat constructor. intros [].
  - destruct (String.leb c d).
    + constructor; [simpl; tauto | exact D].
    + inversion D as [| ? ? Hd Hl]; subst. constructor.
      * rewrite insert_sorted_in. intros [-> | X]; tauto.
      * apply IH; tauto.
Qed.

Lemma sort_NoDup l : NoDup l -> NoDup (sort l).
Proof.
  unfold sort. induction l as [| c l IH]; simpl; intros D; [constructor |].
  inversion D as [| ? ? Hc Hl]; subst.
  apply insert_sorted_NoDup; [| apply IH, Hl].
  fold (sort l). rewrite sort_in. exact Hc.
Qed.

Lemma first_seen_spec l :
  forall seen,
    NoDup (first_seen seen l)
    /\ forall c, In c (first_seen seen l) <-> In c l /\ ~ In c seen.
Proof.
  induction l as [| x l IH]; intros seen; simpl.
  - split; [constructor | intuition].
  - destruct (existsb (String.eqb x) seen) eqn:E.
    + destruct (IH seen) as [D I]. split; [exact D |].
      intros c. rewrite I. apply existsb_exists in E as (y & Hy & Ey).
      apply String.eqb_eq in Ey. subst y. intuition congruence.
    + destruct (IH (x :: seen)) as [D I].
      assert (N : ~ In x seen).
      { intros X. apply not_true_iff_false in E. apply E. apply existsb_exists.
        exists x. split; [exact X | apply String.eqb_refl]. }
      split.
      * constructor; [| exact D]. rewrite I. simpl. tauto.
      * intros c. simpl. rewrite I. simpl.
        destruct (string_dec x c) as [-> | Nc]; intuition.
Qed.

Lemma length_replace_nth {A} i (x : A) l : length (replace_nth i x l) = length l.
Proof. revert i. induction l; intros [| i]; simpl; auto. Qed.

Lemma nth_error_at_end {A} (l : list A) x n :
  n = length l -> nth_error (l ++ [x]) n = Some x.
Proof. intros ->. apply nth_error_last. Qed.

(** [reindex] on a frame whose labels are distinct. *)
Lemma reindex_unique df cols :
  NoDup (columns df) ->
  exists df',
    reindex df cols = Ok df'
    /\ columns df' = cols
    /\ length (rows df') = length (rows df).
Proof.
  intros N. unfold reindex, labels_eqb.
  destruct (list_eq_dec string_dec (columns df) cols) as [E | E].
  - exists df. auto.
  - rewrite (proj2 (is_unique_NoDup _) N).
    eexists. split; [reflexivity |]. split; [reflexivity | apply length_map].
Qed.

(** One run of the body of [as_data_frame] on a scoreboard whose scores
    are the frame [df]: the canonical form of [df] is put in a place of
    its own, unless it is [df] itself or [reindex] raises; no frame that
    exists is changed. *)
Lemma as_data_frame_body_run lib self st b df :
  nth_error (boards st) self = Some b ->
  scores_frame lib st b = Some df ->
  exists st1,
    grown st st1 /\ boards st1 = boards st
    /\ match canonical df with
       | Ok df' =>
           exists l, as_data_frame_body lib self st = (Ok l, st1)
                     /\ nth_error (frames st1) l = Some df'
       | Raise e => as_data_frame_body lib self st = (Raise e, st1)
       end.
Proof.
  intros B F. unfold as_data_frame_body.
  rewrite (mbind_step _ _ _ _ _ (read_board_at _ _ _ B)).
  unfold scores_frame in F. unfold canonical, grown.
  destruct (scores b) as [l0 | rs].
  - rewrite (mbind_step (ret l0) _ st l0 st eq_refl).
    rewrite (mbind_step _ _ _ _ _ (read_frame_at _ _ _ F)).
    destruct (empty df).
    + exists st. repeat split; auto. exists l0. auto.
    + destruct (reindex df _) as [df' | e]; unfold mbind, lift, ret, throw, new_frame.
      * eexists. split; [| split]; cycle 2.
        -- eexists. split; [reflexivity | apply nth_error_last].
        -- simpl. split; [intros i d H; apply nth_error_before, H | auto].
        -- reflexivity.
      * exists st. repeat split; auto.
  - injection F as <-.
    erewrite (mbind_step (new_frame (to_data_frame lib rs))) by reflexivity.
    erewrite mbind_step by (apply read_frame_at; simpl; apply nth_error_last).
    destruct (empty (to_data_frame lib rs)).
    + eexists. split; [| split]; cycle 2.
      * eexists. split; [reflexivity | apply nth_error_last].
      * simpl. split; [intros i d H; apply nth_error_before, H | auto].
      * reflexivity.
    + destruct (reindex (to_data_frame lib rs) _) as [df' | e];
        unfold mbind, lift, ret, throw, new_frame.
      * eexists. split; [| split]; cycle 2.
        -- eexists. split; [reflexivity |]. cbn [frames].
           apply nth_error_at_end. rewrite length_app. simpl. lia.
        -- cbn [frames boards files backups].
           split; [intros i d H; apply nth_error_before, nth_error_before, H | auto].
        -- reflexivity.
      * eexists. split; [| split]; cycle 2.
        -- reflexivity.
        -- simpl. split; [intros i d H; apply nth_error_before, H | auto].
        -- reflexivity.
Qed.

(** The first call of [as_data_frame] on a scoreboard: the frame it
    returns is the canonical form of the scores; no frame that exists is
    changed. *)
Lemma as_data_frame_fresh lib self st b df df' :
  nth_error (boards st) self = Some b ->
  cached_as_data_frame b = None ->
  scores_frame lib st b = Some df ->
  canonical df = Ok df' ->
  exists l st1,
    as_data_frame lib self st = (Ok l, st1)
    /\ nth_error (frames st1) l = Some df'
    /\ grown st st1.
Proof.
  intros B C F K. unfold as_data_frame, cached.
  rewrite (mbind_step _ _ _ _ _ (read_board_at _ _ _ B)). rewrite C.
  destruct (as_data_frame_body_run lib self st b df B F) as (st1 & G & Bs & R).
  rewrite K in R. destruct R as (l & E & N).
  rewrite (mbind_step _ _ _ _ _ E).
  assert (B1 : nth_error (boards st1) self = Some b) by (rewrite Bs; exact B).
  rewrite (mbind_step _ _ _ _ _ (read_board_at _ _ _ B1)).
  unfold mbind, write_board, ret.
  eexists. eexists. split; [reflexivity |]. simpl.
  split; [exact N |].
  destruct G as (G1 & G2 & G3 & G4). unfold grown. simpl.
  rewrite length_replace_nth. auto.
Qed.

Lemma mem_in c l : mem c l = true <-> In c l.
Proof.
  unfold mem. rewrite existsb_exists. split.
  - intros (x & H & E). apply String.eqb_eq in E. subst. exact H.
  - intros H. exists c. split; [exact H | apply String.eqb_refl].
Qed.

(** X8: on a table that is not empty and whose labels are distinct,
    [as_data_frame] returns a frame whose columns are the eighteen fixed
    columns, in their order, followed by the other columns of the scores,
    each once and in increasing order; it has as many rows as the
    scores. *)
Theorem as_data_frame_columns :
  forall lib self st b df,
    nth_error (boards st) self = Some b ->
    cached_as_data_frame b = None ->
    scores_frame lib st b = Some df ->
    empty df = false ->
    NoDup (columns df) ->
    exists l st1 df' extra,
      as_data_frame lib self st = (Ok l, st1)
      /\ nth_error (frames st1) l = Some df'
      /\ columns df' = (fixed_cols ++ extra)%list
      /\ increasing extra
      /\ NoDup extra
      /\ (forall c, In c extra <-> In c (columns df) /\ ~ In c fixed_cols)
      /\ length (rows df') = length (rows df).
Proof.
  intros lib self st b df B C F E N.
  set (extra := sort (filter (fun c => negb (mem c fixed_cols)) (columns df))).
  destruct (reindex_unique df (fixed_cols ++ extra)%list N) as (df' & R & Cs & L).
  assert (K : canonical df = Ok df') by (unfold canonical; rewrite E; exact R).
  destruct (as_data_frame_fresh lib self st b df df' B C F K) as (l & st1 & H & Nl & _).
  exists l, st1, df', extra. split; [exact H |]. split; [exact Nl |].
  split; [exact Cs |]. split; [apply sort_increasing |].
  split; [apply sort_NoDup, NoDup_filter, N |]. split; [| exact L].
  intros c. unfold extra. rewrite sort_in, filter_In, negb_true_iff.
  rewrite <- not_true_iff_false, mem_in. tauto.
Qed.

Lemma as_data_frame_columns_of_a_record :
  exists l st1 df' extra,
    as_data_frame lib0 0 (store0 [record0]) = (Ok l, st1)
    /\ nth_error (frames st1) l = Some df'
    /\ columns df' = (fixed_cols ++ extra)%list
    /\ extra = ["acc"].
Proof.
  destruct (as_data_frame_columns lib0 0 (store0 [record0]) (board0 [record0])
              (records_frame [record0]) eq_refl eq_refl eq_refl eq_refl)
    as (l & st1 & df' & extra & H & N & Cs & _).
  - repeat (constructor; [simpl; intuition discriminate |]). constructor.
  - exists l, st1, df', extra. repeat split; try assumption.
    assert (X : as_data_frame lib0 0 (store0 [record0])
                = (Ok 1, snd (as_data_frame lib0 0 (store0 [record0])))) by reflexivity.
    rewrite X in H. injection H as <- <-.
    simpl in N. injection N as <-. simpl in Cs.
    unfold fixed_cols in Cs. simpl in Cs.
    repeat (injection Cs as Cs). symmetry. exact Cs.
Defined.

(** X10: a scoreboard whose scores are empty and have no column [id]
    (no record at all, or the frame of a ledger file that does not exist)
    cannot be saved: [save] raises [KeyError: 'id'] and writes nothing. *)
Theorem save_of_empty_scores_raises :
  forall cfg lib py self st b df append,
    nth_error (boards st) self = Some b ->
    cached_as_data_frame b = None ->
    cached_as_printable_data_frame b = None ->
    scores_frame lib st b = Some df ->
    empty df = true ->
    ~ In "id" (columns df) ->
    exists st',
      save cfg lib py self append st = (Raise (Exn "KeyError" "id"), st')
      /\ files st' = files st /\ backups st' = backups st.
Proof.
  intros cfg lib py self st b df append B C Cp F E N.
  assert (K : canonical df = Ok df) by (unfold canonical; rewrite E; reflexivity).
  destruct (as_data_frame_fresh lib self st b df df B C F K) as (l & st1 & H & Nl & G).
  destruct G as (_ & Gf & Gb & _).
  unfold save, as_printable_data_frame, cached.
  unfold mbind at 1. unfold mbind at 1.
  rewrite (read_board_at _ _ _ B). rewrite Cp.
  unfold as_printable_data_frame_body.
  unfold mbind at 1. unfold mbind at 1. rewrite H.
  unfold mbind at 1. rewrite (read_frame_at _ _ _ Nl).
  unfold mbind at 1. unfold for_each at 1. simpl.
  unfold mbind at 1. unfold update_column at 1. unfold mbind at 1.
  rewrite (read_frame_at _ _ _ Nl).
  assert (X : column df "id" = None).
  { unfold column. destruct (index_of "id" (columns df)) eqn:I; [| reflexivity].
    exfalso. apply N. clear - I. revert n I.
    induction (columns df) as [| c cs IH]; simpl; intros n I; [discriminate |].
    destruct (String.eqb_spec c "id"); [auto |].
    destruct (index_of "id" cs); [right; eapply IH; reflexivity | discriminate]. }
  rewrite X. unfold throw.
  eexists. split; [reflexivity |]. auto.
Qed.

Lemma save_of_empty_scores_raises_no_record :
  exists st',
    save (cfg0 ".") lib0 py0 0 false (store0 []) = (Raise (Exn "KeyError" "id"), st')
    /\ files st' = [] /\ backups st' = [].
Proof.
  apply (save_of_empty_scores_raises (cfg0 ".") lib0 py0 0 (store0 []) (board0 [])
           (records_frame []) false); try reflexivity.
  simpl. tauto.
Defined.

#[local] Arguments labels_eqb : simpl never.

Lemma lookup_other {A} (k k' : string) (v : A) (l : list (string * A)) :
  k <> k' -> lookup ((k, v) :: l) k' = lookup l k'.
Proof.
  intros N. unfold lookup. simpl.
  destruct (String.eqb_spec k k'); [contradiction | reflexivity].
Qed.

(** X11: a save changes the file at its path and the list of backups and
    nothing else: every other file is as it was, and so are the frames and
    the scoreboards, also when the save raises. *)
Theorem save_df_touches_one_file :
  forall lib py df path append st r st',
    save_df lib py df path append st = (r, st') ->
    (forall other, other <> path -> lookup (files st') other = lookup (files st) other)
    /\ frames st' = frames st
    /\ boards st' = boards st.
Proof.
  intros lib py df path append st r st' H.
  unfold save_df, write_csv, backup_file, read_header, mbind, read_file, write_file,
    lift, ret, throw in H.
  destruct (lookup (files st) path) as [f |] eqn:F;
    repeat (rewrite ?F in H; simpl in H).
  - destruct (read_columns lib f) as [h | e]; simpl in H.
    + destruct (negb (labels_eqb h (columns df)) || negb append) eqn:X;
        repeat (rewrite ?F in H; simpl in H); injection H as <- <-; simpl;
        (split; [intros other N; apply lookup_other; congruence | auto]).
    + injection H as <- <-. auto.
  - injection H as <- <-. simpl.
    split; [intros other N; apply lookup_other; congruence | auto].
Qed.

(** X12: two saves of tables with the same columns to a path that held no
    file, the second in append mode, leave one file: the header once, the
    rows of the first table and then the rows of the second; no backup is
    made. This is so when [read_csv] reads in the file of the first save
    the labels that were written, which asks for labels that are distinct
    and not empty. *)
Theorem save_then_append :
  forall lib py df1 df2 path st,
    lookup (files st) path = None ->
    columns df2 = columns df1 ->
    read_columns lib (fresh py df1) = Ok (columns df1) ->
    exists st1 st2,
      save_df lib py df1 path false st = (Ok tt, st1)
      /\ save_df lib py df2 path true st1 = (Ok tt, st2)
      /\ lookup (files st2) path
         = Some (columns df1 :: lines py df1 ++ lines py df2)%list
      /\ backups st2 = backups st.
Proof.
  intros lib py df1 df2 path st F C R.
  eexists. eexists. split.
  - save_df_run F. reflexivity.
  - unfold fresh, lines in R. split.
    + unfold save_df, write_csv, backup_file, read_header, mbind, read_file, write_file,
        lift, ret, throw.
      repeat (rewrite ?lookup_head, ?R, ?C, ?labels_eqb_true; simpl). reflexivity.
    + simpl. split; [apply lookup_head | reflexivity].
Qed.

Lemma save_then_append_on_a_ledger :
  exists st1 st2,
    save_df lib0 py0 frame0 "/out/scores/fw.csv" false (store0 []) = (Ok tt, st1)
    /\ save_df lib0 py0 frame0 "/out/scores/fw.csv" true st1 = (Ok tt, st2)
    /\ lookup (files st2) "/out/scores/fw.csv"
       = Some [["id"; "acc"]; ["t"; "1.0"]; ["t"; "1.0"]]
    /\ backups st2 = [].
Proof.
  apply (save_then_append lib0 py0 frame0 frame0 "/out/scores/fw.csv" (store0 []));
    reflexivity.
Defined.

Lemma save_df_touches_one_file_beside :
  lookup (files (snd (save_df lib0 py0 frame0 "/out/scores/other.csv" false
                        (store_with_file [["id"; "auc"]; ["t"; "0.5"]]))))
         "/out/scores/fw.csv"
  = Some [["id"; "auc"]; ["t"; "0.5"]].
Proof.
  rewrite (proj1 (save_df_touches_one_file lib0 py0 frame0 "/out/scores/other.csv" false
                    (store_with_file [["id"; "auc"]; ["t"; "0.5"]]) _ _
                    (surjective_pairing _)) "/out/scores/fw.csv").
  - reflexivity.
  - discriminate.
Defined.

Lemma grown_refl st : grown st st.
Proof. unfold grown. auto. Qed.

Lemma grown_trans a b c : grown a b -> grown b c -> grown a c.
Proof.
  unfold grown. intros (F1 & X1 & Y1 & Z1) (F2 & X2 & Y2 & Z2).
  repeat split; try congruence. auto.
Qed.

(** [as_data_frame] changes no frame that exists and no file. *)
Lemma as_data_frame_grown lib self st l st1 :
  as_data_frame lib self st = (Ok l, st1) -> grown st st1.
Proof.
  intros H. pose proof H as H0. unfold as_data_frame, cached in H.
  apply mbind_ok in H as (b & s0 & Hb & H).
  apply read_board_ok in Hb as [B ->].
  destruct (cached_as_data_frame b) eqn:C.
  - injection H as _ <-. apply grown_refl.
  - apply mbind_ok in H as (l0 & s1 & Hbody & _).
    destruct (scores_frame lib st b) as [df |] eqn:F.
    + destruct (as_data_frame_body_run lib self st b df B F) as (s1' & _ & _ & R).
      destruct (canonical df) as [df' | e] eqn:K.
      * destruct (as_data_frame_fresh lib self st b df df' B C F K)
          as (l' & st' & E & _ & G).
        rewrite E in H0. injection H0 as _ <-. exact G.
      * rewrite R in Hbody. discriminate.
    + exfalso. unfold as_data_frame_body in Hbody.
      rewrite (mbind_step _ _ _ _ _ (read_board_at _ _ _ B)) in Hbody.
      unfold scores_frame in F. destruct (scores b) as [l1 | rs]; [| discriminate].
      rewrite (mbind_step (ret l1) _ st l1 st eq_refl) in Hbody.
      apply mbind_ok in Hbody as (df & s2 & Hdf & _).
      apply read_frame_ok in Hdf as [Hdf _]. congruence.
Qed.

(** What a successful [append] went through: the rows that the new
    scoreboard holds are those of the merged frame, and the store has only
    grown. *)
Lemma append_inv lib self other no_duplicates st b' st' :
  append lib self other no_duplicates st = (Ok b', st') ->
  exists a o merged,
    Frames.append a o = Ok merged
    /\ fst (held_rows lib b' st')
       = Ok (rows (if no_duplicates then drop_duplicates lib merged else merged))
    /\ (forall i d, nth_error (frames st) i = Some d -> nth_error (frames st') i = Some d)
    /\ files st' = files st /\ backups st' = backups st.
Proof.
  unfold append. intros H.
  apply mbind_ok in H as (lo & s0 & Ho & H).
  assert (G0 : grown st s0).
  { destruct other as [b | l].
    - apply (as_data_frame_grown _ _ _ _ _ Ho).
    - injection Ho as _ <-. apply grown_refl. }
  apply mbind_ok in H as (lm & s1 & Hm & H).
  pose proof (grown_trans _ _ _ G0 (as_data_frame_grown _ _ _ _ _ Hm)) as G1.
  apply mbind_ok in H as (a & s2 & Ha & H). apply read_frame_ok in Ha as [Ha ->].
  apply mbind_ok in H as (o & s3 & Hoo & H). apply read_frame_ok in Hoo as [Hoo ->].
  apply mbind_ok in H as (merged & s4 & Hl & H).
  destruct (Frames.append a o) as [m |] eqn:M; [| discriminate].
  injection Hl as <- <-.
  apply mbind_ok in H as (sc & s5 & Hn & H).
  unfold new_frame in Hn. injection Hn as <- <-.
  exists a, o, m. split; [exact M |].
  destruct G1 as (F1 & X1 & Y1 & Z1).
  destruct no_duplicates.
  - apply mbind_ok in H as (sc2 & s6 & Hd & H).
    apply mbind_ok in Hd as (f & s7 & Hf & Hd).
    apply read_frame_ok in Hf as [Hf ->]. simpl in Hf. rewrite nth_error_last in Hf.
    injection Hf as <-.
    unfold new_frame in Hd. injection Hd as <- <-.
    apply mbind_ok in H as (bd & s8 & Hb & H). apply read_board_ok in Hb as [Hb ->].
    unfold new_board in H. injection H as <- <-. simpl in *.
    split; [| split; [| auto]].
    + unfold held_rows, mbind, read_board, read_frame. simpl.
      rewrite nth_error_last. simpl.
      rewrite (nth_error_at_end _ _ _) by (rewrite length_app; simpl; lia).
      reflexivity.
    + intros i d Hi. apply nth_error_before, nth_error_before, F1, Hi.
  - apply mbind_ok in H as (sc2 & s6 & Hd & H). injection Hd as <- <-.
    apply mbind_ok in H as (bd & s8 & Hb & H). apply read_board_ok in Hb as [Hb ->].
    unfold new_board in H. injection H as <- <-. simpl in *.
    split; [| split; [| auto]].
    + unfold held_rows, mbind, read_board, read_frame. simpl.
      rewrite nth_error_last. simpl. rewrite nth_error_last. reflexivity.
    + intros i d Hi. apply nth_error_before, F1, Hi.
Qed.

(** X13: in the scoreboard that [append] returns with
    [no_duplicates=True] no row duplicates an earlier row, whatever the
    two operands hold; so it never holds the same row twice, a cell being
    equal to itself. *)
Theorem append_has_no_duplicates :
  forall lib self other st b' st',
    append lib self other true st = (Ok b', st') ->
    exists rs,
      fst (held_rows lib b' st') = Ok rs
      /\ distinct_rows lib rs
      /\ ((forall v, same_cell lib v v = true) -> NoDup rs).
Proof.
  intros lib self other st b' st' H.
  apply append_inv in H as (a & o & m & _ & R & _).
  eexists. split; [exact R |]. simpl.
  pose proof (proj1 (keep_first_distinct lib (rows m) [])) as D.
  split; [exact D |]. intros X. apply (distinct_rows_NoDup lib _ X D).
Qed.

Lemma append_has_no_duplicates_twice :
  exists rs,
    fst (held_rows lib0 1 (snd (append lib0 0 (Board 0) true (store0 [record0; record0]))))
    = Ok rs
    /\ distinct_rows lib0 rs
    /\ NoDup rs.
Proof.
  destruct (append_has_no_duplicates lib0 0 (Board 0) (store0 [record0; record0]) 1
              (snd (append lib0 0 (Board 0) true (store0 [record0; record0]))) eq_refl)
    as (rs & R & D & N).
  exists rs. split; [exact R |]. split; [exact D |]. apply N, same_value_refl.
Defined.

(** X14: [append] changes no frame that exists before the call and no
    file: the tables of the two operands are as they were, and the merged
    rows are in a frame of their own. *)
Theorem append_changes_no_table :
  forall lib self other no_duplicates st b' st',
    append lib self other no_duplicates st = (Ok b', st') ->
    (forall i d, nth_error (frames st) i = Some d -> nth_error (frames st') i = Some d)
    /\ files st' = files st
    /\ backups st' = backups st.
Proof.
  intros lib self other no_duplicates st b' st' H.
  apply append_inv in H as (a & o & m & _ & _ & F). exact F.
Qed.

Lemma append_changes_no_table_of_a_record :
  nth_error
    (frames (snd (append lib0 0 (Board 0) true
                    (snd (as_data_frame lib0 0 (store0 [record0]))))))
    0
  = Some (records_frame [record0]).
Proof.
  apply (proj1 (append_changes_no_table lib0 0 (Board 0) true
                  (snd (as_data_frame lib0 0 (store0 [record0]))) 1
                  (snd (append lib0 0 (Board 0) true
                          (snd (as_data_frame lib0 0 (store0 [record0])))))
                  eq_refl)).
  reflexivity.
Defined.

End LedgerFacts.

(** ** Predictions files *)

Module PredictionsFacts.
Import Results Frames Scoreboard Predictions Examples FramesFacts LedgerFacts.

Lemma assert_ok b msg : assert_ b msg = Ok tt -> b = true.
Proof. unfold assert_. destruct b; [reflexivity | discriminate]. Qed.

Lemma res_bind_ok {A B} (m : res A) (k : A -> res B) b :
  Py.bind m k = Ok b -> exists a, m = Ok a /\ k a = Ok b.
Proof. destruct m as [a | e]; simpl; [eauto | discriminate]. Qed.

Lemma distinct_covers l :
  forall seen v, In v l -> In v (distinct seen l) \/ In v seen.
Proof.
  induction l as [| x l IH]; intros seen v H; [destruct H |].
  simpl. destruct (in_dec pyval_eq_dec x seen) as [I | I].
  - destruct H as [<- | H]; [auto | apply IH, H].
  - destruct H as [<- | H]; [left; left; reflexivity |].
    destruct (IH (x :: seen) v H) as [J | [<- | J]]; simpl; auto.
Qed.

Lemma all_rows_true py predictors rs :
  all_rows py predictors rs = Ok true ->
  forall r, In r rs -> validate_row py predictors r = Ok true.
Proof.
  induction rs as [| x rs IH]; simpl; intros H r I; [destruct I |].
  apply res_bind_ok in H as (b & Hb & H).
  apply res_bind_ok in H as (bs & Hbs & H).
  injection H as H. apply andb_true_iff in H as [-> ->].
  destruct I as [<- | I]; [exact Hb | apply IH; assumption].
Qed.

Lemma float_lt_num m1 e1 m2 e2 e0 :
  (e0 <= e1)%Z -> (e0 <= e2)%Z ->
  float_lt (FNum m1 e1) (FNum m2 e2)
  = (m1 * 2 ^ (e1 - e0) <? m2 * 2 ^ (e2 - e0))%Z.
Proof.
  intros H1 H2. simpl.
  set (e := Z.min e1 e2).
  assert (K : (0 <= e - e0)%Z) by (unfold e; lia).
  replace (e1 - e0)%Z with ((e1 - e) + (e - e0))%Z by lia.
  replace (e2 - e0)%Z with ((e2 - e) + (e - e0))%Z by lia.
  rewrite !Z.pow_add_r by (unfold e; lia).
  assert (P : (0 < 2 ^ (e - e0))%Z) by (apply Z.pow_pos_nonneg; lia).
  set (p := (2 ^ (e - e0))%Z) in *.
  set (x := (m1 * 2 ^ (e1 - e))%Z). set (y := (m2 * 2 ^ (e2 - e))%Z).
  rewrite !Z.mul_assoc. fold x y.
  destruct (Z.ltb_spec x y), (Z.ltb_spec (x * p) (y * p)); try reflexivity; exfalso; nia.
Qed.

Lemma float_lt_trans a b c :
  float_lt a b = true -> float_lt b c = true -> float_lt a c = true.
Proof.
  destruct a as [| [] | m1 e1], b as [| [] | m2 e2], c as [| [] | m3 e3];
    try (simpl; congruence).
  set (e0 := Z.min e1 (Z.min e2 e3)).
  rewrite (float_lt_num m1 e1 m2 e2 e0), (float_lt_num m2 e2 m3 e3 e0),
    (float_lt_num m1 e1 m3 e3 e0) by (unfold e0; lia).
  rewrite !Z.ltb_lt. lia.
Qed.

Lemma float_lt_irrefl a : float_lt a a = false.
Proof.
  destruct a as [| [] | m e]; try reflexivity.
  simpl. apply Z.ltb_irrefl.
Qed.

(** Of two floats of which the first is less than the second, any number
    is above the first or below the second. *)
Lemma float_lt_between a b w :
  float_lt a b = true -> w <> FNaN ->
  float_lt a w = true \/ float_lt w b = true.
Proof.
  intros H N.
  destruct a as [| [] | m1 e1], b as [| [] | m2 e2], w as [| [] | m3 e3];
    try (simpl in *; congruence); try (simpl; auto; fail).
  set (e0 := Z.min e1 (Z.min e2 e3)).
  rewrite (float_lt_num m1 e1 m2 e2 e0) in H by (unfold e0; lia).
  rewrite (float_lt_num m1 e1 m3 e3 e0), (float_lt_num m3 e3 m2 e2 e0) by (unfold e0; lia).
  rewrite !Z.ltb_lt in *. lia.
Qed.

Lemma float_lt_nan_r a : float_lt a FNaN = false.
Proof. destruct a as [| [] |]; reflexivity. Qed.

Lemma nth_error_snoc {A} (l : list A) x j w :
  nth_error (l ++ [x]) j = Some w ->
  (j < length l /\ nth_error l j = Some w) \/ (j = length l /\ w = x).
Proof.
  intros H. destruct (Nat.lt_ge_cases j (length l)) as [L | L].
  - left. split; [exact L |]. rewrite nth_error_app1 in H; assumption.
  - right. rewrite nth_error_app2 in H by exact L.
    destruct (j - length l) as [| k] eqn:E; simpl in H.
    + injection H as <-. split; [lia | reflexivity].
    + destruct k; discriminate.
Qed.

(** One step of [idxmax]: what holds of the best value so far for the
    labels and values that were read holds again after one more pair. *)
Lemma idxmax_step pl pv l0 v0 best :
  length pl = length pv ->
  match best with
  | None => Forall (fun w => w = FNaN) pv
  | Some (lb, b) => first_greatest pl pv lb b
  end ->
  match (match v0, best with
         | FNaN, _ => best
         | _, None => Some (l0, v0)
         | _, Some (_, b) => if float_lt b v0 then Some (l0, v0) else best
         end) with
  | None => Forall (fun w => w = FNaN) (pv ++ [v0])
  | Some (lb, b) => first_greatest (pl ++ [l0])%list (pv ++ [v0]) lb b
  end.
Proof.
  intros L I.
  assert (Keep : forall lb b,
             first_greatest pl pv lb b -> float_lt b v0 = false ->
             first_greatest (pl ++ [l0])%list (pv ++ [v0]) lb b).
  { intros lb b (i & Hl & Hv & N & G & F) X.
    assert (Li : i < length pv) by (apply nth_error_Some; congruence).
    exists i. split; [rewrite nth_error_app1 by lia; exact Hl |].
    split; [rewrite nth_error_app1 by lia; exact Hv |]. split; [exact N |]. split.
    - intros j w _ H. apply nth_error_snoc in H as [[Lj H] | [_ ->]]; [| exact X].
      apply (G j w); [lia | exact H].
    - intros j w Lj H. apply nth_error_snoc in H as [[_ H] | [E _]]; [| lia].
      apply (F j w Lj H). }
  assert (New : v0 <> FNaN ->
                (forall j w, nth_error pv j = Some w -> float_lt v0 w = false) ->
                (forall j w, nth_error pv j = Some w -> w = FNaN \/ float_lt w v0 = true) ->
                first_greatest (pl ++ [l0])%list (pv ++ [v0]) l0 v0).
  { intros N G F. exists (length pv).
    split; [rewrite <- L; apply ScoreboardFacts.nth_error_last |].
    split; [apply ScoreboardFacts.nth_error_last |]. split; [exact N |]. split.
    - intros j w _ H. apply nth_error_snoc in H as [[_ H] | [_ ->]];
        [apply (G j w H) | apply float_lt_irrefl].
    - intros j w Lj H. apply nth_error_snoc in H as [[_ H] | [E _]]; [| lia].
      apply (F j w H). }
  assert (Nan : forall w, In w pv -> w = FNaN -> True) by auto.
  destruct best as [[lb b] |].
  - destruct (float_lt b v0) eqn:X.
    + assert (N0 : v0 <> FNaN) by (intros ->; rewrite float_lt_nan_r in X; discriminate).
      assert (R : first_greatest (pl ++ [l0])%list (pv ++ [v0]) l0 v0).
      { destruct I as (i & Hl & Hv & N & G & F). apply New; [exact N0 | |].
        - intros j w H.
          assert (Lj : j < length pl) by (rewrite L; apply nth_error_Some; congruence).
          destruct (float_lt v0 w) eqn:Y; [| reflexivity].
          pose proof (G j w Lj H) as Gw.
          rewrite (float_lt_trans _ _ _ X Y) in Gw. discriminate.
        - intros j w H.
          assert (Lj : j < length pl) by (rewrite L; apply nth_error_Some; congruence).
          destruct w as [| s | m e]; [left; reflexivity | right | right].
          + destruct (float_lt_between b v0 (FInf s) X ltac:(discriminate)) as [Y | Y];
              [rewrite (G j _ Lj H) in Y; discriminate | exact Y].
          + destruct (float_lt_between b v0 (FNum m e) X ltac:(discriminate)) as [Y | Y];
              [rewrite (G j _ Lj H) in Y; discriminate | exact Y]. }
      destruct v0; [contradiction | exact R | exact R].
    + pose proof (Keep lb b I X) as R. destruct v0; exact R.
  - destruct v0 as [| s | m e].
    + apply Forall_app. split; [exact I | repeat constructor].
    + apply New; [discriminate | |]; intros j w H;
        rewrite Forall_forall in I; rewrite (I w (nth_error_In _ _ H));
        [apply float_lt_nan_r | left; reflexivity].
    + apply New; [discriminate | |]; intros j w H;
        rewrite Forall_forall in I; rewrite (I w (nth_error_In _ _ H));
        [apply float_lt_nan_r | left; reflexivity].
Qed.

(** What [idxmax] returns is the label of the first greatest value. *)
Lemma idxmax_acc labels :
  forall vals pl pv best l,
    length pl = length pv ->
    match best with
    | None => Forall (fun w => w = FNaN) pv
    | Some (lb, b) => first_greatest pl pv lb b
    end ->
    idxmax labels vals best = Some l ->
    exists v, first_greatest (pl ++ labels)%list (pv ++ vals)%list l v.
Proof.
  assert (Stop : forall (ls : list string) (vals : list pyfloat) pl pv best l,
             ls = [] \/ vals = [] ->
             length pl = length pv ->
             match best with
             | None => Forall (fun w => w = FNaN) pv
             | Some (lb, b) => first_greatest pl pv lb b
             end ->
             match best with Some (lb, _) => Some lb | None => None end = Some l ->
             exists v, first_greatest (pl ++ ls)%list (pv ++ vals)%list l v).
  { intros ls vals pl pv best l E L I H.
    destruct best as [[lb b] |]; [| discriminate]. injection H as ->.
    destruct I as (i & Hl & Hv & N & G & F).
    assert (Li : i < length pv) by (apply nth_error_Some; congruence).
    exists b, i. split; [rewrite nth_error_app1 by lia; exact Hl |].
    split; [rewrite nth_error_app1 by lia; exact Hv |]. split; [exact N |]. split.
    - intros j w Lj H. destruct E as [-> | ->].
      + rewrite app_nil_r in Lj. rewrite nth_error_app1 in H by lia. apply (G j w Lj H).
      + rewrite app_nil_r in H.
        apply (G j w); [rewrite L; apply nth_error_Some; congruence | exact H].
    - intros j w Lj H. rewrite nth_error_app1 in H by lia. apply (F j w Lj H). }
  induction labels as [| l0 labels IH]; intros vals pl pv best l L I H.
  - apply (Stop [] vals pl pv best l); auto.
  - destruct vals as [| v0 vals].
    + apply (Stop (l0 :: labels) [] pl pv best l); auto.
    + simpl in H.
      pose proof (idxmax_step pl pv l0 v0 best L I) as I'.
      apply (IH vals (pl ++ [l0])%list (pv ++ [v0])%list) in H.
      * rewrite <- !app_assoc in H. exact H.
      * rewrite !length_app, L. reflexivity.
      * exact I'.
Qed.

Lemma idxmax_first_greatest labels vals l :
  idxmax labels vals None = Some l -> exists v, first_greatest labels vals l v.
Proof. intros H. apply (idxmax_acc labels vals [] [] None l eq_refl (Forall_nil _) H). Qed.

(** X15: a frame that [validate_predictions] accepts has at least two
    columns, the last two named [predictions] and [truth]; when it has
    more, the labels of the probability columns are in increasing order,
    and in every row the prediction is one of these labels, the one that
    [idxmax] finds: the label of the first greatest probability, that is,
    of a probability that is not NaN, with no greater probability in the
    row and only NaN or lesser probabilities before it. *)
Theorem validate_predictions_accepts :
  forall py pd df,
    validate_predictions py pd df = Ok tt ->
    2 <= length (columns df)
    /\ from_end 1 (columns df) = "truth"
    /\ from_end 2 (columns df) = "predictions"
    /\ (length (columns df) <> 2 ->
        increasing (firstn (length (columns df) - 2) (columns df))
        /\ forall r, In r (rows df) ->
             exists l probs p,
               nth (length (columns df) - 2) r (PFloat nan) = PStr l
               /\ In l (firstn (length (columns df) - 2) (columns df))
               /\ map_res (as_float py) (firstn (length (columns df) - 2) r) = Ok probs
               /\ idxmax (firstn (length (columns df) - 2) (columns df)) probs None = Some l
               /\ first_greatest (firstn (length (columns df) - 2) (columns df)) probs l p).
Proof.
  intros py pd df H. unfold validate_predictions in H.
  set (names := columns df) in *.
  apply res_bind_ok in H as ([] & A1 & H). apply assert_ok, Nat.leb_le in A1.
  apply res_bind_ok in H as ([] & A2 & H). apply assert_ok, String.eqb_eq in A2.
  apply res_bind_ok in H as ([] & A3 & H). apply assert_ok, String.eqb_eq in A3.
  repeat (split; [assumption |]). intros N.
  destruct (Nat.eqb_spec (length names) 2) as [E | _]; [contradiction |].
  set (n := length names - 2) in *.
  set (predictors := firstn n names) in *.
  apply res_bind_ok in H as ([] & A4 & H). apply assert_ok in A4.
  destruct (list_eq_dec string_dec predictors (sort predictors)) as [S | S];
    [| discriminate].
  apply res_bind_ok in H as ([] & _ & H).
  apply res_bind_ok in H as ([] & _ & H).
  apply res_bind_ok in H as ([] & A5 & H). apply assert_ok in A5.
  apply res_bind_ok in H as (ok & R & H). apply assert_ok in H. subst ok.
  split; [rewrite S; apply sort_increasing |].
  intros r I.
  pose proof (all_rows_true _ _ _ R r I) as V. unfold validate_row in V.
  assert (Ln : length predictors = n).
  { unfold predictors. apply firstn_length_le. unfold n. lia. }
  rewrite Ln in V.
  apply res_bind_ok in V as (probs & P & V). injection V as V.
  destruct (idxmax predictors probs None) as [l |] eqn:X; [| discriminate].
  destruct (nth n r (PFloat nan)) as [| | | | p |] eqn:Y; try discriminate.
  apply String.eqb_eq in V. subst p.
  destruct (idxmax_first_greatest _ _ _ X) as [p G].
  exists l, probs, p. repeat split; auto.
  assert (J : In (PStr l) (column_at df n)).
  { unfold column_at. rewrite <- Y.
    exact (in_map (fun row => nth n row (PFloat nan)) (rows df) r I). }
  destruct (distinct_covers _ [] _ J) as [D | []].
  rewrite forallb_forall in A5. specialize (A5 _ D). simpl in A5.
  apply mem_in. exact A5.
Qed.

Lemma validate_predictions_accepts_ab :
  validate_predictions py0 pd0 predictions_ab = Ok tt
  /\ increasing ["a"; "b"]
  /\ validate_predictions py0 pd0 predictions_tie = Ok tt
  /\ exists l probs p,
       PStr "a" = PStr l
       /\ In l ["a"; "b"]
       /\ map_res (as_float py0) [PStr "1"; PStr "1"] = Ok probs
       /\ idxmax ["a"; "b"] probs None = Some l
       /\ first_greatest ["a"; "b"] probs l p.
Proof.
  split; [reflexivity |]. split.
  - apply (proj1 (proj2 (proj2 (proj2
             (validate_predictions_accepts py0 pd0 predictions_ab eq_refl)))
             ltac:(discriminate))).
  - split; [reflexivity |].
    apply (proj2 (proj2 (proj2 (proj2
             (validate_predictions_accepts py0 pd0 predictions_tie eq_refl)))
             ltac:(discriminate))
             [PStr "1"; PStr "1"; PStr "a"; PStr "b"]).
    left. reflexivity.
Defined.

Lemma unique_same_set l : same_set (unique l) l = true.
Proof.
  unfold same_set, unique. apply andb_true_iff. split; apply forallb_forall; intros x H;
    apply mem_in.
  - apply (proj1 (sort_in _ _)) in H.
    apply (proj1 (proj2 (first_seen_spec l []) x)) in H. tauto.
  - apply (proj2 (sort_in _ _)).
    apply (proj2 (proj2 (first_seen_spec l []) x)). tauto.
Qed.

(** X16: the check of [validate_predictions] against several columns with
    the same label compares the set of the labels with the set of the
    distinct labels, which are always the same set: it never fails, and a
    frame with two probability columns of the same label is accepted. *)
Theorem duplicate_labels_are_accepted :
  (forall predictors, same_set (unique predictors) predictors = true)
  /\ validate_predictions py0 pd0 predictions_twice_a = Ok tt.
Proof. split; [apply unique_same_set | reflexivity]. Qed.

Lemma index_of_some c cols i : index_of c cols = Some i -> nth_error cols i = Some c.
Proof.
  revert i. induction cols as [| x cols IH]; simpl; intros i H; [discriminate |].
  destruct (String.eqb_spec x c) as [-> | N].
  - injection H as <-. reflexivity.
  - destruct (index_of c cols) as [j |]; [| discriminate].
    injection H as <-. simpl. apply IH. reflexivity.
Qed.

Lemma index_of_NoDup cols :
  NoDup cols -> forall i c, nth_error cols i = Some c -> index_of c cols = Some i.
Proof.
  induction cols as [| x cols IH]; intros D i c H; [destruct i; discriminate |].
  inversion D as [| ? ? Hx Hd]; subst. simpl. destruct i as [| i]; simpl in H.
  - injection H as ->. rewrite String.eqb_refl. reflexivity.
  - destruct (String.eqb_spec x c) as [-> | N].
    + exfalso. apply Hx. apply (nth_error_In _ _ H).
    + rewrite (IH Hd i c H). reflexivity.
Qed.

(** A pair of the map was written for a label of [sorted_cols]: its key is
    the place of the label in [prob_cols], and its value the place of the
    label in [sorted_cols], counted from [first]. *)
Lemma encoding_map_sound prob_cols sorted_cols :
  forall first k j,
    map_get (encoding_map prob_cols sorted_cols first) k = Some j ->
    exists c,
      first <= j /\ nth_error sorted_cols (j - first) = Some c
      /\ index_of c prob_cols = Some k.
Proof.
  induction sorted_cols as [| col rest IH]; simpl; intros first k j H; [discriminate |].
  assert (Tail : forall j', map_get (encoding_map prob_cols rest (S first)) k = Some j' ->
                 exists c, first <= j' /\ nth_error (col :: rest) (j' - first) = Some c
                           /\ index_of c prob_cols = Some k).
  { intros j' T. destruct (IH _ _ _ T) as (c & L & Nth & Ix).
    exists c. split; [lia |]. split; [| exact Ix].
    replace (j' - first) with (S (j' - S first)) by lia. exact Nth. }
  destruct (index_of col prob_cols) as [i |] eqn:E; [| apply Tail, H].
  simpl in H.
  destruct (map_get (encoding_map prob_cols rest (S first)) k) as [j' |] eqn:T.
  - injection H as <-. apply Tail. reflexivity.
  - destruct (Nat.eqb_spec i k) as [-> | N]; [| discriminate].
    injection H as <-. exists col. split; [lia |]. rewrite Nat.sub_diag. auto.
Qed.

Lemma encoding_map_complete prob_cols sorted_cols :
  forall first c k,
    In c sorted_cols -> index_of c prob_cols = Some k ->
    exists j, map_get (encoding_map prob_cols sorted_cols first) k = Some j.
Proof.
  induction sorted_cols as [| col rest IH]; simpl; intros first c k I E; [destruct I |].
  destruct (index_of col prob_cols) as [i |] eqn:X.
  - simpl. destruct (map_get (encoding_map prob_cols rest (S first)) k) eqn:T; [eauto |].
    destruct I as [-> | I].
    + rewrite E in X. injection X as <-. rewrite Nat.eqb_refl. eauto.
    + destruct (IH (S first) c k I E) as [j J]. congruence.
  - destruct I as [-> | I]; [congruence |]. apply (IH _ c k I E).
Qed.

(** X17: when the labels of the probabilities are distinct and are given
    in an order that is not the sorted one, the map that re-encodes the
    predictions and the truth sends the place of every label in the given
    order to the place of that same label among the sorted columns: an
    encoded value keeps denoting its label. *)
Theorem encoding_map_follows_labels :
  forall prob_cols i c,
    NoDup prob_cols ->
    nth_error prob_cols i = Some c ->
    exists j,
      map_get (encoding_map prob_cols (sort prob_cols) 0) i = Some j
      /\ nth_error (sort prob_cols) j = Some c.
Proof.
  intros prob_cols i c D H.
  pose proof (index_of_NoDup _ D _ _ H) as E.
  assert (I : In c (sort prob_cols)) by (apply sort_in, (nth_error_In _ _ H)).
  destruct (encoding_map_complete prob_cols (sort prob_cols) 0 c i I E) as [j J].
  exists j. split; [exact J |].
  destruct (encoding_map_sound _ _ _ _ _ J) as (c' & _ & Nth & E').
  rewrite Nat.sub_0_r in Nth. rewrite Nth. f_equal.
  apply index_of_some in E'. congruence.
Qed.

Lemma encoding_map_follows_labels_ba :
  exists j,
    map_get (encoding_map ["b"; "a"] (sort ["b"; "a"]) 0) 0 = Some j
    /\ nth_error (sort ["b"; "a"]) j = Some "b".
Proof.
  apply encoding_map_follows_labels; [| reflexivity].
  repeat constructor; simpl; intuition discriminate.
Defined.

Lemma index_of_absent c cols : ~ In c cols -> index_of c cols = None.
Proof.
  induction cols as [| x cols IH]; simpl; intros N; [reflexivity |].
  destruct (String.eqb_spec x c) as [-> | E]; [exfalso; auto |].
  rewrite IH; [reflexivity | auto].
Qed.

Lemma length_pairs {A B} (f : A * B -> A) (l : list A) (vals : list B) :
  length vals = length l -> length (map f (combine l vals)) = length l.
Proof. intros E. rewrite length_map, length_combine, E. apply Nat.min_id. Qed.

(** [assign] under a label that the frame does not have puts the column
    last and keeps the number of rows, when the frame has columns. *)
Lemma assign_new df name values df' :
  assign df name values = Ok df' ->
  ~ In name (columns df) ->
  columns df <> [] ->
  columns df' = (columns df ++ [name])%list /\ length (rows df') = length (rows df).
Proof.
  unfold assign. intros H N C.
  assert (G : (if Nat.eqb (length values) (length (rows df))
               then Ok (set_column df name values)
               else Raise (Exn "ValueError" "Length of values does not match length of index"))
              = Ok df').
  { destruct (columns df) as [| x cols]; [contradiction |]. destruct (rows df); exact H. }
  destruct (Nat.eqb_spec (length values) (length (rows df))) as [E | E]; [| discriminate].
  injection G as <-. unfold set_column. rewrite (index_of_absent _ _ N). simpl.
  split; [reflexivity | apply length_pairs, E].
Qed.

Lemma sort_not_nil c l : sort (c :: l) <> [].
Proof.
  intros E. assert (I : In c (sort (c :: l))) by (apply sort_in; left; reflexivity).
  rewrite E in I. destruct I.
Qed.

(** X18: when [save_predictions] is given probabilities with their labels
    and returns, the file at [output_file] has one line for each row of
    probabilities after its header, and the header is the labels in
    increasing order, whatever the order in which they were given, then
    [predictions] and [truth]: the order of columns that
    [validate_predictions] asks for. No label may be [predictions] or
    [truth], whose column would then be overwritten. *)
Theorem save_predictions_sorts_the_labels :
  forall py dataset output_file predictions truth probs c labels target_is_encoded st st',
    save_predictions py dataset output_file predictions truth
      (Some probs) (Some (c :: labels)) target_is_encoded st = (Ok tt, st') ->
    ~ In "predictions" (c :: labels) ->
    ~ In "truth" (c :: labels) ->
    exists body,
      lookup (files st') output_file
      = Some ((sort (c :: labels) ++ ["predictions"; "truth"])%list :: body)
      /\ increasing (sort (c :: labels))
      /\ length body = length probs.
Proof.
  intros py dataset output_file predictions truth probs c labels enc st st' H Np Nt.
  unfold save_predictions in H.
  set (sorted := select {| columns := c :: labels; rows := probs |} (sort (c :: labels))) in H.
  assert (Cs : columns sorted = sort (c :: labels)) by reflexivity.
  assert (Rs : length (rows sorted) = length probs)
    by (unfold sorted, select; simpl; apply length_map).
  destruct (list_eq_dec string_dec (c :: labels) (columns sorted)) as [Same | Other];
    apply ScoreboardFacts.mbind_ok in H as (values & s1 & _ & H);
    apply ScoreboardFacts.mbind_ok in H as (df1 & s2 & H1 & H);
    apply ScoreboardFacts.mbind_ok in H as (df2 & s3 & H2 & H);
    apply ScoreboardFacts.mbind_ok in H as ([] & s4 & _ & H).
  all: assert (A1 : assign sorted "predictions" (fst values) = Ok df1)
         by (destruct (assign sorted "predictions" (fst values)); [injection H1 as <- _; reflexivity | discriminate]).
  all: assert (A2 : assign df1 "truth" (snd values) = Ok df2)
         by (destruct (assign df1 "truth" (snd values)); [injection H2 as <- _; reflexivity | discriminate]).
  all: destruct (assign_new _ _ _ _ A1) as [C1 R1];
         [rewrite Cs; intros I; apply Np, sort_in, I | rewrite Cs; apply sort_not_nil |].
  all: destruct (assign_new _ _ _ _ A2) as [C2 R2];
         [ rewrite C1, Cs; intros I; apply in_app_or in I as [I | [I | []]];
             [apply Nt, sort_in, I | discriminate]
         | rewrite C1; intros E; apply app_eq_nil in E as [_ E]; discriminate |].
  all: unfold write_csv, mbind, read_file, write_file in H; injection H as <-;
         unfold lookup; cbn [files find fst snd]; rewrite String.eqb_refl; cbn [snd];
         exists (map (map (csv_text py)) (rows df2));
         rewrite C2, C1, Cs, <- app_assoc;
         split; [reflexivity |]; split; [apply sort_increasing |];
         rewrite length_map, R2, R1; exact Rs.
Qed.

Lemma save_predictions_sorts_the_labels_ba :
  exists body,
    lookup (files (snd (save_predictions py0 dataset_ab "/out/predictions/t/0/predictions.csv"
                          [PInt 0; PInt 1] None
                          (Some [[PFloat (FNum 1 0); PFloat (FNum 0 0)];
                                 [PFloat (FNum 0 0); PFloat (FNum 1 0)]])
                          (Some ["b"; "a"]) true (store_with_file []))))
           "/out/predictions/t/0/predictions.csv"
    = Some ((sort ["b"; "a"] ++ ["predictions"; "truth"])%list :: body)
    /\ increasing (sort ["b"; "a"])
    /\ length body = 2.
Proof.
  apply (save_predictions_sorts_the_labels py0 dataset_ab
           "/out/predictions/t/0/predictions.csv" [PInt 0; PInt 1] None
           [[PFloat (FNum 1 0); PFloat (FNum 0 0)]; [PFloat (FNum 0 0); PFloat (FNum 1 0)]]
           "b" ["a"] true (store_with_file [])).
  - reflexivity.
  - simpl; intuition discriminate.
  - simpl; intuition discriminate.
Defined.

End PredictionsFacts.

(** ** The scope read from the name of a file *)

Module FromFileFacts.
Import Naming Captures Examples.

Lemma more_inv {R} lazy c (k : list ascii -> string -> option R) s :
  forall taken r,
    Re.more lazy c k taken s = Some r ->
    exists ext rest, k (ext ++ taken)%list rest = Some r.
Proof.
  induction s as [| a s IH]; intros taken r H.
  - simpl in H. exists [], "". simpl. destruct lazy; destruct (k taken ""); congruence.
  - simpl in H.
    assert (E : k taken (String a s) = Some r
                \/ (Re.in_class c a = true /\ Re.more lazy c k (a :: taken) s = Some r)).
    { destruct lazy.
      - destruct (k taken (String a s)); [left; exact H | right].
        destruct (Re.in_class c a); [auto | discriminate].
      - destruct (Re.in_class c a).
        + destruct (Re.more false c k (a :: taken) s); [right; auto | left; exact H].
        + left; exact H. }
    destruct E as [E | [_ E]].
    + exists [], (String a s). exact E.
    + destruct (IH _ _ E) as (ext & rest & K).
      exists (ext ++ [a])%list, rest. rewrite <- app_assoc. exact K.
Qed.

Lemma plus_inv {R} lazy c (k : list ascii -> string -> option R) s r :
  Re.plus lazy c k s = Some r ->
  exists taken rest, k taken rest = Some r /\ taken <> [].
Proof.
  unfold Re.plus. destruct s as [| a s]; [discriminate |].
  destruct (Re.in_class c a); [| discriminate].
  intros H. apply more_inv in H as (ext & rest & K).
  exists (ext ++ [a])%list, rest. split; [exact K |].
  intros E. apply app_eq_nil in E as [_ E]. discriminate.
Qed.

Lemma of_chars_rev_not_empty taken : taken <> [] -> Str.of_chars (rev taken) <> "".
Proof.
  intros N E. apply N. rewrite <- (rev_involutive taken).
  destruct (rev taken); [reflexivity | discriminate].
Qed.

(** A match adds the groups of its pattern in front of the dictionary, the
    last group first. *)
Lemma run_captured an p :
  forall s g d,
    Re.run an p s g = Some d ->
    exists caps, d = (rev caps ++ g)%list /\ captured p caps.
Proof.
  induction p as [| n p IH]; intros s g d H.
  - exists []. split; [| reflexivity].
    simpl in H |- *. destruct an, s; congruence.
  - destruct n as [c | name lazy c | name body]; simpl in H.
    + destruct s as [| a s]; [discriminate |].
      destruct (Re.in_class c a); [| discriminate].
      apply IH in H as (caps & -> & C). exists caps. auto.
    + apply plus_inv in H as (taken & rest & H & N).
      apply IH in H as (caps & -> & C).
      exists ((name, Str.of_chars (rev taken)) :: caps). split.
      * simpl. rewrite <- app_assoc. reflexivity.
      * simpl. exists (Str.of_chars (rev taken)), caps.
        split; [reflexivity |]. split; [apply of_chars_rev_not_empty, N | exact C].
    + destruct (Re.take body s) as [[t rest] |]; [| discriminate].
      apply IH in H as (caps & -> & C).
      exists ((name, t) :: caps). split.
      * simpl. rewrite <- app_assoc. reflexivity.
      * simpl. eauto.
Qed.

Lemma captured_lit s p caps : captured (Re.lit s ++ p)%list caps -> captured p caps.
Proof. unfold Re.lit. induction (Str.chars s) as [| a l IH]; simpl; auto. Qed.

Lemma captured_raw s p caps : captured (Re.raw s ++ p)%list caps -> captured p caps.
Proof.
  unfold Re.raw. induction (Str.chars s) as [| a l IH]; simpl; [auto |].
  destruct (Ascii.eqb a "."); simpl; auto.
Qed.

Lemma captured_lit_end s caps : captured (Re.lit s) caps -> caps = [].
Proof. intros C. apply (captured_lit s []). rewrite app_nil_r. exact C. Qed.

Lemma captured_raw_end s caps : captured (Re.raw s) caps -> caps = [].
Proof. intros C. apply (captured_raw s []). rewrite app_nil_r. exact C. Qed.

Lemma first_match_in pats basename d :
  first_match pats basename = Some d ->
  exists pat, In pat pats /\ Re.fullmatch pat basename = Some d.
Proof.
  induction pats as [| pat pats IH]; simpl; [discriminate |].
  destruct (Re.fullmatch pat basename) as [d' |] eqn:M; intros H.
  - injection H as <-. exists pat. auto.
  - destruct (IH H) as (pat' & I & M'). exists pat'. auto.
Qed.

Lemma truthy_of_not_empty v : v <> "" -> name_truthy (NStr v) = true.
Proof. destruct v; [contradiction | reflexivity]. Qed.

#[local] Ltac strip C :=
  repeat first
    [ apply captured_raw_end in C
    | apply captured_lit_end in C
    | apply captured_raw in C
    | apply captured_lit in C
    | cbn [app captured] in C; destruct C as (? & ? & -> & ? & C) ].

(** X19: for a separator that holds no metacharacter of regular
    expressions other than the dot, the scope that [from_file] reads from
    the name of a file never has both a benchmark and a task; each of its
    three names is either [False], never [None], or a string that is not
    empty, so that [_score_file] takes a name for set exactly when the
    pattern had its group. *)
Theorem from_file_scope :
  forall cfg path sc,
    Re.plain (token_separator cfg) = true ->
    from_file cfg path = Some sc ->
    (benchmark_name sc = NFalse \/ task_name sc = NFalse)
    /\ (framework_name sc = NFalse \/ name_truthy (framework_name sc) = true)
    /\ (benchmark_name sc = NFalse \/ name_truthy (benchmark_name sc) = true)
    /\ (task_name sc = NFalse \/ name_truthy (task_name sc) = true).
Proof.
  intros cfg path sc _ H. unfold from_file in H.
  destruct (OsPath.split path) as [folder basename].
  destruct (first_match (from_file_patterns (token_separator cfg)) basename) as [d |] eqn:F;
    [| discriminate].
  injection H as <-. cbn [framework_name benchmark_name task_name].
  apply first_match_in in F as (pat & I & M).
  unfold Re.fullmatch in M. apply run_captured in M as (caps & -> & C).
  unfold from_file_patterns, dot_csv in I.
  destruct I as [<- | [<- | [<- | [<- | [<- | [<- | []]]]]]]; strip C; subst;
    unfold in_and_get; cbn [rev app Re.group String.eqb Ascii.eqb Bool.eqb];
    repeat split; auto using truthy_of_not_empty.
Qed.

Lemma from_file_scope_fw_task_t :
  from_file (cfg0 "_") "/out/scores/fw_task_t.csv"
  = Some {| framework_name := NStr "fw"; benchmark_name := NFalse;
            task_name := NStr "t"; scores_dir := "/out/scores" |}
  /\ (NFalse = NFalse \/ NStr "t" = NFalse)
  /\ (NStr "fw" = NFalse \/ name_truthy (NStr "fw") = true)
  /\ (NFalse = NFalse \/ name_truthy NFalse = true)
  /\ (NStr "t" = NFalse \/ name_truthy (NStr "t") = true).
Proof.
  split; [reflexivity |].
  exact (from_file_scope (cfg0 "_") "/out/scores/fw_task_t.csv" _ eq_refl eq_refl).
Defined.

End FromFileFacts.
